(** * TradeLab: the IBKR historical-data fetchers

    A shallow embedding of [tradelab/data/ibkr_fetcher.py],
    [tradelab/data/batch_fetcher.py] and the part of
    [tradelab/config/settings.py] they read, with the properties the
    design document states about them.

    Python values are modelled as follows.
    - A calendar date (a pandas [Timestamp] at midnight in the market
      timezone) is its proleptic Gregorian ordinal, as [date.toordinal()]
      gives it: a [Z].
    - A [dict] is an insertion-ordered association list ([Dict]), since
      [main] iterates [results.items()].
    - The file system is a set of directories and a finite map from paths
      to file contents (stdpp's [gset] and [gmap]).
    - Logging, sleeping, gateway calls and file-system calls are recorded
      in chronological order in an event list.
    - A call either returns or raises: [result]. *)

From Stdlib Require Import ZArith Lia List Bool Ascii String Sorted.
From stdpp Require Import base option list gmap strings pretty.
Import ListNotations.

Local Open Scope Z_scope.

(** ** Python values *)

Module Py.

(** An exception object. Of its class only one thing matters to the
    handlers of this program, which are all [except Exception]: whether
    the class derives from [Exception] ([ValueError], [OSError],
    [ConnectionError], ...) or only from [BaseException]
    ([KeyboardInterrupt], [SystemExit], [asyncio.CancelledError]).
    [exn_str] is [str(e)]. *)
Record exn : Type := mk_exn {
  is_Exception : bool;
  exn_class : string;
  exn_str : string
}.

Definition ValueError (msg : string) : exn := mk_exn true "ValueError" msg.
Definition IndexError (msg : string) : exn := mk_exn true "IndexError" msg.
Definition KeyError (msg : string) : exn := mk_exn true "KeyError" msg.
Definition OSError (cls msg : string) : exn := mk_exn true cls msg.
Definition KeyboardInterrupt : exn := mk_exn false "KeyboardInterrupt" "".

(** The outcome of a call. *)
Inductive result (A : Type) : Type :=
| Return (a : A)
| Raise (e : exn).
Global Arguments Return {A} a.
Global Arguments Raise {A} e.

(** The value a call returned, if it returned. *)
Definition returned {A} (r : result A) : option A :=
  match r with
  | Return a => Some a
  | Raise _ => None
  end.

(** The same with a default for a call that raised. *)
Definition value {A} (default : A) (r : result A) : A :=
  match r with
  | Return a => a
  | Raise _ => default
  end.

(** [s[:n]], [s[a:b]] and [s[n:]]; a slice past the end is cut short. *)
Definition slice_to (n : nat) (s : string) : string := substring 0 n s.
Definition slice (a b : nat) (s : string) : string := substring a (b - a) s.
Fixpoint slice_from (n : nat) (s : string) : string :=
  match n, s with
  | O, _ => s
  | S n', String _ s' => slice_from n' s'
  | S _, EmptyString => EmptyString
  end.

(** [s.startswith(p)]. *)
Definition startswith (p s : string) : bool := String.prefix p s.

(** [s.split(sep)] for a separator of one character. *)
Fixpoint split (sep : ascii) (s : string) : list string :=
  match s with
  | EmptyString => [EmptyString]
  | String c s' =>
      if Ascii.eqb c sep then EmptyString :: split sep s'
      else match split sep s' with
           | [] => [String c EmptyString]
           | w :: ws => String c w :: ws
           end
  end.

Definition digit_of (c : ascii) : option Z :=
  let n := Z.of_N (N_of_ascii c) in
  if (48 <=? n) && (n <=? 57) then Some (n - 48) else None.

Fixpoint int_go (acc : Z) (s : string) : option Z :=
  match s with
  | EmptyString => Some acc
  | String c s' =>
      match digit_of c with
      | Some d => int_go (10 * acc + d) s'
      | None => None
      end
  end.

(** [int(s)] on a string of decimal digits; anything else is a
    [ValueError]. *)
Definition int (s : string) : result Z :=
  match s with
  | EmptyString => Raise (ValueError "invalid literal for int() with base 10: ''")
  | _ => match int_go 0 s with
         | Some n => Return n
         | None => Raise (ValueError ("invalid literal for int() with base 10: '" +:+ s +:+ "'"))
         end
  end.

(** [x in l] and [l.index(x)] on a list of strings. *)
Definition contains (x : string) (l : list string) : bool :=
  existsb (String.eqb x) l.

Fixpoint index (x : string) (l : list string) : option nat :=
  match l with
  | [] => None
  | y :: l' => if String.eqb x y then Some O else option_map S (index x l')
  end.

End Py.

Import Py.

(** ** Calendar *)

Module Calendar.

(** [date.weekday()]: Monday is 0, Sunday is 6; ordinal 1 (0001-01-01) is a
    Monday. *)
Definition weekday (d : Z) : Z := (d + 6) mod 7.

(** [BusinessDay.is_on_offset]: [dt.weekday() < 5]. *)
Definition is_on_offset (d : Z) : bool := weekday d <? 5.

(** [BusinessDay._apply] for [n = 1], the step [pd.date_range] makes for
    [freq='B']: from a weekend day to the next Monday, from Monday to
    Thursday one day on, from Friday over the weekend. *)
Definition bday_next (d : Z) : Z :=
  let wday := weekday d in
  if 4 <? wday then d + (7 - wday)
  else if wday + 1 <=? 4 then d + 1
  else d + 3.

(** [BusinessDay.rollforward]. *)
Definition rollforward (d : Z) : Z :=
  if is_on_offset d then d else bday_next d.

(** The generator loop of [pd.date_range]:
    [while cur <= end: yield cur; if cur == end: break; cur = offset._apply(cur)].
    Every step moves at least one day on, so the number of days of the
    window is enough fuel. *)
Fixpoint generate_range (fuel : nat) (cur end_ : Z) : list Z :=
  match fuel with
  | O => []
  | S fuel' =>
      if cur <=? end_ then
        cur :: (if cur =? end_ then [] else generate_range fuel' (bday_next cur) end_)
      else []
  end.

(** [pd.date_range(start=start, end=end, freq='B')]: the start is rolled
    forward to a business day; a window that ends before that has no
    period. *)
Definition date_range_B (start end_ : Z) : list Z :=
  let start' := rollforward start in
  if end_ <? start' then []
  else generate_range (Z.to_nat (end_ - start + 1)) start' end_.

(** The design document's description of the sequence: the weekdays of
    the window, in calendar order. *)
Definition weekdays_between (start end_ : Z) : list Z :=
  filter (λ d, weekday d < 5) (seqZ start (end_ - start + 1)).

(** The civil date of an ordinal (year, month, day of the proleptic
    Gregorian calendar), computed in 400-year eras that start on 1 March. *)
Definition ymd_of_ordinal (n : Z) : Z * Z * Z :=
  let z := n + 305 in
  let era := z / 146097 in
  let doe := z - era * 146097 in
  let yoe := (doe - doe / 1460 + doe / 36524 - doe / 146096) / 365 in
  let doy := doe - (365 * yoe + yoe / 4 - yoe / 100) in
  let mp := (5 * doy + 2) / 153 in
  let d := doy - (153 * mp + 2) / 5 + 1 in
  let m := if mp <? 10 then mp + 3 else mp - 9 in
  let y := yoe + era * 400 in
  (if m <=? 2 then y + 1 else y, m, d).

Definition ordinal_of_ymd (y m d : Z) : Z :=
  let y' := if m <=? 2 then y - 1 else y in
  let era := y' / 400 in
  let yoe := y' - era * 400 in
  let doy := (153 * (if 2 <? m then m - 3 else m + 9) + 2) / 5 + d - 1 in
  let doe := yoe * 365 + yoe / 4 - yoe / 100 + doy in
  era * 146097 + doe - 305.

Definition is_leap (y : Z) : bool :=
  (y mod 4 =? 0) && (negb (y mod 100 =? 0) || (y mod 400 =? 0)).

Definition days_in_month (y m : Z) : Z :=
  if m =? 2 then (if is_leap y then 29 else 28)
  else if (m =? 4) || (m =? 6) || (m =? 9) || (m =? 11) then 30
  else 31.

Definition digit_char (n : Z) : ascii := ascii_of_N (Z.to_N (48 + n mod 10)).
Definition fmt2 (n : Z) : string :=
  String (digit_char (n / 10)) (String (digit_char n) EmptyString).
Definition fmt4 (n : Z) : string :=
  String (digit_char (n / 1000)) (String (digit_char (n / 100)) (fmt2 n)).

(** [ts.strftime('%Y-%m-%d')]. *)
Definition strftime (d : Z) : string :=
  let '(y, m, dd) := ymd_of_ordinal d in
  fmt4 y +:+ "-" +:+ fmt2 m +:+ "-" +:+ fmt2 dd.

(** The days a nanosecond-resolution [Timestamp] can hold at midnight:
    1677-09-22 to 2262-04-11. *)
Definition Timestamp_min : Z := ordinal_of_ymd 1677 9 22.
Definition Timestamp_max : Z := ordinal_of_ymd 2262 4 11.

Definition digits (s : string) : option Z :=
  match s with EmptyString => None | _ => int_go 0 s end.

(** [pd.to_datetime(s)] on a string. Both callers in this program build
    the string as [YYYY-MM-DD]; the model reads that form, and raises on
    any other string, on a date that does not exist and on a date outside
    the [Timestamp] bounds. *)
Definition to_datetime (s : string) : result Z :=
  if negb (Nat.eqb (String.length s) 10) then
    Raise (ValueError ("Unknown datetime string format, unable to parse: " +:+ s))
  else if negb (String.eqb (substring 4 1 s) "-" && String.eqb (substring 7 1 s) "-") then
    Raise (ValueError ("Unknown datetime string format, unable to parse: " +:+ s))
  else
    match digits (substring 0 4 s), digits (substring 5 2 s), digits (substring 8 2 s) with
    | Some y, Some m, Some d =>
        if (1 <=? m) && (m <=? 12) && (1 <=? d) && (d <=? days_in_month y m) then
          let n := ordinal_of_ymd y m d in
          if (Timestamp_min <=? n) && (n <=? Timestamp_max) then Return n
          else Raise (mk_exn true "OutOfBoundsDatetime"
                        ("Out of bounds nanosecond timestamp: " +:+ s))
        else Raise (ValueError ("day is out of range for month: " +:+ s))
    | _, _, _ =>
        Raise (ValueError ("Unknown datetime string format, unable to parse: " +:+ s))
    end.

(** Reading back a formatted day, for the brute-force check below. *)
Definition reads_back (d : Z) : bool :=
  match to_datetime (strftime d) with
  | Return d' => d' =? d
  | Raise _ => false
  end.

Fixpoint all_read_back (n : nat) (d : Z) : bool :=
  match n with
  | O => true
  | S n' => reads_back d && all_read_back n' (d + 1)
  end.

End Calendar.

Import Calendar.

(** ** Dictionaries *)

Module PyDict.

(** A [dict] with string keys, in insertion order. *)
Definition Dict (V : Type) : Type := list (string * V).

(** [d[k] = v]: an existing key keeps its place, a new key goes last. *)
Fixpoint dict_set {V} (k : string) (v : V) (d : Dict V) : Dict V :=
  match d with
  | [] => [(k, v)]
  | (k', v') :: d' =>
      if String.eqb k k' then (k', v) :: d' else (k', v') :: dict_set k v d'
  end.

(** [d.get(k)]. *)
Fixpoint dict_get {V} (k : string) (d : Dict V) : option V :=
  match d with
  | [] => None
  | (k', v') :: d' => if String.eqb k k' then Some v' else dict_get k d'
  end.

Definition dict_keys {V} (d : Dict V) : list string := map fst d.
Definition dict_values {V} (d : Dict V) : list V := map snd d.

(** The truth value of a dict: [bool(d)]. *)
Definition dict_truthy {V} (d : Dict V) : bool :=
  match d with [] => false | _ => true end.

End PyDict.

Import PyDict.

(** ** Paths and the file system *)

Module Pathlib.

(** A path is the list of its components below the root. *)
Definition Path : Type := list string.

(** The components of a path text: split at [/], without the empty and
    the [.] components. *)
Definition parts (s : string) : list string :=
  filter (λ c : string, c ≠ "" ∧ c ≠ ".") (split "/" s).

(** [p / s]: an absolute right operand replaces [p]. *)
Definition div (p : Path) (s : string) : Path :=
  if startswith "/" s then parts s else p ++ parts s.

(** [str(p)] of an absolute path. *)
Definition str (p : Path) : string := "/" +:+ String.concat "/" p.

Definition parent (p : Path) : Path := removelast p.

End Pathlib.

Import Pathlib.
Infix "</>" := Pathlib.div (at level 40, left associativity).

Module Fs.

(** The directories other than the root, and the files with their lines. *)
Record FS : Type := mk_FS {
  fs_dirs : gset Path;
  fs_files : gmap Path (list string)
}.

Definition is_dir (fs : FS) (p : Path) : bool :=
  bool_decide (p = [] ∨ p ∈ fs_dirs fs).

Definition is_file (fs : FS) (p : Path) : bool :=
  bool_decide (is_Some (fs_files fs !! p)).

Definition add_dir (p : Path) (fs : FS) : FS :=
  mk_FS ({[p]} ∪ fs_dirs fs) (fs_files fs).

(** The error of a path whose parent is not a directory: the parent is a
    file, or it is missing. *)
Definition no_parent (fs : FS) (p : Path) : exn :=
  if is_file fs (parent p) then
    OSError "NotADirectoryError" ("[Errno 20] Not a directory: '" +:+ str p +:+ "'")
  else
    OSError "FileNotFoundError" ("[Errno 2] No such file or directory: '" +:+ str p +:+ "'").

(** [p.mkdir(exist_ok=True)]: nothing to do for a directory; a file in
    the way or a parent that is no directory is an [OSError]. *)
Definition mkdir (p : Path) (fs : FS) : result FS :=
  if is_dir fs p then Return fs
  else if is_file fs p then
    Raise (OSError "FileExistsError" ("[Errno 17] File exists: '" +:+ str p +:+ "'"))
  else if is_dir fs (parent p) then Return (add_dir p fs)
  else Raise (no_parent fs p).

(** [p.mkdir(parents=True, exist_ok=True)]: the missing ancestors are
    made on the way; [above] is the part of the path already walked. A
    file on the way is an [OSError]. *)
Fixpoint makedirs (above : Path) (below : list string) (fs : FS) : result FS :=
  match below with
  | [] => Return fs
  | c :: below' =>
      let p := above ++ [c] in
      if is_file fs p then
        match below' with
        | [] =>
            Raise (OSError "FileExistsError" ("[Errno 17] File exists: '" +:+ str p +:+ "'"))
        | _ :: _ =>
            Raise (OSError "NotADirectoryError"
                     ("[Errno 20] Not a directory: '" +:+ str (p ++ below') +:+ "'"))
        end
      else makedirs p below' (if is_dir fs p then fs else add_dir p fs)
  end.

(** [open(p, 'w')] and writing the lines: the file is made or
    overwritten; a directory at [p] or a parent that is no directory is an
    [OSError]. *)
Definition write (p : Path) (lines : list string) (fs : FS) : result FS :=
  if is_dir fs p then
    Raise (OSError "IsADirectoryError" ("[Errno 21] Is a directory: '" +:+ str p +:+ "'"))
  else if is_dir fs (parent p) then
    Return (mk_FS (fs_dirs fs) (<[p := lines]> (fs_files fs)))
  else Raise (no_parent fs p).

(** [open(p)] and reading the lines. *)
Definition read (p : Path) (fs : FS) : result (list string) :=
  match fs_files fs !! p with
  | Some lines => Return lines
  | None =>
      if is_dir fs p then
        Raise (OSError "IsADirectoryError" ("[Errno 21] Is a directory: '" +:+ str p +:+ "'"))
      else
        Raise (OSError "FileNotFoundError"
                 ("[Errno 2] No such file or directory: '" +:+ str p +:+ "'"))
  end.

End Fs.

Import Fs.

(** ** Tables *)

Module Pandas.

(** A table as the program uses it: column names and rows of cells. The
    cells are kept as text; the program never computes with them. *)
Record DataFrame : Type := mk_DataFrame {
  df_columns : list string;
  df_rows : list (list string)
}.

(** [len(df)]. *)
Definition df_len (df : DataFrame) : nat := length (df_rows df).

(** The lines [df.to_csv(path, index=False)] writes: the header, then
    the rows. *)
Definition csv_lines (df : DataFrame) : list string :=
  String.concat "," (df_columns df) :: map (String.concat ",") (df_rows df).

(** The table [pd.read_csv] reads from the lines of a file: blank lines
    are skipped, the first line is the header. *)
Definition parse_csv (lines : list string) : result DataFrame :=
  match filter (λ l : string, l ≠ "") lines with
  | [] => Raise (mk_exn true "EmptyDataError" "No columns to parse from file")
  | header :: rows => Return (mk_DataFrame (split "," header) (map (split ",") rows))
  end.

(** [df[name].tolist()]; a row too short for the column reads as [nan]. *)
Definition column (name : string) (df : DataFrame) : result (list string) :=
  match index name (df_columns df) with
  | Some i => Return (map (λ row, nth i row "nan") (df_rows df))
  | None => Raise (KeyError ("'" +:+ name +:+ "'"))
  end.

End Pandas.

Import Pandas.

(** ** The gateway client and the effects of the program *)

Module Ib.

(** [Stock(symbol, exchange, currency)]. *)
Record Contract : Type := Stock {
  symbol : string;
  exchange : string;
  currency : string
}.

(** A timezone-aware [Timestamp]: the day, the time of day and the zone. *)
Record Timestamp : Type := mk_Timestamp {
  ts_day : Z;
  ts_hour : Z;
  ts_minute : Z;
  ts_tz : string
}.

(** The arguments of [ib.reqHistoricalData]. *)
Record HistRequest : Type := mk_HistRequest {
  contract : Contract;
  endDateTime : Timestamp;
  durationStr : string;
  barSizeSetting : string;
  whatToShow : string;
  useRTH : bool;
  formatDate : Z
}.

(** One bar of the answer ([ib_insync.BarData]). *)
Record BarData : Type := mk_BarData {
  bar_date : string;
  bar_open : string;
  bar_high : string;
  bar_low : string;
  bar_close : string;
  bar_volume : string;
  bar_average : string;
  bar_barCount : string
}.

Inductive level : Type := INFO | WARNING | ERROR.

(** What the program does to the outside, in the order it does it. *)
Inductive event : Type :=
| Log (lvl : level) (msg : string)
| Sleep (milliseconds : Z)
| IbConnect (host : string) (port client_id : Z)
| IbDisconnect
| IbReqHistoricalData (req : HistRequest)
| FsMkdir (p : Path)
| FsWrite (p : Path)
| FsRead (p : Path).

(** The gateway is outside the program: its answers are given as
    functions of what has happened so far and of the request.
    [gw_connect] answers [None] when the connection is made. *)
Record Gateway : Type := mk_Gateway {
  gw_connect : list event → string → Z → Z → option exn;
  gw_reqHistoricalData : list event → HistRequest → result (list BarData)
}.

(** [util.df(bars)]: one row per bar, one column per field. *)
Definition util_df (bars : list BarData) : DataFrame :=
  mk_DataFrame
    ["date"; "open"; "high"; "low"; "close"; "volume"; "average"; "barCount"]
    (map (λ b, [bar_date b; bar_open b; bar_high b; bar_low b; bar_close b;
                bar_volume b; bar_average b; bar_barCount b]) bars).

End Ib.

Import Ib.

(** ** State and exceptions *)

Module Run.

(** The state the program runs in: the [connected] attribute of the
    fetcher object (its only attribute written after construction), the
    file system, and the events so far. *)
Record World : Type := mk_World {
  connected : bool;
  fs : FS;
  events : list event
}.

(** A computation returns or raises, and leaves a state either way. *)
Definition M (A : Type) : Type := World → result A * World.

Definition ret {A} (a : A) : M A := λ w, (Return a, w).
Definition raise {A} (e : exn) : M A := λ w, (Raise e, w).

Definition bind {A B} (m : M A) (k : A → M B) : M B :=
  λ w, match m w with
       | (Return a, w') => k a w'
       | (Raise e, w') => (Raise e, w')
       end.

(** [try: body / except Exception as e: handler]: only an exception
    whose class derives from [Exception] is handled. *)
Definition try_except {A} (body : M A) (handler : exn → M A) : M A :=
  λ w, match body w with
       | (Return a, w') => (Return a, w')
       | (Raise e, w') => if is_Exception e then handler e w' else (Raise e, w')
       end.

(** [try: body / finally: cleanup]. *)
Definition try_finally {A} (body : M A) (cleanup : M unit) : M A :=
  λ w, match body w with
       | (r, w') =>
           match cleanup w' with
           | (Return _, w'') => (r, w'')
           | (Raise e, w'') => (Raise e, w'')
           end
       end.

(** A pure step that may raise. *)
Definition lift {A} (r : result A) : M A := λ w, (r, w).

Definition emit (e : event) (w : World) : World :=
  mk_World (connected w) (fs w) (events w ++ [e]).

Definition log (lvl : level) (msg : string) : M unit :=
  λ w, (Return tt, emit (Log lvl msg) w).

(** [time.sleep]. *)
Definition sleep (milliseconds : Z) : M unit :=
  λ w, (Return tt, emit (Sleep milliseconds) w).

(** [sys.exit(code)] raises [SystemExit], which no handler of this
    program catches. *)
Definition SystemExit (code : Z) : exn := mk_exn false "SystemExit" (pretty code).
Definition sys_exit {A} (code : Z) : M A := raise (SystemExit code).

Definition get_connected : M bool := λ w, (Return (connected w), w).
Definition set_connected (b : bool) : M unit :=
  λ w, (Return tt, mk_World b (fs w) (events w)).

(** A file-system call: the call is recorded, and the file system
    changes when the call succeeds. *)
Definition fs_call (e : event) (op : FS → result FS) : M unit :=
  λ w, match op (fs w) with
       | Return fs' => (Return tt, mk_World (connected w) fs' (events w ++ [e]))
       | Raise x => (Raise x, emit e w)
       end.

Definition mkdir_exist_ok (p : Path) : M unit := fs_call (FsMkdir p) (Fs.mkdir p).
Definition mkdir_parents (p : Path) : M unit := fs_call (FsMkdir p) (Fs.makedirs [] p).
Definition to_csv (df : DataFrame) (p : Path) : M unit :=
  fs_call (FsWrite p) (Fs.write p (csv_lines df)).

(** [pd.read_csv(p)]. *)
Definition read_csv (p : Path) : M DataFrame :=
  λ w, match Fs.read p (fs w) with
       | Return lines => (parse_csv lines, emit (FsRead p) w)
       | Raise x => (Raise x, emit (FsRead p) w)
       end.

(** The calls on the gateway client. *)
Definition ib_connect (gw : Gateway) (host : string) (port client_id : Z) : M unit :=
  λ w, match gw_connect gw (events w) host port client_id with
       | None => (Return tt, emit (IbConnect host port client_id) w)
       | Some x => (Raise x, emit (IbConnect host port client_id) w)
       end.

Definition ib_disconnect : M unit := λ w, (Return tt, emit IbDisconnect w).

Definition ib_reqHistoricalData (gw : Gateway) (req : HistRequest) : M (list BarData) :=
  λ w, (gw_reqHistoricalData gw (events w) req, emit (IbReqHistoricalData req) w).

End Run.

Import Run.

Notation "x <- m ;; k" := (bind m (λ x, k))
  (at level 100, m at next level, right associativity, only parsing).
Notation "m ;; k" := (bind m (λ _, k))
  (at level 100, k at level 200, right associativity, only parsing).

(** ** [tradelab/config/settings.py] *)

Module Config.

Record MarketHours : Type := mk_MarketHours {
  mh_start : string;
  mh_end : string;
  mh_timezone : string;
  mh_trading_days : string
}.

Record DataSettings : Type := mk_DataSettings {
  ds_interval : string;
  ds_required_columns : list string;
  default_retries : Z;
  retry_delay : Z
}.

Record Settings : Type := mk_Settings {
  PROJECT_ROOT : Path;
  DATA_DIR : Path;
  RAW_DATA_DIR : Path;
  PROCESSED_DATA_DIR : Path;
  MARKET_HOURS : MarketHours;
  DATA_SETTINGS : DataSettings
}.

(** [Settings._create_directories]. *)
Definition _create_directories (self : Settings) : M unit :=
  mkdir_parents (RAW_DATA_DIR self) ;;
  mkdir_parents (PROCESSED_DATA_DIR self).

(** The values [Settings.__init__] sets; [project_root] is the directory
    three levels above the file. *)
Definition default_settings (project_root : Path) : Settings :=
  let data_dir := project_root </> "data" in
  {| PROJECT_ROOT := project_root;
     DATA_DIR := data_dir;
     RAW_DATA_DIR := data_dir </> "raw";
     PROCESSED_DATA_DIR := data_dir </> "processed";
     MARKET_HOURS :=
       {| mh_start := "09:30";
          mh_end := "16:00";
          mh_timezone := "America/New_York";
          mh_trading_days := "Mon Tue Wed Thu Fri" |};
     DATA_SETTINGS :=
       {| ds_interval := "1m";
          ds_required_columns := ["Datetime"; "Open"; "High"; "Low"; "Close"; "Volume"];
          default_retries := 3;
          retry_delay := 5 |} |}.

(** [Settings.__init__]. *)
Definition Settings_init (project_root : Path) : M Settings :=
  let self := default_settings project_root in
  _create_directories self ;;
  ret self.

(** Two settings that differ at most in the two retry entries of
    [DATA_SETTINGS]. *)
Definition same_but_retry (s1 s2 : Settings) : Prop :=
  PROJECT_ROOT s1 = PROJECT_ROOT s2
  ∧ DATA_DIR s1 = DATA_DIR s2
  ∧ RAW_DATA_DIR s1 = RAW_DATA_DIR s2
  ∧ PROCESSED_DATA_DIR s1 = PROCESSED_DATA_DIR s2
  ∧ MARKET_HOURS s1 = MARKET_HOURS s2
  ∧ ds_interval (DATA_SETTINGS s1) = ds_interval (DATA_SETTINGS s2)
  ∧ ds_required_columns (DATA_SETTINGS s1) = ds_required_columns (DATA_SETTINGS s2).

(** The settings with other values for the two retry entries of
    [DATA_SETTINGS], everything else as it is. *)
Definition with_retry (s : Settings) (retries delay : Z) : Settings :=
  {| PROJECT_ROOT := PROJECT_ROOT s;
     DATA_DIR := DATA_DIR s;
     RAW_DATA_DIR := RAW_DATA_DIR s;
     PROCESSED_DATA_DIR := PROCESSED_DATA_DIR s;
     MARKET_HOURS := MARKET_HOURS s;
     DATA_SETTINGS :=
       {| ds_interval := ds_interval (DATA_SETTINGS s);
          ds_required_columns := ds_required_columns (DATA_SETTINGS s);
          default_retries := retries;
          retry_delay := delay |} |}.

End Config.

Import Config.

(** ** [tradelab/data/ibkr_fetcher.py] *)

Module IBKR.

(** The attributes of an [IBKRFetcher] that are set once, in
    [__init__]. The [connected] attribute is in the [World]; [self.ib] is
    the [Gateway]. *)
Record IBKRFetcher : Type := mk_IBKRFetcher {
  save_dir : Path;
  market_start : list Z;
  market_end : list Z;
  market_timezone : string
}.

(** [tuple(map(int, s.split(':')))]. *)
Fixpoint map_int (l : list string) : result (list Z) :=
  match l with
  | [] => Return []
  | s :: l' =>
      match int s with
      | Raise e => Raise e
      | Return n =>
          match map_int l' with
          | Raise e => Raise e
          | Return ns => Return (n :: ns)
          end
      end
  end.

(** [IBKRFetcher.__init__]. *)
Definition IBKRFetcher_init (settings : Settings) (save_dir : option Path)
    : M IBKRFetcher :=
  set_connected false ;;
  let dir := match save_dir with
             | Some p => p
             | None => RAW_DATA_DIR settings
             end in
  log INFO ("Data will be saved to: " +:+ str dir) ;;
  mkdir_parents dir ;;
  let market_hours := MARKET_HOURS settings in
  market_start <- lift (map_int (split ":" (mh_start market_hours))) ;;
  market_end <- lift (map_int (split ":" (mh_end market_hours))) ;;
  ret (mk_IBKRFetcher dir market_start market_end (mh_timezone market_hours)).

(** [IBKRFetcher.connect]. *)
Definition connect (gw : Gateway) (self : IBKRFetcher) (port client_id : Z) : M bool :=
  try_except
    (ib_connect gw "127.0.0.1" port client_id ;;
     set_connected true ;;
     log INFO "Successfully connected to IBKR" ;;
     ret true)
    (λ e,
     log ERROR ("Failed to connect to IBKR: " +:+ exn_str e) ;;
     ret false).

(** [IBKRFetcher.disconnect]. *)
Definition disconnect (self : IBKRFetcher) : M unit :=
  c <- get_connected ;;
  if c then
    ib_disconnect ;;
    set_connected false
  else ret tt.

(** [IBKRFetcher._save_data]. *)
Definition _save_data (self : IBKRFetcher) (data : DataFrame) (ticker date : string)
    : M (option Path) :=
  try_except
    (d <- lift (to_datetime date) ;;
     let date_str := strftime d in
     let filename := "raw_" +:+ ticker +:+ "_" +:+ date_str +:+ ".csv" in
     let ticker_dir := save_dir self </> ticker in
     mkdir_exist_ok ticker_dir ;;
     let filepath := ticker_dir </> filename in
     to_csv data filepath ;;
     log INFO ("Data saved to: " +:+ str filepath) ;;
     ret (Some filepath))
    (λ e,
     log ERROR ("Error saving data: " +:+ exn_str e) ;;
     ret None).

(** [t[i]] on a tuple. *)
Definition tuple_item (t : list Z) (i : nat) : result Z :=
  match nth_error t i with
  | Some x => Return x
  | None => Raise (IndexError "tuple index out of range")
  end.

(** [date.replace(hour=h, minute=m)]. *)
Definition replace_hour_minute (date : Z) (tz : string) (h m : Z) : result Timestamp :=
  if negb ((0 <=? h) && (h <=? 23)) then Raise (ValueError "hour must be in 0..23")
  else if negb ((0 <=? m) && (m <=? 59)) then Raise (ValueError "minute must be in 0..59")
  else Return (mk_Timestamp date h m tz).

(** The request for one day (lines 88 to 99): the arguments are
    evaluated, then the gateway is called. *)
Definition request_day (gw : Gateway) (self : IBKRFetcher) (ticker : string) (date : Z)
    : M (list BarData) :=
  h <- lift (tuple_item (market_end self) 0) ;;
  m <- lift (tuple_item (market_end self) 1) ;;
  endDateTime <- lift (replace_hour_minute date (market_timezone self) h m) ;;
  ib_reqHistoricalData gw
    {| contract := Stock ticker "SMART" "USD";
       endDateTime := endDateTime;
       durationStr := "1 D";
       barSizeSetting := "1 min";
       whatToShow := "TRADES";
       useRTH := true;
       formatDate := 1 |}.

(** The body of the [try] in the loop over the days (lines 87 to 116);
    it returns the [results] dict as the iteration leaves it. *)
Definition fetch_day (gw : Gateway) (self : IBKRFetcher) (ticker : string) (date : Z)
    (results : Dict DataFrame) : M (Dict DataFrame) :=
  bars <- request_day gw self ticker date ;;
  match bars with
  | [] =>
      log WARNING ("No data available for " +:+ ticker +:+ " on " +:+ strftime date) ;;
      ret results
  | _ :: _ =>
      let df := util_df bars in
      let date_str := strftime date in
      results' <-
        (if (0 <? df_len df)%nat then
           saved <- _save_data self df ticker date_str ;;
           match saved with
           | Some _ =>
               log INFO ("Successfully saved " +:+ pretty (df_len df) +:+
                         " records for " +:+ date_str) ;;
               ret (dict_set date_str df results)
           | None => ret results
           end
         else ret results) ;;
      sleep 500 ;;
      ret results'
  end.

(** The loop over the days (lines 85 to 120). *)
Fixpoint fetch_days (gw : Gateway) (self : IBKRFetcher) (ticker : string)
    (date_range : list Z) (results : Dict DataFrame) : M (Dict DataFrame) :=
  match date_range with
  | [] => ret results
  | date :: rest =>
      results' <-
        try_except (fetch_day gw self ticker date results)
          (λ e,
           log ERROR ("Error fetching " +:+ ticker +:+ " for " +:+ strftime date +:+
                      ": " +:+ exn_str e) ;;
           ret results) ;;
      fetch_days gw self ticker rest results'
  end.

(** The truth value of an optional string: [None] and [''] are false. *)
Definition truthy (s : option string) : bool :=
  match s with
  | None => false
  | Some EmptyString => false
  | Some _ => true
  end.

(** Lines 75 to 79: the window of the two date arguments; without an
    end date the window is the start day. *)
Definition parse_window (start_date : string) (end_date : option string)
    : result (Z * Z) :=
  match to_datetime start_date with
  | Raise e => Raise e
  | Return start =>
      match end_date with
      | Some e =>
          if truthy end_date then
            match to_datetime e with
            | Raise x => Raise x
            | Return end_ => Return (start, end_)
            end
          else Return (start, start)
      | None => Return (start, start)
      end
  end.

(** [IBKRFetcher.fetch_date_range]. *)
Definition fetch_date_range (gw : Gateway) (self : IBKRFetcher) (ticker : string)
    (start_date : string) (end_date : option string) : M (Dict DataFrame) :=
  c <- get_connected ;;
  if negb c then
    log ERROR "Not connected to IBKR" ;;
    ret []
  else
    try_except
      (window <- lift (parse_window start_date end_date) ;;
       let date_range := date_range_B (fst window) (snd window) in
       fetch_days gw self ticker date_range [])
      (λ e,
       log ERROR ("Error in fetch_date_range for " +:+ ticker +:+ ": " +:+ exn_str e) ;;
       ret []).

(** [YYYYMMDD] to [YYYY-MM-DD], as both command lines do it:
    [f"{s[:4]}-{s[4:6]}-{s[6:]}"]. *)
Definition dashed (s : string) : string :=
  slice_to 4 s +:+ "-" +:+ slice 4 6 s +:+ "-" +:+ slice_from 6 s.

(** Lines 174 to 178 of [main]: the ticker of the command line. *)
Definition select_ticker (argv : list string) : string :=
  if contains "--ticker" argv then
    match index "--ticker" argv with
    | Some ticker_idx =>
        if (ticker_idx + 1 <? length argv)%nat then nth (ticker_idx + 1) argv ""
        else "NNE"
    | None => "NNE"
    end
  else "NNE".

(** Lines 153 to 171 of [main]: the dates of the command line. *)
Definition parse_dates (argv : list string) : M (string * option string) :=
  if (length argv <? 2)%nat then
    log ERROR "Please provide at least a start date (YYYYMMDD)" ;;
    log ERROR "Usage: python ibkr_fetcher.py START_DATE [END_DATE] [--ticker SYMBOL]" ;;
    sys_exit 1
  else
    let start_date := nth 1 argv "" in
    if negb (String.length start_date =? 8)%nat then
      raise (ValueError "Start date must be in YYYYMMDD format")
    else
      let start := dashed start_date in
      if (2 <? length argv)%nat && negb (startswith "--" (nth 2 argv "")) then
        let end_input := nth 2 argv "" in
        if negb (String.length end_input =? 8)%nat then
          raise (ValueError "End date must be in YYYYMMDD format")
        else ret (start, Some (dashed end_input))
      else ret (start, None).

Fixpoint log_dates (ticker : string) (items : Dict DataFrame) : M unit :=
  match items with
  | [] => ret tt
  | (date, data) :: items' =>
      let filename := "raw_" +:+ ticker +:+ "_" +:+ date +:+ ".csv" in
      log INFO (date +:+ ": " +:+ pretty (df_len data) +:+ " records -> " +:+ filename) ;;
      log_dates ticker items'
  end.

(** Lines 180 to 197 of [main]: the fetcher is made and connected, the
    range is fetched and summarised, the fetcher is disconnected. *)
Definition run_fetch (settings : Settings) (gw : Gateway) (ticker start : string)
    (end_date : option string) : M unit :=
  fetcher <- IBKRFetcher_init settings None ;;
  ok <- connect gw fetcher 7496 1 ;;
  if negb ok then sys_exit 1
  else
    try_finally
      (results <- fetch_date_range gw fetcher ticker start end_date ;;
       log INFO (String "010" ("Fetched data for " +:+ ticker +:+ ":")) ;;
       log INFO ("Total dates processed: " +:+ pretty (length results)) ;;
       log INFO ("Files saved to: " +:+ str (save_dir fetcher)) ;;
       log_dates ticker results)
      (disconnect fetcher).

(** [main] of [ibkr_fetcher.py]; [argv] is [sys.argv]. *)
Definition main (settings : Settings) (gw : Gateway) (argv : list string) : M unit :=
  try_except
    (dates <- parse_dates argv ;;
     let ticker := select_ticker argv in
     run_fetch settings gw ticker (fst dates) (snd dates))
    (λ e,
     log ERROR ("Error: " +:+ exn_str e) ;;
     sys_exit 1).

End IBKR.

Import IBKR.

(** ** [tradelab/data/batch_fetcher.py] *)

Module Batch.

Record BatchFetcher : Type := mk_BatchFetcher {
  tickers_file : Path;
  fetcher : IBKRFetcher
}.

(** [BatchFetcher.__init__]. *)
Definition BatchFetcher_init (settings : Settings) : M BatchFetcher :=
  let tickers_file :=
    PROJECT_ROOT settings </> "data" </> "beta_stock" </> "stock_tickers.csv" in
  fetcher <- IBKRFetcher_init settings None ;;
  ret (mk_BatchFetcher tickers_file fetcher).

(** [BatchFetcher.load_tickers]. *)
Definition load_tickers (self : BatchFetcher) : M (list string) :=
  try_except
    (df <- read_csv (tickers_file self) ;;
     tickers <- lift (column "Ticker" df) ;;
     log INFO ("Loaded " +:+ pretty (length tickers) +:+ " tickers from " +:+
               str (tickers_file self)) ;;
     ret tickers)
    (λ e,
     log ERROR ("Error loading tickers: " +:+ exn_str e) ;;
     ret []).

(** The method [self.fetcher.fetch_date_range] as [fetch_all] sees it: a
    call with a ticker and two dates that returns a dict or raises.
    [fetch_all_with] takes it as a parameter, so that the handler of
    line 73 can be reached: the method of [IBKRFetcher] itself handles
    every [Exception] and returns. *)
Definition FetchMethod : Type :=
  IBKRFetcher → string → string → option string → M (Dict DataFrame).

(** [sum(len(df) for df in data.values())]. *)
Definition total_records (data : Dict DataFrame) : nat :=
  foldr (λ df acc, (df_len df + acc)%nat) 0%nat (dict_values data).

(** One round of the loop over the tickers (lines 57 to 75); it returns
    the [results] dict as the iteration leaves it. *)
Definition process_ticker (fetch : FetchMethod) (self : BatchFetcher)
    (start end_ : string) (total_tickers idx : nat) (ticker : string)
    (results : Dict (Dict DataFrame)) : M (Dict (Dict DataFrame)) :=
  try_except
    (log INFO ("Processing " +:+ ticker +:+ " (" +:+ pretty idx +:+ "/" +:+
               pretty total_tickers +:+ ")") ;;
     data <- fetch (fetcher self) ticker start (Some end_) ;;
     let results' := dict_set ticker data results in
     (if dict_truthy data then
        let dates_fetched := length data in
        log INFO ("Completed " +:+ ticker +:+ ": " +:+ pretty dates_fetched +:+ " days, " +:+
                  pretty (total_records data) +:+ " records")
      else
        log WARNING ("No data retrieved for " +:+ ticker)) ;;
     sleep 1000 ;;
     ret results')
    (λ e,
     log ERROR ("Error processing " +:+ ticker +:+ ": " +:+ exn_str e) ;;
     ret results).

(** The loop over [enumerate(tickers, 1)]. *)
Fixpoint process_tickers (fetch : FetchMethod) (self : BatchFetcher)
    (start end_ : string) (total_tickers idx : nat) (tickers : list string)
    (results : Dict (Dict DataFrame)) : M (Dict (Dict DataFrame)) :=
  match tickers with
  | [] => ret results
  | ticker :: rest =>
      results' <- process_ticker fetch self start end_ total_tickers idx ticker results ;;
      process_tickers fetch self start end_ total_tickers (S idx) rest results'
  end.

(** [BatchFetcher.fetch_all], for a given [fetch_date_range] method. *)
Definition fetch_all_with (fetch : FetchMethod) (gw : Gateway) (self : BatchFetcher)
    (start_date end_date : string) : M (Dict (Dict DataFrame)) :=
  let start := dashed start_date in
  let end_ := dashed end_date in
  ok <- connect gw (fetcher self) 7496 1 ;;
  if negb ok then
    log ERROR "Failed to connect to IBKR" ;;
    ret []
  else
    try_finally
      (tickers <- load_tickers self ;;
       let total_tickers := length tickers in
       process_tickers fetch self start end_ total_tickers 1 tickers [])
      (disconnect (fetcher self)).

(** [BatchFetcher.fetch_all] as the program runs it, with the method
    of [IBKRFetcher]. *)
Definition fetch_all (gw : Gateway) : BatchFetcher → string → string →
    M (Dict (Dict DataFrame)) :=
  fetch_all_with (fetch_date_range gw) gw.

Fixpoint log_tickers (items : Dict (Dict DataFrame)) (total : nat) : M nat :=
  match items with
  | [] => ret total
  | (ticker, data) :: items' =>
      if dict_truthy data then
        let records := total_records data in
        log INFO (ticker +:+ ": " +:+ pretty (length data) +:+ " days, " +:+
                  pretty records +:+ " records") ;;
        log_tickers items' (total + records)%nat
      else log_tickers items' total
  end.

(** [main] of [batch_fetcher.py]. *)
Definition main (settings : Settings) (gw : Gateway) (argv : list string) : M unit :=
  try_except
    (if (length argv <? 2)%nat then
       log ERROR "Please provide at least a start date (YYYYMMDD)" ;;
       log ERROR "Usage: python batch_fetcher.py START_DATE [END_DATE]" ;;
       sys_exit 1
     else
       let start_date := nth 1 argv "" in
       if negb (String.length start_date =? 8)%nat then
         raise (ValueError "Start date must be in YYYYMMDD format")
       else
         end_date <-
           (if (2 <? length argv)%nat then
              let end_date := nth 2 argv "" in
              if negb (String.length end_date =? 8)%nat then
                raise (ValueError "End date must be in YYYYMMDD format")
              else ret end_date
            else ret start_date) ;;
         log INFO ("Starting batch fetch from " +:+ start_date +:+ " to " +:+ end_date) ;;
         batch_fetcher <- BatchFetcher_init settings ;;
         results <- fetch_all gw batch_fetcher start_date end_date ;;
         let successful := length (filter (λ t, dict_truthy (snd t) = true) results) in
         let total := length results in
         log INFO (String "010" "Batch processing complete:") ;;
         log INFO ("Successfully processed: " +:+ pretty successful +:+ "/" +:+
                   pretty total +:+ " tickers") ;;
         log INFO ("Failed: " +:+ pretty (total - successful)%nat +:+ " tickers") ;;
         total_records <- log_tickers results 0%nat ;;
         log INFO ("Total records fetched: " +:+ pretty total_records))
    (λ e,
     log ERROR ("Batch processing error: " +:+ exn_str e) ;;
     sys_exit 1).

End Batch.

Import Batch.

(** ** A client of one fetcher *)

Module Client.

(** The calls a client makes on a fetcher, and what they answer. *)
Inductive call : Type :=
| CallConnect (port client_id : Z)
| CallFetch (ticker start_date : string) (end_date : option string)
| CallDisconnect.

Inductive answer : Type :=
| AnsConnect (r : result bool)
| AnsFetch (r : result (Dict DataFrame))
| AnsDisconnect (r : result unit).

Definition do_call (gw : Gateway) (self : IBKRFetcher) (c : call) (w : World)
    : answer * World :=
  match c with
  | CallConnect port client_id =>
      let '(r, w') := connect gw self port client_id w in (AnsConnect r, w')
  | CallFetch ticker start_date end_date =>
      let '(r, w') := fetch_date_range gw self ticker start_date end_date w in
      (AnsFetch r, w')
  | CallDisconnect =>
      let '(r, w') := disconnect self w in (AnsDisconnect r, w')
  end.

(** The answers to a sequence of calls, one after the other. *)
Fixpoint do_calls (gw : Gateway) (self : IBKRFetcher) (calls : list call) (w : World)
    : list answer :=
  match calls with
  | [] => []
  | c :: calls' =>
      let '(a, w') := do_call gw self c w in
      a :: do_calls gw self calls' w'
  end.

(** How often the events of a state hold an event of some kind. *)
Definition count (P : event → bool) (w : World) : nat :=
  length (List.filter P (events w)).

Definition is_disconnect (e : event) : bool :=
  match e with IbDisconnect => true | _ => false end.

Definition is_sleep (milliseconds : Z) (e : event) : bool :=
  match e with Sleep n => n =? milliseconds | _ => false end.

Definition is_file_io (e : event) : bool :=
  match e with FsMkdir _ | FsWrite _ | FsRead _ => true | _ => false end.

Definition is_request (e : event) : bool :=
  match e with IbReqHistoricalData _ => true | _ => false end.

(** The canonical place of the file of a ticker and a day:
    [<save_dir>/<TICKER>/raw_<TICKER>_<YYYY-MM-DD>.csv]. *)
Definition canonical_path (self : IBKRFetcher) (ticker : string) (d : Z) : Path :=
  save_dir self </> ticker </> ("raw_" +:+ ticker +:+ "_" +:+ strftime d +:+ ".csv").

(** During the run of the loop over [days], started with [r0] in state
    [w0], the request for day [d] was answered with bars, not none, and
    the batch [df] made of them was saved. *)
Definition day_saved (gw : Gateway) (self : IBKRFetcher) (ticker : string)
    (days : list Z) (r0 : Dict DataFrame) (w0 : World) (d : Z) (df : DataFrame) : Prop :=
  ∃ pre post r1 w1 bars w2 p w3,
    days = pre ++ d :: post
    ∧ fetch_days gw self ticker pre r0 w0 = (Return r1, w1)
    ∧ request_day gw self ticker d w1 = (Return bars, w2)
    ∧ bars ≠ []
    ∧ df = util_df bars
    ∧ _save_data self df ticker (strftime d) w2 = (Return (Some p), w3).

(** The gateway raises nothing but [Exception]s on a request. *)
Definition raises_only_Exception (gw : Gateway) : Prop :=
  ∀ history req e, gw_reqHistoricalData gw history req = Raise e → is_Exception e = true.

(** A single-ticker session and a batch session from the settings on:
    the fetcher is made, connected, and used. *)
Definition single_session (settings : Settings) (gw : Gateway) (save_dir : option Path)
    (ticker start_date : string) (end_date : option string) : M (Dict DataFrame) :=
  f <- IBKRFetcher_init settings save_dir ;;
  _ <- connect gw f 7496 1 ;;
  fetch_date_range gw f ticker start_date end_date.

Definition batch_session (settings : Settings) (gw : Gateway)
    (start_date end_date : string) : M (Dict (Dict DataFrame)) :=
  b <- BatchFetcher_init settings ;;
  fetch_all gw b start_date end_date.

(** The days of the requests among some events, in the order of the
    requests. *)
Definition requested_days (evs : list event) : list Z :=
  omap (λ e, match e with
             | IbReqHistoricalData req => Some (ts_day (endDateTime req))
             | _ => None
             end) evs.

(** The close time of the market that the fetcher holds is a time of
    day. *)
Definition close_time_valid (self : IBKRFetcher) : Prop :=
  ∃ h m rest, market_end self = h :: m :: rest ∧ 0 <= h <= 23 ∧ 0 <= m <= 59.

(** A state reached from another by events of one kind, with the
    [connected] flag as it was. *)
Definition extends (Q : event → Prop) (w w' : World) : Prop :=
  connected w' = connected w
  ∧ ∃ new, events w' = events w ++ new ∧ Forall Q new.

(** The events of a save: log lines and the two file-system calls. *)
Definition save_event (e : event) : Prop :=
  match e with
  | Log _ _ | FsMkdir _ | FsWrite _ => True
  | _ => False
  end.

(** The events of a fetch: log lines, the pause of half a second,
    requests, and the two file-system calls of a save. *)
Definition fetch_event (e : event) : Prop :=
  match e with
  | Log _ _ | IbReqHistoricalData _ | FsMkdir _ | FsWrite _ => True
  | Sleep n => n = 500
  | IbConnect _ _ _ | IbDisconnect | FsRead _ => False
  end.

(** What [fetch_all] needs of the [fetch_date_range] method for its
    connection: the method leaves the [connected] flag alone and does not
    disconnect. *)
Definition keeps_connection (fetch : FetchMethod) : Prop :=
  ∀ f t s e w,
    connected (fetch f t s e w).2 = connected w
    ∧ count is_disconnect (fetch f t s e w).2 = count is_disconnect w.

(** The method makes no pause of one second of its own. *)
Definition never_sleeps_1s (fetch : FetchMethod) : Prop :=
  ∀ f t s e w, count (is_sleep 1000) (fetch f t s e w).2 = count (is_sleep 1000) w.

(** The tickers for which the method raises, and then an [Exception]:
    those with [raises t = true]; for the others it returns. *)
Definition raises_for (fetch : FetchMethod) (raises : string → bool) : Prop :=
  ∀ f t s e w,
    match fetch f t s e w with
    | (Return _, _) => raises t = false
    | (Raise x, _) => raises t = true ∧ is_Exception x = true
    end.

(** The line [fetch_all] logs for a ticker whose fetch returned. *)
Definition summary (ticker : string) (data : Dict DataFrame) : event :=
  if dict_truthy data then
    Log INFO ("Completed " +:+ ticker +:+ ": " +:+ pretty (length data) +:+ " days, " +:+
              pretty (total_records data) +:+ " records")
  else Log WARNING ("No data retrieved for " +:+ ticker).


End Client.

Import Client.

(** ** A small installation *)

Module Scenario.

Definition settings : Settings := default_settings ["srv"; "tradelab"].

(** The same settings with ten retries a minute apart. *)
Definition patient_settings : Settings := with_retry settings 10 60.

Definition fetcher0 : IBKRFetcher :=
  mk_IBKRFetcher (RAW_DATA_DIR settings) [9; 30] [16; 0] "America/New_York".

Definition manifest : Path :=
  PROJECT_ROOT settings </> "data" </> "beta_stock" </> "stock_tickers.csv".

Definition batch0 : BatchFetcher := mk_BatchFetcher manifest fetcher0.

(** The directories of the project and a manifest of three tickers. *)
Definition disk : FS :=
  mk_FS
    {[ ["srv"]; ["srv"; "tradelab"]; ["srv"; "tradelab"; "data"];
       ["srv"; "tradelab"; "data"; "raw"]; ["srv"; "tradelab"; "data"; "processed"];
       ["srv"; "tradelab"; "data"; "beta_stock"] ]}
    {[ manifest := ["Ticker"; "AAA"; "BBB"; "CCC"] ]}.

Definition offline : World := mk_World false disk [].
Definition online : World := mk_World true disk [].

Definition bar (time close : string) : BarData :=
  mk_BarData time "10.0" "10.5" "9.5" close "1200" "10.1" "37".

Definition two_bars : list BarData :=
  [bar "2024-01-03 09:30:00" "10.2"; bar "2024-01-03 09:31:00" "10.3"].

Definition one_bar : list BarData := [bar "2024-01-03 09:30:00" "11.0"].

(** A gateway that accepts the connection and answers every request
    with two bars. *)
Definition steady : Gateway :=
  mk_Gateway (λ _ _ _ _, None) (λ _ _, Return two_bars).

(** Wednesday 2024-01-03. *)
Definition wednesday : Z := 738888.

(** A gateway whose request for that Wednesday times out. *)
Definition flaky : Gateway :=
  mk_Gateway (λ _ _ _ _, None)
    (λ _ req,
       if ts_day (endDateTime req) =? wednesday then
         Raise (mk_exn true "TimeoutError" "request timed out")
       else Return two_bars).

(** A gateway with no bars for that Wednesday. *)
Definition holiday : Gateway :=
  mk_Gateway (λ _ _ _ _, None)
    (λ _ req, if ts_day (endDateTime req) =? wednesday then Return [] else Return two_bars).

(** A gateway at which the user interrupts the program during the request
    for the second ticker. *)
Definition interrupted : Gateway :=
  mk_Gateway (λ _ _ _ _, None)
    (λ _ req,
       if String.eqb (symbol (contract req)) "BBB" then Raise KeyboardInterrupt
       else Return two_bars).

(** A gateway that refuses the connection. *)
Definition refusing : Gateway :=
  mk_Gateway
    (λ _ _ _ _, Some (mk_exn true "ConnectionRefusedError" "[Errno 111] Connect call failed"))
    (λ _ _, Return two_bars).

(** The state after connecting to the steady gateway, and after loading
    the manifest then. *)
Definition after_connect : World := (connect steady fetcher0 7496 1 offline).2.
Definition after_load : World := (load_tickers batch0 after_connect).2.


(** The runs looked at below. *)
Definition flaky_run : result (Dict DataFrame) * World :=
  fetch_date_range flaky fetcher0 "AAA" "2024-01-01" (Some "2024-01-07") online.

Definition holiday_run : result (Dict DataFrame) * World :=
  fetch_date_range holiday fetcher0 "AAA" "2024-01-02" (Some "2024-01-04") online.

Definition steady_run : result (Dict (Dict DataFrame)) * World :=
  fetch_all steady batch0 "20240103" "20240103" offline.

Definition interrupted_run : result (Dict (Dict DataFrame)) * World :=
  fetch_all interrupted batch0 "20240103" "20240103" offline.


Definition first_save : result (option Path) * World :=
  _save_data fetcher0 (util_df two_bars) "AAA" "2024-01-03" online.

Definition raw_AAA : Path := RAW_DATA_DIR settings </> "AAA" </> "raw_AAA_2024-01-03.csv".

End Scenario.

(** ** [Settings.get] *)

Module Attrs.

(** The values that the attributes of a [Settings] object hold. *)
#[local] Unset Elimination Schemes.
Inductive value : Type :=
| VNone
| VInt (n : Z)
| VStr (s : string)
| VPath (p : Path)
| VList (l : list value)
| VDict (items : list (string * value)).
#[local] Set Elimination Schemes.

Definition market_hours_dict (h : MarketHours) : value :=
  VDict [("start", VStr (mh_start h));
         ("end", VStr (mh_end h));
         ("timezone", VStr (mh_timezone h));
         ("trading_days", VStr (mh_trading_days h))].

Definition data_settings_dict (d : DataSettings) : value :=
  VDict [("interval", VStr (ds_interval d));
         ("required_columns", VList (map VStr (ds_required_columns d)));
         ("default_retries", VInt (default_retries d));
         ("retry_delay", VInt (retry_delay d))].

(** [self.__dict__]: the attributes [__init__] sets, in its order. *)
Definition attributes (self : Settings) : list (string * value) :=
  [("PROJECT_ROOT", VPath (PROJECT_ROOT self));
   ("DATA_DIR", VPath (DATA_DIR self));
   ("RAW_DATA_DIR", VPath (RAW_DATA_DIR self));
   ("PROCESSED_DATA_DIR", VPath (PROCESSED_DATA_DIR self));
   ("MARKET_HOURS", market_hours_dict (MARKET_HOURS self));
   ("DATA_SETTINGS", data_settings_dict (DATA_SETTINGS self))].

(** The loop of [Settings.get]: in a dict the key is looked up with the
    default; at anything else the default is returned at once. *)
Fixpoint get_loop (current : value) (keys : list string) (default : value) : value :=
  match keys with
  | [] => current
  | key :: keys' =>
      match current with
      | VDict items =>
          get_loop (match dict_get key items with
                    | Some v => v
                    | None => default
                    end) keys' default
      | _ => default
      end
  end.

(** [Settings.get], with the keys and the default. *)
Definition get (self : Settings) (keys : list string) (default : value) : value :=
  get_loop (VDict (attributes self)) keys default.

(** The value at the end of a path of keys through nested dicts, when
    every key of the path is there. *)
Fixpoint lookup_path (current : value) (keys : list string) : option value :=
  match keys with
  | [] => Some current
  | key :: keys' =>
      match current with
      | VDict items =>
          match dict_get key items with
          | Some v => lookup_path v keys'
          | None => None
          end
      | _ => None
      end
  end.

Definition is_dict (v : value) : bool :=
  match v with VDict _ => true | _ => false end.

End Attrs.

(** ** [tradelab/utils/logger.py] *)

Module Logging.

(** The handlers [setup_logger] makes. *)
Inductive Handler : Type :=
| StreamHandler (stream format : string)
| FileHandler (file : Path) (encoding format : string).

(** A logger of the [logging] module: its level and its handlers. *)
Record Logger : Type := mk_Logger {
  lg_level : Z;
  lg_handlers : list Handler
}.

(** The loggers of the process by name, and the file system. *)
Record LogWorld : Type := mk_LogWorld {
  loggers : gmap string Logger;
  log_fs : FS
}.

(** [logging.INFO]. *)
Definition INFO_level : Z := 20.

Definition default_format : string :=
  "%(asctime)s - %(name)s - %(levelname)s - %(message)s".

(** [logging.getLogger(name)]: the logger of that name, a new one on
    first use, at level [NOTSET] with no handler. *)
Definition getLogger (name : string) (st : LogWorld) : Logger :=
  match loggers st !! name with
  | Some lg => lg
  | None => mk_Logger 0 []
  end.

Definition store (name : string) (lg : Logger) (st : LogWorld) : LogWorld :=
  mk_LogWorld (<[name := lg]> (loggers st)) (log_fs st).

(** Opening a file for appending, as [logging.FileHandler] does at once:
    a missing file is made, empty; a directory there or a parent that is
    no directory is an [OSError]. *)
Definition open_append (p : Path) (fs : FS) : result FS :=
  if is_dir fs p then
    Raise (OSError "IsADirectoryError" ("[Errno 21] Is a directory: '" +:+ str p +:+ "'"))
  else if is_dir fs (parent p) then
    match fs_files fs !! p with
    | Some _ => Return fs
    | None => Return (mk_FS (fs_dirs fs) (<[p := []]> (fs_files fs)))
    end
  else Raise (no_parent fs p).

(** [setup_logger(name, log_file, level, log_format)]. It returns the
    logger as it is at the return. *)
Definition setup_logger (name : string) (log_file : option Path) (level : Z)
    (log_format : string) (st : LogWorld) : result Logger * LogWorld :=
  let logger := mk_Logger level (lg_handlers (getLogger name st)) in
  let st := store name logger st in
  match lg_handlers logger with
  | _ :: _ => (Return logger, st)
  | [] =>
      let console_handler := StreamHandler "stdout" log_format in
      let logger := mk_Logger level [console_handler] in
      let st := store name logger st in
      match log_file with
      | None => (Return logger, st)
      | Some file =>
          match Fs.makedirs [] (parent file) (log_fs st) with
          | Raise e => (Raise e, st)
          | Return fs1 =>
              match open_append file fs1 with
              | Raise e => (Raise e, mk_LogWorld (loggers st) fs1)
              | Return fs2 =>
                  let file_handler := FileHandler file "utf-8" log_format in
                  let logger := mk_Logger level [console_handler; file_handler] in
                  (Return logger, mk_LogWorld (<[name := logger]> (loggers st)) fs2)
              end
          end
      end
  end.

(** [d.strftime("%Y%m%d")]. *)
Definition compact (d : Z) : string :=
  let '(y, m, dd) := ymd_of_ordinal d in
  fmt4 y +:+ fmt2 m +:+ fmt2 dd.

(** [name.split('.')[-1]]. *)
Definition module_name (name : string) : string :=
  List.last (split "." name) "".

(** The log file of a logger: [<root>/logs/<YYYYMMDD>_<module>.log]. *)
Definition log_file_of (settings : Settings) (today : Z) (name : string) : Path :=
  PROJECT_ROOT settings </> "logs"
    </> (compact today +:+ "_" +:+ module_name name +:+ ".log").

(** [get_logger(name, include_file_logging)]; [today] is the day of
    [datetime.now()]. *)
Definition get_logger (settings : Settings) (today : Z) (name : string)
    (include_file_logging : bool) (st : LogWorld) : result Logger * LogWorld :=
  let log_file :=
    if include_file_logging then Some (log_file_of settings today name) else None in
  setup_logger name log_file INFO_level default_format st.

(** A sequence of [setup_logger] calls, whatever they answer. *)
Fixpoint setup_all (calls : list (string * option Path * Z * string)) (st : LogWorld)
    : LogWorld :=
  match calls with
  | [] => st
  | (name, log_file, level, log_format) :: calls' =>
      setup_all calls' (setup_logger name log_file level log_format st).2
  end.

(** A logger as [setup_logger] leaves it: one console handler, and after
    it at most one file handler. *)
Definition set_up (lg : Logger) : Prop :=
  ∃ format, lg_handlers lg = [StreamHandler "stdout" format]
            ∨ ∃ file, lg_handlers lg
                      = [StreamHandler "stdout" format; FileHandler file "utf-8" format].

End Logging.

(** ** More of the installation *)

Module Checks.

(** A name without a slash: one component of a path. *)
Definition plain_name (s : string) : Prop :=
  ("/"%char : ascii) ∉ list_ascii_of_string s.

(** Whether a request was answered with bars, as a gateway that always
    has data does. *)
Definition always_has_bars (gw : Gateway) : Prop :=
  ∀ history req, ∃ b bars, gw_reqHistoricalData gw history req = Return (b :: bars).

(** A disk where a file stands where the log directory should be. *)
Definition blocked_disk : FS :=
  mk_FS {[ ["srv"]; ["srv"; "tradelab"] ]} {[ ["srv"; "tradelab"; "logs"] := ["not a directory"] ]}.

(** A gateway that refuses every connection, with an [Exception]. *)
Definition always_refuses (gw : Gateway) : Prop :=
  ∀ history host port client_id,
    ∃ e, gw_connect gw history host port client_id = Some e ∧ is_Exception e = true.

(** The command line has no start date, or one that is not eight
    characters long. *)
Definition no_start_date (argv : list string) : Prop :=
  (length argv < 2)%nat ∨ String.length (nth 1 argv "") ≠ 8%nat.

Definition is_log (e : event) : Prop :=
  match e with Log _ _ => True | _ => False end.

(** The second state is the first with more log lines, and nothing else
    new. *)
Definition only_logged (w w' : World) : Prop :=
  fs w' = fs w ∧ extends is_log w w'.

(** A machine with nothing on its disk yet. *)
Definition fresh : World := mk_World false (mk_FS ∅ ∅) [].

(** One Wednesday fetched from the steady gateway, and the same day
    asked of the gateway at which the user interrupts. *)
Definition wednesday_run : result (Dict DataFrame) * World :=
  fetch_date_range Scenario.steady Scenario.fetcher0 "AAA" "2024-01-03" None Scenario.online.


End Checks.

Lemma weekday_range d : 0 <= weekday d < 7.
Proof. unfold weekday. apply Z.mod_pos_bound. lia. Qed.

Lemma weekday_succ d :
  weekday (d + 1) = if weekday d =? 6 then 0 else weekday d + 1.
Proof.
  unfold weekday.
  pose proof (Z.mod_pos_bound (d + 6) 7 ltac:(lia)) as Hb.
  replace (d + 1 + 6) with ((d + 6) + 1) by lia.
  destruct (Z.eqb_spec ((d + 6) mod 7) 6) as [E|E].
  - rewrite Z.add_mod, E by lia. reflexivity.
  - rewrite Z.add_mod by lia.
    rewrite (Z.mod_small 1 7) by lia.
    rewrite Z.mod_small; lia.
Qed.

Lemma seqZ_unfold m n : 0 < n → seqZ m n = m :: seqZ (m + 1) (n - 1).
Proof.
  intros Hn. by rewrite (seqZ_cons m n) by lia.
Qed.

Lemma seqZ_empty m n : n <= 0 → seqZ m n = [].
Proof. intros. by apply seqZ_nil. Qed.

Lemma weekdays_between_empty s e : e < s → weekdays_between s e = [].
Proof. intros. unfold weekdays_between. rewrite seqZ_empty; [done | lia]. Qed.

Lemma weekdays_between_step s e :
  s <= e →
  weekdays_between s e =
    if weekday s <? 5 then s :: weekdays_between (s + 1) e
    else weekdays_between (s + 1) e.
Proof.
  intros Hle. unfold weekdays_between.
  rewrite (seqZ_unfold s) by lia.
  replace (e - s + 1 - 1) with (e - (s + 1) + 1) by lia.
  rewrite filter_cons.
  destruct (Z.ltb_spec (weekday s) 5); case_decide; (done || lia).
Qed.

(** The generator, started on a business day with enough fuel, lists the
    weekdays up to the end of the window. *)
Lemma generate_range_weekdays fuel :
  ∀ cur e, weekday cur < 5 → (Z.to_nat (e - cur + 1) <= fuel)%nat →
    generate_range fuel cur e = weekdays_between cur e.
Proof.
  induction fuel as [|fuel IH]; intros cur e Hwd Hfuel.
  - rewrite weekdays_between_empty by lia. reflexivity.
  - cbn [generate_range].
    destruct (Z.leb_spec cur e) as [Hle|Hgt].
    2: { rewrite weekdays_between_empty by lia. reflexivity. }
    rewrite (weekdays_between_step cur e Hle).
    destruct (Z.ltb_spec (weekday cur) 5) as [_|?]; [|lia].
    f_equal.
    destruct (Z.eqb_spec cur e) as [->|Hne].
    { rewrite weekdays_between_empty by lia. reflexivity. }
    pose proof (weekday_range cur) as Hr.
    pose proof (weekday_succ cur) as H1.
    unfold bday_next.
    destruct (Z.ltb_spec 4 (weekday cur)) as [?|_]; [lia|].
    destruct (Z.leb_spec (weekday cur + 1) 4) as [Hmid|Hfri].
    + (* Monday to Thursday *)
      apply IH; [|lia].
      rewrite H1. destruct (Z.eqb_spec (weekday cur) 6); lia.
    + (* Friday: the generator steps over Saturday and Sunday *)
      assert (weekday cur = 4) as H4 by lia.
      assert (weekday (cur + 1) = 5) as H5.
      { rewrite H1, H4. reflexivity. }
      assert (weekday (cur + 1 + 1) = 6) as H6.
      { rewrite weekday_succ, H5. reflexivity. }
      assert (weekday (cur + 1 + 1 + 1) = 0) as H0.
      { rewrite weekday_succ, H6. reflexivity. }
      rewrite (weekdays_between_step (cur + 1) e) by lia.
      rewrite H5. cbn [Z.ltb Z.compare Pos.compare Pos.compare_cont].
      destruct (Z.eq_dec (cur + 1) e) as [<-|Hne1].
      { rewrite weekdays_between_empty by lia.
        destruct fuel; cbn [generate_range]; [done|].
        destruct (Z.leb_spec (cur + 3) (cur + 1)); [lia|done]. }
      rewrite (weekdays_between_step (cur + 1 + 1) e) by lia.
      rewrite H6. cbn [Z.ltb Z.compare Pos.compare Pos.compare_cont].
      replace (cur + 1 + 1 + 1) with (cur + 3) in * by lia.
      destruct (Z.eq_dec (cur + 1 + 1) e) as [<-|Hne2].
      { rewrite weekdays_between_empty by lia.
        destruct fuel; cbn [generate_range]; [done|].
        destruct (Z.leb_spec (cur + 3) (cur + 1 + 1)); [lia|done]. }
      apply IH; lia.
Qed.

Lemma date_range_B_eq s e : date_range_B s e = weekdays_between s e.
Proof.
  unfold date_range_B, rollforward, is_on_offset, bday_next.
  pose proof (weekday_range s) as Hr.
  destruct (Z.ltb_spec (weekday s) 5) as [Hwd|Hwe].
  - destruct (Z.ltb_spec e s) as [Hlt|Hge].
    + by rewrite weekdays_between_empty.
    + apply generate_range_weekdays; [done | lia].
  - destruct (Z.ltb_spec 4 (weekday s)) as [_|?]; [|lia].
    assert (weekday (s + 1) = if weekday s =? 6 then 0 else 6) as H1.
    { rewrite weekday_succ. destruct (Z.eqb_spec (weekday s) 6); lia. }
    destruct (Z.ltb_spec e (s + (7 - weekday s))) as [Hlt|Hge].
    + (* the window lies within the weekend *)
      destruct (Z.lt_ge_cases e s) as [?|Hse].
      { by rewrite weekdays_between_empty. }
      rewrite (weekdays_between_step s e Hse).
      destruct (Z.ltb_spec (weekday s) 5); [lia|].
      destruct (Z.lt_ge_cases e (s + 1)) as [?|Hse1].
      { by rewrite weekdays_between_empty by lia. }
      rewrite (weekdays_between_step (s + 1) e Hse1), H1.
      destruct (Z.eqb_spec (weekday s) 6) as [E6|N6]; [lia|].
      cbn [Z.ltb Z.compare Pos.compare Pos.compare_cont].
      by rewrite weekdays_between_empty by lia.
    + rewrite (weekdays_between_step s e) by lia.
      destruct (Z.ltb_spec (weekday s) 5); [lia|].
      destruct (Z.eqb_spec (weekday s) 6) as [E6|N6].
      * rewrite E6 in *. replace (s + (7 - 6)) with (s + 1) in * by lia.
        apply generate_range_weekdays; [lia | lia].
      * assert (weekday s = 5) as E5 by lia.
        rewrite E5 in *. replace (s + (7 - 5)) with (s + 1 + 1) in * by lia.
        rewrite (weekdays_between_step (s + 1) e) by lia.
        rewrite H1. cbn [Z.ltb Z.compare Pos.compare Pos.compare_cont].
        apply generate_range_weekdays; [|lia].
        rewrite weekday_succ, H1. reflexivity.
Qed.

Lemma weekdays_between_elem s e d :
  d ∈ weekdays_between s e ↔ (s <= d <= e ∧ weekday d < 5).
Proof.
  unfold weekdays_between.
  rewrite list_elem_of_filter, elem_of_seqZ. intuition lia.
Qed.

Lemma seqZ_sorted m n : StronglySorted Z.lt (seqZ m n).
Proof.
  destruct (Z.le_gt_cases n 0) as [?|Hpos].
  { rewrite seqZ_empty by lia. constructor. }
  rewrite <- (Z2Nat.id n) by lia.
  generalize (Z.to_nat n) as k. clear. intros k. revert m.
  induction k as [|k IH]; intros m.
  - constructor.
  - rewrite seqZ_unfold by lia.
    replace (Z.of_nat (S k) - 1) with (Z.of_nat k) by lia.
    constructor; [apply IH|].
    apply Forall_forall. intros x Hx.
    apply elem_of_seqZ in Hx. lia.
Qed.

Lemma StronglySorted_filter {A} (R : A → A → Prop) (P : A → Prop)
    `{∀ x, Decision (P x)} (l : list A) :
  StronglySorted R l → StronglySorted R (filter P l).
Proof.
  induction 1 as [|x l Hs IH Hx]; [constructor|].
  rewrite filter_cons. case_decide; [|done].
  constructor; [done|].
  apply Forall_forall. intros y Hy.
  apply list_elem_of_filter in Hy as [_ Hy].
  rewrite Forall_forall in Hx. by apply Hx.
Qed.


(** ** Formatting a day and reading it back *)

Lemma all_read_back_spec n : ∀ lo d,
  all_read_back n lo = true → lo <= d < lo + Z.of_nat n → reads_back d = true.
Proof.
  induction n as [|n IH]; intros lo d Hall Hd; [lia|].
  cbn [all_read_back] in Hall. apply andb_prop in Hall as [Hlo Hrest].
  destruct (Z.eq_dec d lo) as [->|Hne]; [done|].
  apply (IH (lo + 1)); [done | lia].
Qed.

Lemma all_days_read_back :
  all_read_back (Z.to_nat (Timestamp_max - Timestamp_min + 1)) Timestamp_min = true.
Proof. vm_cast_no_check (eq_refl true). Qed.

(** Every day within the [Timestamp] bounds is read back from its
    [YYYY-MM-DD] form. *)
Lemma to_datetime_strftime d :
  Timestamp_min <= d <= Timestamp_max → to_datetime (strftime d) = Return d.
Proof.
  intros Hd.
  assert (reads_back d = true) as H.
  { apply (all_read_back_spec _ _ d all_days_read_back).
    rewrite Z2Nat.id; [lia|]. vm_compute. discriminate. }
  unfold reads_back in H.
  destruct (to_datetime (strftime d)) as [d'|]; [|done].
  apply Z.eqb_eq in H. by subst.
Qed.

Lemma to_datetime_bounds s d :
  to_datetime s = Return d → Timestamp_min <= d <= Timestamp_max.
Proof.
  unfold to_datetime. intros H.
  repeat (match type of H with
          | (if ?b then _ else _) = _ => destruct b eqn:?
          | match ?x with _ => _ end = _ => destruct x eqn:?
          end; try discriminate).
  injection H as <-. lia.
Qed.

Lemma strftime_inj d1 d2 :
  Timestamp_min <= d1 <= Timestamp_max → Timestamp_min <= d2 <= Timestamp_max →
  strftime d1 = strftime d2 → d1 = d2.
Proof.
  intros H1 H2 Heq.
  apply to_datetime_strftime in H1, H2.
  rewrite Heq in H1. congruence.
Qed.

(** ** Running the monad *)

Ltac run :=
  unfold bind, ret, raise, lift, log, sleep, get_connected, set_connected, try_except,
    try_finally, sys_exit in *; cbn [fst snd] in *.

Ltac step := cbv beta iota zeta; cbn [fst snd fs connected events].

#[local] Arguments strftime : simpl never.
#[local] Arguments to_datetime : simpl never.
#[local] Arguments date_range_B : simpl never.
#[local] Arguments Pathlib.div : simpl never.
#[local] Arguments Pathlib.str : simpl never.
#[local] Arguments csv_lines : simpl never.
#[local] Arguments util_df : simpl never.
#[local] Arguments String.append : simpl never.

(** ** The unconnected fetcher *)

Lemma fetch_date_range_off gw self ticker start_date end_date w :
  connected w = false →
  fetch_date_range gw self ticker start_date end_date w
  = (Return [], emit (Log ERROR "Not connected to IBKR") w).
Proof. intros Hc. unfold fetch_date_range. run. rewrite Hc. reflexivity. Qed.

Lemma count_emit P e w :
  count P (emit e w) = (count P w + if P e then 1 else 0)%nat.
Proof.
  unfold count, emit. cbn. rewrite List.filter_app, length_app. cbn.
  destruct (P e); reflexivity.
Qed.

(** C6. On a fetcher whose [connected] flag is false, [fetch_date_range]
    returns the empty mapping at once and does not raise; all it does is
    log one error: the file system is as before, and among the new events
    there is no file-system call and no gateway request. *)
Theorem fetch_date_range_unconnected gw self ticker start_date end_date w :
  connected w = false →
  ∃ w',
    fetch_date_range gw self ticker start_date end_date w = (Return [], w')
    ∧ events w' = events w ++ [Log ERROR "Not connected to IBKR"]
    ∧ fs w' = fs w
    ∧ connected w' = false
    ∧ count is_file_io w' = count is_file_io w
    ∧ count is_request w' = count is_request w.
Proof.
  intros Hc. rewrite fetch_date_range_off by done.
  eexists. split; [reflexivity|].
  rewrite !count_emit. cbn. repeat split; (done || lia).
Qed.

(** ** A connect that fails *)

Lemma connect_raised gw self port client_id w e :
  gw_connect gw (events w) "127.0.0.1" port client_id = Some e →
  is_Exception e = true →
  connect gw self port client_id w
  = (Return false,
     emit (Log ERROR ("Failed to connect to IBKR: " +:+ exn_str e))
       (emit (IbConnect "127.0.0.1" port client_id) w)).
Proof.
  intros Hgw He. unfold connect, ib_connect. run. rewrite Hgw, He. reflexivity.
Qed.

(** [connect] sets the flag exactly when it returns true. *)
Lemma connect_flag gw self port client_id w :
  let '(r, w') := connect gw self port client_id w in
  (r = Return true ∧ connected w' = true)
  ∨ (r ≠ Return true ∧ connected w' = connected w).
Proof.
  unfold connect, ib_connect. run.
  destruct (gw_connect gw (events w) "127.0.0.1" port client_id) as [e|].
  - destruct (is_Exception e); right; split; (done || discriminate).
  - left. done.
Qed.

Lemma disconnect_off self w :
  connected w = false → disconnect self w = (Return tt, w).
Proof. intros Hc. unfold disconnect. run. by rewrite Hc. Qed.

(** As long as no connect succeeds, a fetcher that is not connected
    answers every fetch with the empty mapping. *)
Lemma do_calls_off gw self calls : ∀ w,
  connected w = false →
  AnsConnect (Return true) ∉ do_calls gw self calls w →
  ∀ r, AnsFetch r ∈ do_calls gw self calls w → r = Return [].
Proof.
  induction calls as [|c calls IH]; intros w Hc Hno r Hr.
  { cbn in Hr. by apply elem_of_nil in Hr. }
  cbn [do_calls] in *.
  destruct (do_call gw self c w) as [a w'] eqn:Hcall.
  assert (connected w' = false ∧ (∀ r', a = AnsFetch r' → r' = Return [])) as [Hc' Ha].
  { destruct c as [port cid|t s e|]; cbn [do_call] in Hcall.
    - pose proof (connect_flag gw self port cid w) as Hflag.
      destruct (connect gw self port cid w) as [r0 w0].
      injection Hcall as <- <-.
      destruct Hflag as [[-> _]|[_ Hsame]].
      + exfalso. apply Hno. left.
      + split; [congruence | discriminate].
    - rewrite fetch_date_range_off in Hcall by done.
      injection Hcall as <- <-. split; [done|]. by intros r' [= <-].
    - rewrite disconnect_off in Hcall by done.
      injection Hcall as <- <-. split; [done | discriminate]. }
  apply elem_of_cons in Hr as [<-|Hr]; [by apply Ha|].
  apply (IH w' Hc'); [|done].
  intros Hin. apply Hno. by right.
Qed.

(** C10. When the gateway's connect call raises an [Exception], [connect]
    returns false and leaves the fetcher as it was: the [connected] flag and
    the file system are unchanged. If the flag was false it is still false,
    and every [fetch_date_range] of any later sequence of calls on the
    fetcher answers the empty mapping, as long as no connect of that
    sequence has succeeded. *)
Theorem connect_failure_leaves_fetcher_unconnected gw self port client_id w e :
  gw_connect gw (events w) "127.0.0.1" port client_id = Some e →
  is_Exception e = true →
  ∃ w',
    connect gw self port client_id w = (Return false, w')
    ∧ connected w' = connected w
    ∧ fs w' = fs w
    ∧ (connected w = false →
       ∀ calls, AnsConnect (Return true) ∉ do_calls gw self calls w' →
         ∀ r, AnsFetch r ∈ do_calls gw self calls w' → r = Return []).
Proof.
  intros Hgw He. rewrite (connect_raised _ _ _ _ _ _ Hgw He).
  eexists. split; [reflexivity|]. split; [done|]. split; [done|].
  intros Hc calls. by apply do_calls_off.
Qed.

(** ** Saving a batch *)

Lemma mkdir_success p fs0 fs1 :
  Fs.mkdir p fs0 = Return fs1 →
  is_dir fs1 p = true ∧ fs_files fs1 = fs_files fs0
  ∧ (∀ q, is_dir fs0 q = true → is_dir fs1 q = true).
Proof.
  unfold Fs.mkdir. intros H.
  destruct (is_dir fs0 p) eqn:Hd.
  { injection H as <-. done. }
  destruct (is_file fs0 p); [done|].
  destruct (is_dir fs0 (parent p)); [|done].
  injection H as <-. unfold is_dir, add_dir. cbn.
  split; [|split; [done|]].
  - apply bool_decide_eq_true. right. set_solver.
  - intros q Hq. apply bool_decide_eq_true in Hq.
    apply bool_decide_eq_true. destruct Hq; [by left | right; set_solver].
Qed.

Lemma mkdir_of_dir p fs0 : is_dir fs0 p = true → Fs.mkdir p fs0 = Return fs0.
Proof. intros H. unfold Fs.mkdir. by rewrite H. Qed.

Lemma write_success p lines fs0 fs1 :
  Fs.write p lines fs0 = Return fs1 →
  is_dir fs0 p = false ∧ is_dir fs0 (parent p) = true
  ∧ fs1 = mk_FS (fs_dirs fs0) (<[p := lines]> (fs_files fs0)).
Proof.
  unfold Fs.write. intros H.
  destruct (is_dir fs0 p); [done|].
  destruct (is_dir fs0 (parent p)); [|done].
  injection H as <-. done.
Qed.

Lemma write_again p lines lines' fs0 fs1 :
  Fs.write p lines fs0 = Return fs1 →
  Fs.write p lines' fs1 = Return (mk_FS (fs_dirs fs1) (<[p := lines']> (fs_files fs1))).
Proof.
  intros H. apply write_success in H as (Hp & Hpar & ->).
  unfold Fs.write, is_dir in *. cbn. by rewrite Hp, Hpar.
Qed.

(** What a successful [_save_data] has done. *)
Lemma save_data_success self data ticker date w p w1 :
  _save_data self data ticker date w = (Return (Some p), w1) →
  ∃ d fs1 fs2,
    to_datetime date = Return d
    ∧ p = canonical_path self ticker d
    ∧ Fs.mkdir (save_dir self </> ticker) (fs w) = Return fs1
    ∧ Fs.write p (csv_lines data) fs1 = Return fs2
    ∧ fs w1 = fs2 ∧ connected w1 = connected w.
Proof.
  unfold _save_data, mkdir_exist_ok, to_csv, fs_call, canonical_path. run.
  destruct (to_datetime date) as [d|e]; step.
  2: { destruct (is_Exception e); intros [=]. }
  destruct (Fs.mkdir _ (fs w)) as [fs1|e]; step.
  2: { destruct (is_Exception e); intros [=]. }
  destruct (Fs.write _ _ fs1) as [fs2|e] eqn:Hw; step.
  2: { destruct (is_Exception e); intros [=]. }
  intros [= <- <-]. exists d, fs1, fs2. by rewrite Hw.
Qed.

(** And the other way round: when the date reads and the two file-system
    calls succeed, [_save_data] returns the canonical path. *)
Lemma save_data_run self data ticker date w d fs1 fs2 :
  to_datetime date = Return d →
  Fs.mkdir (save_dir self </> ticker) (fs w) = Return fs1 →
  Fs.write (canonical_path self ticker d) (csv_lines data) fs1 = Return fs2 →
  ∃ w1, _save_data self data ticker date w = (Return (Some (canonical_path self ticker d)), w1)
        ∧ fs w1 = fs2 ∧ connected w1 = connected w.
Proof.
  intros Hd Hm Hw.
  unfold _save_data, mkdir_exist_ok, to_csv, fs_call, canonical_path in *. run.
  rewrite Hd. cbn. rewrite Hm. cbn. rewrite Hw. step.
  eexists. split; [reflexivity|]. done.
Qed.

(** C7. When a batch of a ticker and a date has been saved, saving a
    batch of the same ticker and date again succeeds too and returns the
    same path, the canonical one; afterwards the file at that path holds
    the lines of the second batch, no file has been added by the second
    save, and every other file is as it was. *)
Theorem save_data_twice_last_write_wins self data1 data2 ticker date w p w1 :
  _save_data self data1 ticker date w = (Return (Some p), w1) →
  ∃ w2 d,
    _save_data self data2 ticker date w1 = (Return (Some p), w2)
    ∧ to_datetime date = Return d
    ∧ p = canonical_path self ticker d
    ∧ fs_files (fs w1) !! p = Some (csv_lines data1)
    ∧ fs_files (fs w2) !! p = Some (csv_lines data2)
    ∧ dom (fs_files (fs w2)) = dom (fs_files (fs w1))
    ∧ (∀ q, q ≠ p → fs_files (fs w2) !! q = fs_files (fs w1) !! q)
    ∧ fs_dirs (fs w2) = fs_dirs (fs w1).
Proof.
  intros H1.
  apply save_data_success in H1 as (d & fs1 & fs2 & Hd & -> & Hm & Hw & Hfs & _).
  pose proof (mkdir_success _ _ _ Hm) as (Hdir & _ & _).
  pose proof (write_again _ _ (csv_lines data2) _ _ Hw) as Hw2.
  pose proof (write_success _ _ _ _ Hw) as (_ & _ & Hfs2).
  assert (Fs.mkdir (save_dir self </> ticker) (fs w1) = Return fs2) as Hm2.
  { rewrite Hfs. apply mkdir_of_dir. by rewrite Hfs2. }
  destruct (save_data_run self data2 ticker date w1 d fs2 _ Hd Hm2 Hw2)
    as (w2 & Hrun & Hfs' & _).
  exists w2, d.
  split; [done|]. split; [done|]. split; [done|].
  rewrite Hfs', Hfs, Hfs2. cbn [fs_files fs_dirs].
  split; [by rewrite lookup_insert_eq|].
  split; [by rewrite lookup_insert_eq|].
  split; [|split; [|done]].
  - by rewrite insert_insert_eq, !dom_insert_L.
  - intros q Hq. by rewrite !lookup_insert_ne.
Qed.

(** ** The loop over the days *)

Lemma dict_get_set_eq {V} k (v : V) d : dict_get k (dict_set k v d) = Some v.
Proof.
  induction d as [|[k' v'] d IH]; cbn.
  - by rewrite String.eqb_refl.
  - destruct (String.eqb k k') eqn:E; cbn; rewrite E; [done | exact IH].
Qed.

Lemma dict_get_set_ne {V} k k' (v : V) d :
  k ≠ k' → dict_get k' (dict_set k v d) = dict_get k' d.
Proof.
  intros Hne. induction d as [|[k0 v0] d IH]; cbn.
  - destruct (String.eqb_spec k' k); [congruence | done].
  - destruct (String.eqb_spec k k0) as [->|Hk]; cbn.
    + destruct (String.eqb_spec k' k0); [congruence | done].
    + destruct (String.eqb_spec k' k0); [done | exact IH].
Qed.

Lemma to_datetime_Exception s e : to_datetime s = Raise e → is_Exception e = true.
Proof.
  unfold to_datetime. intros H.
  repeat (match type of H with
          | (if ?b then _ else _) = _ => destruct b
          | match ?x with _ => _ end = _ => destruct x
          end; try discriminate);
  by injection H as <-.
Qed.

Lemma no_parent_Exception fs0 p : is_Exception (no_parent fs0 p) = true.
Proof. unfold no_parent. by destruct (is_file fs0 (parent p)). Qed.

Lemma mkdir_Exception p fs0 e : Fs.mkdir p fs0 = Raise e → is_Exception e = true.
Proof.
  unfold Fs.mkdir. intros H.
  repeat (match type of H with
          | (if ?b then _ else _) = _ => destruct b
          end; try discriminate);
  injection H as <-; [done | apply no_parent_Exception].
Qed.

Lemma write_Exception p l fs0 e : Fs.write p l fs0 = Raise e → is_Exception e = true.
Proof.
  unfold Fs.write. intros H.
  repeat (match type of H with
          | (if ?b then _ else _) = _ => destruct b
          end; try discriminate);
  injection H as <-; [done | apply no_parent_Exception].
Qed.

(** [_save_data] never raises: it answers a path or [None]. *)
Lemma save_data_returns self data ticker date w :
  ∃ o w', _save_data self data ticker date w = (Return o, w').
Proof.
  unfold _save_data, mkdir_exist_ok, to_csv, fs_call. run.
  destruct (to_datetime date) as [d|e] eqn:Hd; step.
  2: { rewrite (to_datetime_Exception _ _ Hd). eauto. }
  destruct (Fs.mkdir _ (fs w)) as [fs1|e] eqn:Hm; step.
  2: { rewrite (mkdir_Exception _ _ _ Hm). eauto. }
  destruct (Fs.write _ _ fs1) as [fs2|e] eqn:Hw; step.
  2: { rewrite (write_Exception _ _ _ _ Hw). eauto. }
  eauto.
Qed.

(** The request of a day leaves the file system alone, and what it raises
    comes from the gateway or is an [Exception] of the argument
    evaluation. *)
Lemma request_day_effect gw self ticker d w r w1 :
  request_day gw self ticker d w = (r, w1) →
  fs w1 = fs w ∧ connected w1 = connected w
  ∧ count is_file_io w1 = count is_file_io w
  ∧ (raises_only_Exception gw → ∀ e, r = Raise e → is_Exception e = true).
Proof.
  unfold request_day, ib_reqHistoricalData, tuple_item, replace_hour_minute. run.
  destruct (nth_error (market_end self) 0) as [h|]; step.
  2: { intros [= <- <-]. repeat split. by intros _ e [= <-]. }
  destruct (nth_error (market_end self) 1) as [m|]; step.
  2: { intros [= <- <-]. repeat split. by intros _ e [= <-]. }
  destruct (negb _); step.
  { intros [= <- <-]. repeat split. by intros _ e [= <-]. }
  destruct (negb _); step.
  { intros [= <- <-]. repeat split. by intros _ e [= <-]. }
  intros [= <- <-]. rewrite count_emit. cbn.
  repeat split; [lia|]. intros Hgw e He. by eapply Hgw.
Qed.

(** One round of the loop, by the outcome of the request and of the save. *)
Lemma fetch_days_cons gw self ticker d rest r w :
  fetch_days gw self ticker (d :: rest) r w =
    match request_day gw self ticker d w with
    | (Raise e, w1) =>
        if is_Exception e then
          fetch_days gw self ticker rest r
            (emit (Log ERROR ("Error fetching " +:+ ticker +:+ " for " +:+ strftime d +:+
                              ": " +:+ exn_str e)) w1)
        else (Raise e, w1)
    | (Return [], w1) =>
        fetch_days gw self ticker rest r
          (emit (Log WARNING ("No data available for " +:+ ticker +:+ " on " +:+ strftime d)) w1)
    | (Return (b :: bars), w1) =>
        let df := util_df (b :: bars) in
        match _save_data self df ticker (strftime d) w1 with
        | (Return (Some _), w2) =>
            fetch_days gw self ticker rest (dict_set (strftime d) df r)
              (emit (Sleep 500)
                 (emit (Log INFO ("Successfully saved " +:+ pretty (df_len df) +:+
                                  " records for " +:+ strftime d)) w2))
        | (Return None, w2) => fetch_days gw self ticker rest r (emit (Sleep 500) w2)
        | (Raise e, w2) =>
            if is_Exception e then
              fetch_days gw self ticker rest r
                (emit (Log ERROR ("Error fetching " +:+ ticker +:+ " for " +:+ strftime d +:+
                                  ": " +:+ exn_str e)) w2)
            else (Raise e, w2)
        end
    end.
Proof.
  cbn [fetch_days]. unfold fetch_day. run.
  destruct (request_day gw self ticker d w) as [[[|b bars]|e] w1]; step.
  - reflexivity.
  - replace (0 <? df_len (util_df (b :: bars)))%nat with true by reflexivity.
    step.
    destruct (_save_data self (util_df (b :: bars)) ticker (strftime d) w1)
      as [[[p|]|e] w2]; step; try reflexivity.
    destruct (is_Exception e); reflexivity.
  - destruct (is_Exception e); reflexivity.
Qed.

Lemma fetch_days_app gw self ticker pre : ∀ post r w,
  fetch_days gw self ticker (pre ++ post) r w =
    match fetch_days gw self ticker pre r w with
    | (Return r1, w1) => fetch_days gw self ticker post r1 w1
    | (Raise e, w1) => (Raise e, w1)
    end.
Proof.
  induction pre as [|d pre IH]; intros post r w; [reflexivity|].
  rewrite <- app_comm_cons, !fetch_days_cons.
  destruct (request_day gw self ticker d w) as [[[|b bars]|e] w1]; step.
  - apply IH.
  - destruct (_save_data self _ ticker (strftime d) w1) as [[[p|]|e] w2];
      step; try apply IH.
    destruct (is_Exception e); [apply IH | reflexivity].
  - destruct (is_Exception e); [apply IH | reflexivity].
Qed.

(** What one round can do to the results: nothing, or enter the batch of
    the day, which then has been answered and saved. *)
Lemma fetch_days_one gw self ticker d r w r' w' :
  fetch_days gw self ticker [d] r w = (Return r', w') →
  r' = r
  ∨ ∃ bars w1 p w2,
      request_day gw self ticker d w = (Return bars, w1)
      ∧ bars ≠ []
      ∧ _save_data self (util_df bars) ticker (strftime d) w1 = (Return (Some p), w2)
      ∧ r' = dict_set (strftime d) (util_df bars) r.
Proof.
  rewrite fetch_days_cons. cbn [fetch_days]. run.
  destruct (request_day gw self ticker d w) as [[[|b bars]|e] w1]; step.
  - intros [= <- _]. by left.
  - destruct (_save_data self _ ticker (strftime d) w1) as [[[p|]|e] w2] eqn:Hs; step.
    + intros [= <- _]. right. exists (b :: bars), w1, p, w2. done.
    + intros [= <- _]. by left.
    + destruct (is_Exception e); intros [= <- _]. by left.
  - destruct (is_Exception e); intros [= <- _]. by left.
Qed.

Lemma fetch_days_split gw self ticker d rest r w :
  fetch_days gw self ticker (d :: rest) r w =
    match fetch_days gw self ticker [d] r w with
    | (Return r1, w1) => fetch_days gw self ticker rest r1 w1
    | (Raise e, w1) => (Raise e, w1)
    end.
Proof. apply (fetch_days_app gw self ticker [d] rest). Qed.

(** With a gateway that raises nothing but [Exception]s the loop always
    returns. *)
Lemma fetch_days_returns gw self ticker days :
  raises_only_Exception gw →
  ∀ r w, ∃ r' w', fetch_days gw self ticker days r w = (Return r', w').
Proof.
  intros Hgw. induction days as [|d days IH]; intros r w.
  { cbn. unfold ret. eauto. }
  rewrite fetch_days_cons.
  destruct (request_day gw self ticker d w) as [[[|b bars]|e] w1] eqn:Hreq; step.
  - apply IH.
  - destruct (save_data_returns self (util_df (b :: bars)) ticker (strftime d) w1)
      as (o & w2 & ->).
    destruct o; apply IH.
  - apply request_day_effect in Hreq as (_ & _ & _ & He).
    rewrite (He Hgw e eq_refl). apply IH.
Qed.

(** An entry stays in the results unless a later day has its key. *)
Lemma fetch_days_keeps gw self ticker days : ∀ r0 w0 r w k v,
  fetch_days gw self ticker days r0 w0 = (Return r, w) →
  dict_get k r0 = Some v →
  k ∉ map strftime days →
  dict_get k r = Some v.
Proof.
  induction days as [|d days IH]; intros r0 w0 r w k v Hrun Hget Hk.
  { cbn in Hrun. unfold ret in Hrun. by injection Hrun as <- _. }
  rewrite fetch_days_split in Hrun.
  destruct (fetch_days gw self ticker [d] r0 w0) as [[r1|e] w1] eqn:Hone; [|done].
  cbn [map] in Hk. apply not_elem_of_cons in Hk as [Hkd Hk].
  apply (IH r1 w1 r w k v Hrun); [|done].
  apply fetch_days_one in Hone as [->|(bars & w2 & p & w3 & _ & _ & _ & ->)]; [done|].
  rewrite dict_get_set_ne; [done | congruence].
Qed.

Lemma day_saved_later gw self ticker d rest r0 w0 r1 w1 d' df :
  fetch_days gw self ticker [d] r0 w0 = (Return r1, w1) →
  day_saved gw self ticker rest r1 w1 d' df →
  day_saved gw self ticker (d :: rest) r0 w0 d' df.
Proof.
  intros Hone (pre & post & r2 & w2 & bars & w3 & p & w4 & -> & Hpre & Hreq & Hne & -> & Hs).
  exists (d :: pre), post, r2, w2, bars, w3, p, w4.
  split; [done|]. split; [|done].
  by rewrite fetch_days_split, Hone.
Qed.

(** Every entry of the results was there at the start or is the batch of
    a day that was answered and saved. *)
Lemma fetch_days_origin gw self ticker days : ∀ r0 w0 r w k df,
  fetch_days gw self ticker days r0 w0 = (Return r, w) →
  dict_get k r = Some df →
  dict_get k r0 = Some df
  ∨ ∃ d, k = strftime d ∧ day_saved gw self ticker days r0 w0 d df.
Proof.
  induction days as [|d days IH]; intros r0 w0 r w k df Hrun Hget.
  { cbn in Hrun. unfold ret in Hrun. injection Hrun as <- _. by left. }
  rewrite fetch_days_split in Hrun.
  destruct (fetch_days gw self ticker [d] r0 w0) as [[r1|e] w1] eqn:Hone; [|done].
  destruct (IH r1 w1 r w k df Hrun Hget) as [Hin|(d' & -> & Hsaved)].
  2: { right. exists d'. split; [done|]. by eapply day_saved_later. }
  pose proof Hone as Hone'.
  apply fetch_days_one in Hone' as [->|(bars & w2 & p & w3 & Hreq & Hne & Hs & ->)];
    [by left|].
  destruct (decide (k = strftime d)) as [->|Hk].
  - rewrite dict_get_set_eq in Hin. injection Hin as <-.
    right. exists d. split; [done|].
    exists [], days, r0, w0, bars, w2, p, w3. done.
  - rewrite dict_get_set_ne in Hin by congruence. by left.
Qed.

Lemma StronglySorted_lt_NoDup (l : list Z) : StronglySorted Z.lt l → NoDup l.
Proof.
  induction 1 as [|x l Hs IH Hx]; constructor; [|done].
  intros Hin. rewrite Forall_forall in Hx. specialize (Hx x Hin). lia.
Qed.

Lemma date_range_B_NoDup s e : NoDup (date_range_B s e).
Proof.
  rewrite date_range_B_eq. apply StronglySorted_lt_NoDup.
  unfold weekdays_between. apply StronglySorted_filter, seqZ_sorted.
Qed.

Lemma parse_window_bounds start_date end_date s e :
  parse_window start_date end_date = Return (s, e) →
  Timestamp_min <= s <= Timestamp_max ∧ Timestamp_min <= e <= Timestamp_max.
Proof.
  unfold parse_window. intros H.
  destruct (to_datetime start_date) as [s'|] eqn:Hs; [|done].
  apply to_datetime_bounds in Hs.
  destruct end_date as [x|]; [|by injection H as <- <-].
  destruct (truthy (Some x)); [|by injection H as <- <-].
  destruct (to_datetime x) as [e'|] eqn:He; [|done].
  apply to_datetime_bounds in He. by injection H as <- <-.
Qed.

Lemma parse_window_Exception start_date end_date e :
  parse_window start_date end_date = Raise e → is_Exception e = true.
Proof.
  unfold parse_window. intros H.
  destruct (to_datetime start_date) as [s'|x] eqn:Hs.
  2: { injection H as <-. by eapply to_datetime_Exception. }
  destruct end_date as [x|]; [|done].
  destruct (truthy (Some x)); [|done].
  destruct (to_datetime x) as [e'|y] eqn:He; [done|].
  injection H as <-. by eapply to_datetime_Exception.
Qed.

(** The days of a window have keys of their own. *)
Lemma date_range_B_keys start_date end_date s e pre d post :
  parse_window start_date end_date = Return (s, e) →
  date_range_B s e = pre ++ d :: post →
  strftime d ∉ map strftime post.
Proof.
  intros Hw Hdays Hin.
  apply parse_window_bounds in Hw as [Hs He].
  apply list_elem_of_fmap in Hin as (d' & Heq & Hd').
  assert (∀ x, x ∈ date_range_B s e → Timestamp_min <= x <= Timestamp_max) as Hb.
  { intros x Hx. rewrite date_range_B_eq in Hx.
    apply weekdays_between_elem in Hx. lia. }
  assert (d = d') as <-.
  { apply strftime_inj; [apply Hb|apply Hb|done]; rewrite Hdays;
      apply elem_of_app; right; [left | by right]. }
  pose proof (date_range_B_NoDup s e) as Hnd. rewrite Hdays in Hnd.
  apply NoDup_app in Hnd as (_ & _ & Hnd).
  apply NoDup_cons in Hnd as [Hnd _]. done.
Qed.

(** [fetch_date_range] on a connected fetcher with a window that reads. *)
Lemma fetch_date_range_on gw self ticker start_date end_date s e w :
  connected w = true →
  parse_window start_date end_date = Return (s, e) →
  fetch_date_range gw self ticker start_date end_date w =
    match fetch_days gw self ticker (date_range_B s e) [] w with
    | (Return r, w') => (Return r, w')
    | (Raise x, w') =>
        if is_Exception x then
          (Return [], emit (Log ERROR ("Error in fetch_date_range for " +:+ ticker +:+
                                       ": " +:+ exn_str x)) w')
        else (Raise x, w')
    end.
Proof.
  intros Hc Hw. unfold fetch_date_range. run. rewrite Hc, Hw. reflexivity.
Qed.

(** ** Failure isolation *)

(** C2. On a connected fetcher, for a window that reads and a gateway
    that raises nothing but [Exception]s, [fetch_date_range] returns a
    mapping whatever days fail: a day whose request raises is caught and
    logged with ticker and date, and the loop goes on with the days after
    it and the entries collected before it; and the returned mapping holds,
    under its date, the batch of every day of the window that was answered
    and saved. *)
Theorem fetch_date_range_isolates_failed_days
    gw self ticker start_date end_date s e w :
  connected w = true →
  parse_window start_date end_date = Return (s, e) →
  raises_only_Exception gw →
  ∃ results w',
    fetch_date_range gw self ticker start_date end_date w = (Return results, w')
    ∧ (∀ d df, day_saved gw self ticker (date_range_B s e) [] w d df →
         dict_get (strftime d) results = Some df)
    ∧ (∀ pre d post r1 w1 x w2,
         date_range_B s e = pre ++ d :: post →
         fetch_days gw self ticker pre [] w = (Return r1, w1) →
         request_day gw self ticker d w1 = (Raise x, w2) →
         fetch_days gw self ticker (pre ++ d :: post) [] w =
           fetch_days gw self ticker post r1
             (emit (Log ERROR ("Error fetching " +:+ ticker +:+ " for " +:+ strftime d +:+
                               ": " +:+ exn_str x)) w2)).
Proof.
  intros Hc Hw Hgw.
  rewrite (fetch_date_range_on _ _ _ _ _ _ _ _ Hc Hw).
  destruct (fetch_days_returns gw self ticker (date_range_B s e) Hgw [] w)
    as (results & w' & Hrun).
  rewrite Hrun. exists results, w'. split; [done|]. split.
  - intros d df (pre & post & r1 & w1 & bars & w2 & p & w3
                 & Hdays & Hpre & Hreq & Hne & -> & Hs).
    pose proof (date_range_B_keys _ _ _ _ _ _ _ Hw Hdays) as Hkey.
    rewrite Hdays, fetch_days_app, Hpre, fetch_days_cons, Hreq in Hrun.
    destruct bars as [|b bars]; [done|].
    cbv zeta in Hrun. rewrite Hs in Hrun.
    eapply fetch_days_keeps; [exact Hrun | apply dict_get_set_eq | exact Hkey].
  - intros pre d post r1 w1 x w2 Hdays Hpre Hreq.
    rewrite fetch_days_app, Hpre, fetch_days_cons, Hreq.
    apply request_day_effect in Hreq as (_ & _ & _ & He).
    by rewrite (He Hgw x eq_refl).
Qed.

(** ** Days without data *)

(** C3. An entry of the mapping [fetch_date_range] returns is the batch
    of a business day of the window, under that day's date, whose request
    was answered with bars, not none, and whose batch was saved. A day
    whose request is answered with no bars changes neither the file system
    nor the results: no file-system call is made, a warning is logged, and
    the loop goes on with the days after it. *)
Theorem fetch_date_range_entries_are_saved_days
    gw self ticker start_date end_date w results w' :
  fetch_date_range gw self ticker start_date end_date w = (Return results, w') →
  (∀ k df, dict_get k results = Some df →
     ∃ s e d,
       parse_window start_date end_date = Return (s, e)
       ∧ d ∈ date_range_B s e
       ∧ k = strftime d
       ∧ day_saved gw self ticker (date_range_B s e) [] w d df)
  ∧ (∀ d rest r w0 w1,
       request_day gw self ticker d w0 = (Return [], w1) →
       let w2 := emit (Log WARNING ("No data available for " +:+ ticker +:+ " on " +:+
                                    strftime d)) w1 in
       fs w2 = fs w0
       ∧ count is_file_io w2 = count is_file_io w0
       ∧ fetch_days gw self ticker (d :: rest) r w0 = fetch_days gw self ticker rest r w2).
Proof.
  intros Hrun. split.
  - intros k df Hget.
    destruct (connected w) eqn:Hc.
    2: { rewrite fetch_date_range_off in Hrun by done.
         injection Hrun as <- _. done. }
    destruct (parse_window start_date end_date) as [[s e]|x] eqn:Hw.
    2: { unfold fetch_date_range in Hrun. run. rewrite Hc, Hw in Hrun.
         cbn in Hrun. rewrite (parse_window_Exception _ _ _ Hw) in Hrun.
         injection Hrun as <- _. done. }
    rewrite (fetch_date_range_on _ _ _ _ _ _ _ _ Hc Hw) in Hrun.
    destruct (fetch_days gw self ticker (date_range_B s e) [] w) as [[r|x] w1] eqn:Hdays.
    2: { destruct (is_Exception x); [|done]. injection Hrun as <- _. done. }
    injection Hrun as -> ->.
    destruct (fetch_days_origin _ _ _ _ _ _ _ _ _ _ Hdays Hget) as [Hnil|(d & -> & Hsaved)];
      [done|].
    exists s, e, d. split; [done|]. split; [|done].
    destruct Hsaved as (pre & post & ? & ? & ? & ? & ? & ? & -> & _).
    apply elem_of_app. right. left.
  - intros d rest r w0 w1 Hreq w2. subst w2.
    rewrite fetch_days_cons, Hreq.
    apply request_day_effect in Hreq as (Hfs & _ & Hio & _).
    rewrite count_emit. cbn. split; [done|]. split; [lia|done].
Qed.

(** ** What a fetch does to the state *)

Lemma extends_refl Q w : extends Q w w.
Proof. split; [done|]. exists []. by rewrite app_nil_r. Qed.

Lemma extends_trans Q w1 w2 w3 : extends Q w1 w2 → extends Q w2 w3 → extends Q w1 w3.
Proof.
  intros [Hc1 (n1 & He1 & Hq1)] [Hc2 (n2 & He2 & Hq2)].
  split; [congruence|]. exists (n1 ++ n2).
  rewrite He2, He1, app_assoc. split; [done|]. by apply Forall_app.
Qed.

Lemma extends_emit (Q : event → Prop) e w : Q e → extends Q w (emit e w).
Proof. intros He. split; [done|]. exists [e]. split; [done|]. by constructor. Qed.

Lemma extends_fs_call (Q : event → Prop) e op w r w' :
  Q e → fs_call e op w = (r, w') → extends Q w w'.
Proof.
  intros He. unfold fs_call.
  destruct (op (fs w)); intros [= <- <-];
    (split; [done|]; exists [e]; split; [done|]; by constructor).
Qed.

Lemma count_extends (Q : event → Prop) P w w' :
  extends Q w w' → (∀ e, Q e → P e = false) → count P w' = count P w.
Proof.
  intros [_ (new & He & Hq)] HP. unfold count.
  rewrite He, List.filter_app, length_app.
  assert (List.filter P new = []) as ->; [|cbn; lia].
  clear He. induction Hq as [|e new Hx _ IH]; [done|].
  cbn. by rewrite (HP e Hx).
Qed.

Lemma save_data_saves self data ticker date w r w' :
  _save_data self data ticker date w = (r, w') → extends save_event w w'.
Proof.
  unfold _save_data, mkdir_exist_ok, to_csv. run.
  destruct (to_datetime date) as [d|x]; step.
  2: { destruct (is_Exception x); intros [= <- <-];
       [by apply extends_emit | apply extends_refl]. }
  destruct (fs_call (FsMkdir _) _ w) as [[[]|x] w1] eqn:H1; step;
    apply (extends_fs_call save_event) in H1; try done.
  2: { destruct (is_Exception x); intros [= <- <-]; [|done].
       eapply extends_trans; [exact H1 | by apply extends_emit]. }
  destruct (fs_call (FsWrite _) _ w1) as [[[]|x] w2] eqn:H2; step;
    apply (extends_fs_call save_event) in H2; try done.
  2: { destruct (is_Exception x); intros [= <- <-].
       - eapply extends_trans; [exact H1|].
         eapply extends_trans; [exact H2 | by apply extends_emit].
       - by eapply extends_trans. }
  intros [= <- <-].
  eapply extends_trans; [exact H1|].
  eapply extends_trans; [exact H2 | by apply extends_emit].
Qed.

Lemma extends_mono (Q Q' : event → Prop) w w' :
  (∀ e, Q e → Q' e) → extends Q w w' → extends Q' w w'.
Proof.
  intros HQ [Hc (new & He & Hq)]. split; [done|]. exists new. split; [done|].
  eapply Forall_impl; [exact Hq | exact HQ].
Qed.

Lemma save_data_extends self data ticker date w r w' :
  _save_data self data ticker date w = (r, w') → extends fetch_event w w'.
Proof.
  intros H. apply save_data_saves in H.
  eapply extends_mono; [|exact H]. by intros [].
Qed.

Lemma request_day_extends gw self ticker d w r w' :
  request_day gw self ticker d w = (r, w') → extends fetch_event w w'.
Proof.
  unfold request_day, ib_reqHistoricalData, tuple_item, replace_hour_minute. run.
  destruct (nth_error (market_end self) 0) as [h|]; step.
  2: { intros [= <- <-]. apply extends_refl. }
  destruct (nth_error (market_end self) 1) as [m|]; step.
  2: { intros [= <- <-]. apply extends_refl. }
  destruct (negb _); step; [intros [= <- <-]; apply extends_refl|].
  destruct (negb _); step; [intros [= <- <-]; apply extends_refl|].
  intros [= <- <-]. by apply extends_emit.
Qed.

Lemma fetch_days_extends gw self ticker days : ∀ r w res w',
  fetch_days gw self ticker days r w = (res, w') → extends fetch_event w w'.
Proof.
  induction days as [|d days IH]; intros r w res w'.
  { cbn. unfold ret. intros [= <- <-]. apply extends_refl. }
  rewrite fetch_days_cons.
  destruct (request_day gw self ticker d w) as [[[|b bars]|x] w1] eqn:Hreq; step;
    apply request_day_extends in Hreq.
  - intros H. apply IH in H.
    eapply extends_trans; [exact Hreq|].
    eapply extends_trans; [|exact H]. by apply extends_emit.
  - destruct (_save_data self _ ticker (strftime d) w1) as [[[p|]|x] w2] eqn:Hs;
      step; apply save_data_extends in Hs.
    + intros H. apply IH in H.
      eapply extends_trans; [exact Hreq|].
      eapply extends_trans; [exact Hs|].
      eapply extends_trans; [|exact H].
      eapply extends_trans; by apply extends_emit.
    + intros H. apply IH in H.
      eapply extends_trans; [exact Hreq|].
      eapply extends_trans; [exact Hs|].
      eapply extends_trans; [|exact H]. by apply extends_emit.
    + destruct (is_Exception x).
      * intros H. apply IH in H.
        eapply extends_trans; [exact Hreq|].
        eapply extends_trans; [exact Hs|].
        eapply extends_trans; [|exact H]. by apply extends_emit.
      * intros [= <- <-]. by eapply extends_trans.
  - destruct (is_Exception x).
    + intros H. apply IH in H.
      eapply extends_trans; [exact Hreq|].
      eapply extends_trans; [|exact H]. by apply extends_emit.
    + by intros [= <- <-].
Qed.

(** [fetch_date_range] adds events of a fetch and nothing else, and leaves
    the [connected] flag as it is. *)
Lemma fetch_date_range_extends gw self ticker start_date end_date w :
  extends fetch_event w (fetch_date_range gw self ticker start_date end_date w).2.
Proof.
  destruct (connected w) eqn:Hc.
  2: { rewrite fetch_date_range_off by done. by apply extends_emit. }
  destruct (parse_window start_date end_date) as [[s e]|x] eqn:Hw.
  2: { unfold fetch_date_range. run. rewrite Hc, Hw. step. cbn [negb].
       destruct (is_Exception x); [by apply extends_emit | apply extends_refl]. }
  rewrite (fetch_date_range_on _ _ _ _ _ _ _ _ Hc Hw).
  destruct (fetch_days gw self ticker (date_range_B s e) [] w) as [[r|x] w1] eqn:Hdays;
    apply fetch_days_extends in Hdays; [done|].
  destruct (is_Exception x); [|done].
  eapply extends_trans; [exact Hdays | by apply extends_emit].
Qed.

Lemma fetch_date_range_keeps_connection gw : keeps_connection (fetch_date_range gw).
Proof.
  intros f t s e w.
  pose proof (fetch_date_range_extends gw f t s e w) as Hext.
  split; [apply Hext|].
  apply (count_extends _ _ _ _ Hext). by intros [].
Qed.

Lemma fetch_date_range_never_sleeps_1s gw : never_sleeps_1s (fetch_date_range gw).
Proof.
  intros f t s e w.
  apply (count_extends _ _ _ _ (fetch_date_range_extends gw f t s e w)).
  intros []; cbn; try done. by intros ->.
Qed.

(** The method of [IBKRFetcher] handles every [Exception] of the gateway:
    it raises for no ticker. *)
Lemma fetch_date_range_raises_for_none gw :
  raises_only_Exception gw → raises_for (fetch_date_range gw) (λ _, false).
Proof.
  intros Hgw f t s e w.
  destruct (connected w) eqn:Hc.
  2: { by rewrite fetch_date_range_off. }
  destruct (parse_window s e) as [[s' e']|x] eqn:Hw.
  2: { unfold fetch_date_range. run. rewrite Hc, Hw. step. cbn [negb].
       by rewrite (parse_window_Exception _ _ _ Hw). }
  rewrite (fetch_date_range_on _ _ _ _ _ _ _ _ Hc Hw).
  by destruct (fetch_days_returns gw f t (date_range_B s' e') Hgw [] w) as (r & w' & ->).
Qed.

(** ** The requests of a fetch *)

Lemma requested_days_extends (Q : event → Prop) w w' :
  extends Q w w' →
  (∀ e, Q e → match e with IbReqHistoricalData _ => False | _ => True end) →
  requested_days (events w') = requested_days (events w).
Proof.
  intros [_ (new & He & Hq)] HQ. unfold requested_days.
  rewrite He, omap_app.
  assert (omap (λ e, match e with
                     | IbReqHistoricalData req => Some (ts_day (endDateTime req))
                     | _ => None
                     end) new = []) as ->; [|by rewrite app_nil_r].
  clear He. induction Hq as [|x new Hx _ IH]; [done|].
  cbn. specialize (HQ x Hx). by destruct x.
Qed.

Lemma requested_days_emit e w :
  requested_days (events (emit e w)) =
    requested_days (events w) ++
      match e with IbReqHistoricalData req => [ts_day (endDateTime req)] | _ => [] end.
Proof. unfold requested_days, emit. cbn. rewrite omap_app. by destruct e. Qed.

Lemma request_day_requests gw self ticker d w r w' :
  close_time_valid self →
  request_day gw self ticker d w = (r, w') →
  requested_days (events w') = requested_days (events w) ++ [d].
Proof.
  intros (h & m & rest & Hend & Hh & Hm).
  unfold request_day, ib_reqHistoricalData, tuple_item, replace_hour_minute. run.
  rewrite Hend. cbn [nth_error]. step.
  replace (negb ((0 <=? h) && (h <=? 23))) with false
    by (symmetry; apply negb_false_iff, andb_true_iff; split; apply Z.leb_le; lia).
  replace (negb ((0 <=? m) && (m <=? 59))) with false
    by (symmetry; apply negb_false_iff, andb_true_iff; split; apply Z.leb_le; lia).
  step. intros [= <- <-]. by rewrite requested_days_emit.
Qed.

(** Whatever the days answer, the loop requests every day, in order. *)
Lemma fetch_days_requests gw self ticker days :
  raises_only_Exception gw → close_time_valid self →
  ∀ r w res w',
    fetch_days gw self ticker days r w = (res, w') →
    requested_days (events w') = requested_days (events w) ++ days.
Proof.
  intros Hgw Hclose. induction days as [|d days IH]; intros r w res w'.
  { cbn. unfold ret. intros [= <- <-]. by rewrite app_nil_r. }
  rewrite fetch_days_cons.
  destruct (request_day gw self ticker d w) as [[[|b bars]|x] w1] eqn:Hreq; step;
    pose proof (request_day_requests _ _ _ _ _ _ _ Hclose Hreq) as Hd.
  - intros H. apply IH in H. rewrite H, requested_days_emit, Hd, app_nil_r.
    by rewrite <- app_assoc.
  - destruct (_save_data self _ ticker (strftime d) w1) as [[[p|]|x] w2] eqn:Hs; step;
      pose proof (requested_days_extends _ _ _ (save_data_saves _ _ _ _ _ _ _ Hs)) as Hsave;
      rewrite <- Hsave in Hd by (by intros []).
    + intros H. apply IH in H.
      rewrite H, !requested_days_emit, Hd, !app_nil_r. by rewrite <- app_assoc.
    + intros H. apply IH in H.
      rewrite H, !requested_days_emit, Hd, !app_nil_r. by rewrite <- app_assoc.
    + destruct (save_data_returns self (util_df (b :: bars)) ticker (strftime d) w1)
        as (o & w3 & Hret). congruence.
  - apply request_day_effect in Hreq as (_ & _ & _ & He).
    rewrite (He Hgw x eq_refl).
    intros H. apply IH in H. rewrite H, requested_days_emit, Hd, app_nil_r.
    by rewrite <- app_assoc.
Qed.

(** X1. On a connected fetcher, the requests of [fetch_date_range] are
    those for the weekdays of the window, one each, in calendar order,
    whichever of them fail. *)
Lemma fetch_date_range_requests_every_business_day
    gw self ticker start_date end_date s e w :
  connected w = true →
  parse_window start_date end_date = Return (s, e) →
  raises_only_Exception gw →
  close_time_valid self →
  requested_days (events (fetch_date_range gw self ticker start_date end_date w).2)
  = requested_days (events w) ++ weekdays_between s e.
Proof.
  intros Hc Hw Hgw Hclose.
  rewrite (fetch_date_range_on _ _ _ _ _ _ _ _ Hc Hw), <- date_range_B_eq.
  destruct (fetch_days gw self ticker (date_range_B s e) [] w) as [[r|x] w1] eqn:Hdays.
  - by apply (fetch_days_requests _ _ _ _ Hgw Hclose) in Hdays.
  - destruct (fetch_days_returns gw self ticker (date_range_B s e) Hgw [] w)
      as (r & w' & Hret). congruence.
Qed.

(** ** The loop over the tickers *)

Lemma dict_keys_set {V} k (v : V) d t :
  t ∈ dict_keys (dict_set k v d) ↔ t = k ∨ t ∈ dict_keys d.
Proof.
  unfold dict_keys. induction d as [|[k' v'] d IH]; cbn.
  - rewrite elem_of_cons. reflexivity.
  - destruct (String.eqb_spec k k') as [->|Hne]; cbn.
    + rewrite elem_of_cons. tauto.
    + rewrite !elem_of_cons, IH. tauto.
Qed.

(** One round of the loop, by the outcome of the fetch. *)
Lemma process_ticker_run fetch self start end_ total idx ticker results w :
  process_ticker fetch self start end_ total idx ticker results w =
    match fetch (fetcher self) ticker start (Some end_)
            (emit (Log INFO ("Processing " +:+ ticker +:+ " (" +:+ pretty idx +:+ "/" +:+
                             pretty total +:+ ")")) w) with
    | (Return data, w1) =>
        (Return (dict_set ticker data results), emit (Sleep 1000) (emit (summary ticker data) w1))
    | (Raise x, w1) =>
        if is_Exception x then
          (Return results,
           emit (Log ERROR ("Error processing " +:+ ticker +:+ ": " +:+ exn_str x)) w1)
        else (Raise x, w1)
    end.
Proof.
  unfold process_ticker, summary. run.
  destruct (fetch _ _ _ _ _) as [[data|x] w1]; step; [|done].
  by destruct (dict_truthy data).
Qed.

(** The loop leaves the connection alone when the fetch method does. *)
Lemma process_tickers_connection fetch self start end_ total tickers :
  keeps_connection fetch →
  ∀ idx results w r w',
    process_tickers fetch self start end_ total idx tickers results w = (r, w') →
    connected w' = connected w ∧ count is_disconnect w' = count is_disconnect w.
Proof.
  intros Hk. induction tickers as [|t tickers IH]; intros idx results w r w'.
  { cbn. unfold ret. by intros [= <- <-]. }
  cbn [process_tickers]. unfold bind at 1. rewrite process_ticker_run.
  match goal with |- context [fetch ?f ?t ?s ?e ?w0] =>
    destruct (Hk f t s e w0) as [Hc Hd];
    destruct (fetch f t s e w0) as [[data|x] w1] end;
    cbn [snd] in Hc, Hd; rewrite count_emit in Hd; cbn in Hd.
  - intros H. apply IH in H as [-> ->]. rewrite !count_emit.
    unfold summary. destruct (dict_truthy data); cbn; split; (done || lia).
  - destruct (is_Exception x).
    + intros H. apply IH in H as [-> ->]. rewrite count_emit. cbn. split; (done || lia).
    + intros [= <- <-]. split; (done || lia).
Qed.

(** When the method raises [Exception]s only, for the tickers [raises]
    tells, the loop returns, with an entry more for each ticker whose fetch
    returned and for no other. *)
Lemma process_tickers_entries fetch raises self start end_ total tickers :
  raises_for fetch raises →
  ∀ idx results w,
    ∃ results' w',
      process_tickers fetch self start end_ total idx tickers results w = (Return results', w')
      ∧ ∀ t, t ∈ dict_keys results' ↔
             (t ∈ dict_keys results ∨ (t ∈ tickers ∧ raises t = false)).
Proof.
  intros Hr. induction tickers as [|t tickers IH]; intros idx results w.
  { exists results, w. split; [done|]. intros t. rewrite elem_of_nil. tauto. }
  cbn [process_tickers]. unfold bind at 1. rewrite process_ticker_run.
  match goal with |- context [fetch ?f ?t ?s ?e ?w0] =>
    pose proof (Hr f t s e w0) as Ht;
    destruct (fetch f t s e w0) as [[data|x] w1] end.
  - match goal with |- context [process_tickers _ _ _ _ _ ?i _ ?r ?w0] =>
      destruct (IH i r w0) as (results' & w' & -> & Hkeys) end.
    exists results', w'. split; [done|]. intros t'.
    rewrite Hkeys, dict_keys_set, elem_of_cons.
    split; [|intros [?|[[->|?] ?]]; tauto].
    intros [[->|?]|[? ?]]; tauto.
  - destruct Ht as [Ht ->].
    match goal with |- context [process_tickers _ _ _ _ _ ?i _ ?r ?w0] =>
      destruct (IH i r w0) as (results' & w' & -> & Hkeys) end.
    exists results', w'. split; [done|]. intros t'.
    rewrite Hkeys, elem_of_cons.
    split; [tauto|]. intros [?|[[->|?] ?]]; [tauto | congruence | tauto].
Qed.

(** And the pause of one second is made once for each ticker whose fetch
    returned. *)
Lemma process_tickers_sleeps fetch raises self start end_ total tickers :
  raises_for fetch raises → never_sleeps_1s fetch →
  ∀ idx results w r w',
    process_tickers fetch self start end_ total idx tickers results w = (r, w') →
    count (is_sleep 1000) w' =
      (count (is_sleep 1000) w + length (filter (λ t, raises t = false) tickers))%nat.
Proof.
  intros Hr Hs. induction tickers as [|t tickers IH]; intros idx results w r w'.
  { cbn. unfold ret. intros [= <- <-]. lia. }
  cbn [process_tickers]. unfold bind at 1. rewrite process_ticker_run.
  rewrite filter_cons.
  match goal with |- context [fetch ?f ?t ?s ?e ?w0] =>
    pose proof (Hr f t s e w0) as Ht; pose proof (Hs f t s e w0) as Hn;
    destruct (fetch f t s e w0) as [[data|x] w1] end;
    cbn [snd] in Hn; rewrite count_emit in Hn; cbn in Hn.
  - intros H. apply IH in H as ->. rewrite !count_emit.
    case_decide; [|congruence].
    unfold summary. destruct (dict_truthy data); cbn; lia.
  - destruct Ht as [Ht ->].
    intros H. apply IH in H as ->. rewrite count_emit.
    case_decide; [congruence|]. cbn. lia.
Qed.

Lemma connect_true gw self port client_id w w1 :
  connect gw self port client_id w = (Return true, w1) →
  connected w1 = true
  ∧ events w1 = events w ++ [IbConnect "127.0.0.1" port client_id;
                             Log INFO "Successfully connected to IBKR"].
Proof.
  unfold connect, ib_connect, emit. run.
  destruct (gw_connect gw (events w) "127.0.0.1" port client_id) as [x|]; step.
  { destruct (is_Exception x); intros [=]. }
  intros [= <-]. cbn. by rewrite <- app_assoc.
Qed.

Lemma load_tickers_extends self w r w' :
  load_tickers self w = (r, w') →
  extends (λ e, match e with Log _ _ | FsRead _ => True | _ => False end) w w'.
Proof.
  unfold load_tickers, read_csv. run.
  destruct (Fs.read (tickers_file self) (fs w)) as [lines|x]; step.
  2: { destruct (is_Exception x); intros [= <- <-].
       - eapply extends_trans; by apply extends_emit.
       - by apply extends_emit. }
  destruct (parse_csv lines) as [df|x]; step.
  2: { destruct (is_Exception x); intros [= <- <-].
       - eapply extends_trans; by apply extends_emit.
       - by apply extends_emit. }
  destruct (column "Ticker" df) as [tickers|x]; step.
  2: { destruct (is_Exception x); intros [= <- <-].
       - eapply extends_trans; by apply extends_emit.
       - by apply extends_emit. }
  intros [= <- <-]. eapply extends_trans; by apply extends_emit.
Qed.

(** [load_tickers] never raises: a manifest that cannot be read is an
    empty manifest. *)
Lemma load_tickers_returns self w :
  ∃ tickers w', load_tickers self w = (Return tickers, w').
Proof.
  unfold load_tickers, read_csv, Fs.read, parse_csv, column. run.
  destruct (fs_files (fs w) !! tickers_file self) as [lines|]; step.
  2: { destruct (is_dir (fs w) (tickers_file self)); step; cbn [is_Exception OSError]; eauto. }
  destruct (filter _ lines) as [|header rows]; step.
  { cbn [is_Exception]. eauto. }
  destruct (Py.index "Ticker" _) as [i|]; step; [eauto|].
  cbn [is_Exception KeyError]. eauto.
Qed.

Lemma disconnect_on self w :
  connected w = true →
  disconnect self w = (Return tt, mk_World false (fs w) (events w ++ [IbDisconnect])).
Proof. intros Hc. unfold disconnect, ib_disconnect, emit. run. by rewrite Hc. Qed.

(** [fetch_all] after a connect that succeeded: the manifest is loaded,
    the loop runs, and whatever the loop's outcome the fetcher is
    disconnected. *)
Lemma fetch_all_with_run fetch gw self start_date end_date w w1 tickers w2 :
  connect gw (fetcher self) 7496 1 w = (Return true, w1) →
  load_tickers self w1 = (Return tickers, w2) →
  keeps_connection fetch →
  ∃ r w3,
    process_tickers fetch self (dashed start_date) (dashed end_date) (length tickers) 1
      tickers [] w2 = (r, w3)
    ∧ fetch_all_with fetch gw self start_date end_date w
      = (r, mk_World false (fs w3) (events w3 ++ [IbDisconnect]))
    ∧ count is_disconnect w3 = count is_disconnect w.
Proof.
  intros Hconn Hload Hk.
  destruct (process_tickers fetch self (dashed start_date) (dashed end_date)
              (length tickers) 1 tickers [] w2) as [r w3] eqn:Hloop.
  exists r, w3. split; [done|].
  pose proof (process_tickers_connection _ _ _ _ _ _ Hk _ _ _ _ _ Hloop) as [Hc3 Hd3].
  pose proof (connect_true _ _ _ _ _ _ Hconn) as [Hc1 He1].
  pose proof (load_tickers_extends _ _ _ _ Hload) as Hext.
  assert (connected w3 = true) as Hc.
  { rewrite Hc3. destruct Hext as [-> _]. done. }
  split.
  - unfold fetch_all_with. run. rewrite Hconn. step. cbn [negb].
    rewrite Hload. step. rewrite Hloop. by rewrite (disconnect_on _ _ Hc).
  - rewrite Hd3. rewrite (count_extends _ _ _ _ Hext) by (by intros []).
    unfold count. rewrite He1, List.filter_app, length_app. cbn. lia.
Qed.

(** ** The batch past a ticker that fails *)


(** ** The pause between tickers *)


(** X2. With the method of [IBKRFetcher] itself, on a gateway that
    raises nothing but [Exception]s, no round of the loop fails: every
    ticker of the manifest has an entry, the pause is made after each of
    them, and the gateway is disconnected once. *)
Lemma fetch_all_covers_manifest gw self start_date end_date w w1 :
  raises_only_Exception gw →
  connect gw (fetcher self) 7496 1 w = (Return true, w1) →
  ∃ tickers w2 results w',
    load_tickers self w1 = (Return tickers, w2)
    ∧ fetch_all gw self start_date end_date w = (Return results, w')
    ∧ (∀ t, t ∈ dict_keys results ↔ t ∈ tickers)
    ∧ count (is_sleep 1000) w' = (count (is_sleep 1000) w + length tickers)%nat
    ∧ count is_disconnect w' = S (count is_disconnect w).
Proof.
  intros Hgw Hconn. unfold fetch_all.
  destruct (load_tickers_returns self w1) as (tickers & w2 & Hload).
  pose proof (fetch_date_range_keeps_connection gw) as Hk.
  pose proof (fetch_date_range_raises_for_none gw Hgw) as Hr.
  pose proof (fetch_date_range_never_sleeps_1s gw) as Hs.
  destruct (fetch_all_with_run _ gw self start_date end_date _ _ _ _ Hconn Hload Hk)
    as (r & w3 & Hloop & Hrun & Hd).
  destruct (process_tickers_entries _ _ self (dashed start_date) (dashed end_date)
              (length tickers) tickers Hr 1%nat [] w2)
    as (results & w' & Hloop' & Hkeys).
  rewrite Hloop in Hloop'. injection Hloop' as -> ->.
  eexists tickers, w2, results, _. split; [exact Hload|]. split; [exact Hrun|].
  split; [|split].
  - intros t. rewrite Hkeys. cbn. rewrite elem_of_nil. tauto.
  - pose proof (process_tickers_sleeps _ _ _ _ _ _ _ Hr Hs _ _ _ _ _ Hloop) as Hcount.
    pose proof (connect_true _ _ _ _ _ _ Hconn) as [_ He1].
    pose proof (load_tickers_extends _ _ _ _ Hload) as Hext.
    rewrite (count_extends _ _ _ _ Hext) in Hcount by (by intros []).
    assert (filter (λ t : string, false = false) tickers = tickers) as Hall.
    { clear. induction tickers as [|t l IH]; [done|].
      rewrite filter_cons. case_decide; [by rewrite IH | done]. }
    rewrite Hall in Hcount.
    unfold count in *. cbn. rewrite List.filter_app, length_app. cbn.
    rewrite Hcount, He1, List.filter_app, length_app. cbn. lia.
  - unfold count in *. cbn. rewrite List.filter_app, length_app. cbn. lia.
Qed.




(** ** The retry settings *)

(** C8. The two retry entries of the settings are read nowhere: for two
    settings that differ at most in [default_retries] and [retry_delay], the
    two constructors make the same fetchers, and a single-ticker session, a
    batch session and the two programs, on any gateway, arguments and
    state, return the same result and end in the same state, that is, with
    the same requests issued, the same files written and the same lines
    logged. *)
Theorem retry_settings_are_never_read (s1 s2 : Settings) :
  same_but_retry s1 s2 →
  (∀ save_dir, IBKRFetcher_init s1 save_dir = IBKRFetcher_init s2 save_dir)
  ∧ BatchFetcher_init s1 = BatchFetcher_init s2
  ∧ (∀ gw save_dir ticker start_date end_date w,
       single_session s1 gw save_dir ticker start_date end_date w
       = single_session s2 gw save_dir ticker start_date end_date w)
  ∧ (∀ gw start_date end_date w,
       batch_session s1 gw start_date end_date w = batch_session s2 gw start_date end_date w)
  ∧ (∀ gw argv w, IBKR.main s1 gw argv w = IBKR.main s2 gw argv w)
  ∧ (∀ gw argv w, Batch.main s1 gw argv w = Batch.main s2 gw argv w).
Proof.
  destruct s1 as [root1 data1 raw1 proc1 hours1 [i1 c1 r1 d1]].
  destruct s2 as [root2 data2 raw2 proc2 hours2 [i2 c2 r2 d2]].
  unfold same_but_retry. cbn.
  intros (-> & -> & -> & -> & -> & -> & ->).
  repeat split.
Qed.

(** ** The ticker of the command line *)

Lemma index_Some_contains x l i : Py.index x l = Some i → contains x l = true.
Proof.
  revert i. induction l as [|y l IH]; intros i; cbn; [done|].
  destruct (String.eqb x y); [done|].
  destruct (Py.index x l) as [j|]; [|done]. intros _. by apply (IH j).
Qed.

(** C9, as the code has it. When the first [--ticker] of the command line
    is its last argument, the ticker is the default one, [NNE]; nothing is
    logged and nothing fails on account of the missing symbol: [main] goes
    on as it does for any command line, with the dates it reads and that
    ticker. *)
Theorem trailing_ticker_flag_falls_back_to_default settings gw (argv : list string) :
  Py.index "--ticker" argv = Some (length argv - 1)%nat →
  select_ticker argv = "NNE"
  ∧ IBKR.main settings gw argv =
      try_except
        (dates <- parse_dates argv ;;
         run_fetch settings gw "NNE" (fst dates) (snd dates))
        (λ e,
         log ERROR ("Error: " +:+ exn_str e) ;;
         sys_exit 1).
Proof.
  intros Hidx.
  assert (select_ticker argv = "NNE") as Hsel.
  { unfold select_ticker. rewrite (index_Some_contains _ _ _ Hidx), Hidx.
    destruct (Nat.ltb_spec (length argv - 1 + 1) (length argv)); [lia | done]. }
  split; [done|]. unfold IBKR.main. by rewrite Hsel.
Qed.

(** ** The installation at work *)

Import Scenario.

(** Closed statements about the runs are settled by evaluation. *)
Ltac by_vm :=
  repeat (match goal with |- _ ∧ _ => split end); vm_compute; reflexivity.

Lemma steady_raises_only_Exception : raises_only_Exception steady.
Proof. intros history req e H. discriminate H. Defined.

Lemma flaky_raises_only_Exception : raises_only_Exception flaky.
Proof.
  intros history req e H. cbn in H.
  destruct (ts_day (endDateTime req) =? wednesday); [|discriminate H].
  injection H as <-. reflexivity.
Defined.

(** The week of 2024-01-01 on the flaky gateway: every weekday is
    requested, Wednesday fails and is logged, the four other days are in
    the mapping. *)
Example flaky_week :
  dict_keys <$> returned flaky_run.1
  = Some ["2024-01-01"; "2024-01-02"; "2024-01-04"; "2024-01-05"]
  ∧ requested_days (events flaky_run.2) = [738886; 738887; 738888; 738889; 738890]
  ∧ List.filter (λ e, match e with Log ERROR _ => true | _ => false end) (events flaky_run.2)
    = [Log ERROR "Error fetching AAA for 2024-01-03: request timed out"].
Proof. by_vm. Qed.

(** The design document's end-to-end scenario, with three tickers: an
    entry and a file for each ticker. *)
Example steady_batch :
  dict_keys <$> returned steady_run.1 = Some ["AAA"; "BBB"; "CCC"]
  ∧ fs_files (fs steady_run.2) !! raw_AAA
    = Some ["date,open,high,low,close,volume,average,barCount";
            "2024-01-03 09:30:00,10.0,10.5,9.5,10.2,1200,10.1,37";
            "2024-01-03 09:31:00,10.0,10.5,9.5,10.3,1200,10.1,37"]
  ∧ count (is_sleep 1000) steady_run.2 = 3%nat
  ∧ count is_disconnect steady_run.2 = 1%nat.
Proof. by_vm. Qed.

(** The same batch interrupted during the second ticker: the batch is
    aborted, and the gateway is disconnected on the way out. *)
Example interrupted_batch :
  interrupted_run.1 = Raise KeyboardInterrupt
  ∧ last (events interrupted_run.2) = Some IbDisconnect
  ∧ count is_disconnect interrupted_run.2 = 1%nat
  ∧ connected interrupted_run.2 = false.
Proof. by_vm. Qed.

Lemma fetch_date_range_isolates_failed_days_witness :
  connected online = true
  ∧ parse_window "2024-01-01" (Some "2024-01-07") = Return (738886, 738892)
  ∧ raises_only_Exception flaky
  ∧ ∃ results w',
      fetch_date_range flaky fetcher0 "AAA" "2024-01-01" (Some "2024-01-07") online
      = (Return results, w').
Proof.
  assert (parse_window "2024-01-01" (Some "2024-01-07") = Return (738886, 738892)) as Hw
    by (vm_compute; reflexivity).
  split; [reflexivity|]. split; [exact Hw|]. split; [exact flaky_raises_only_Exception|].
  destruct (fetch_date_range_isolates_failed_days flaky fetcher0 "AAA" "2024-01-01"
              (Some "2024-01-07") 738886 738892 online eq_refl Hw
              flaky_raises_only_Exception) as (results & w' & Hrun & _).
  exists results, w'. exact Hrun.
Defined.

Lemma fetch_date_range_entries_are_saved_days_witness :
  holiday_run = (Return (value [] holiday_run.1), holiday_run.2)
  ∧ dict_keys (value [] holiday_run.1) = ["2024-01-02"; "2024-01-04"]
  ∧ ∀ k df, dict_get k (value [] holiday_run.1) = Some df →
      ∃ s e d,
        parse_window "2024-01-02" (Some "2024-01-04") = Return (s, e)
        ∧ d ∈ date_range_B s e
        ∧ k = strftime d
        ∧ day_saved holiday fetcher0 "AAA" (date_range_B s e) [] online d df.
Proof.
  assert (holiday_run = (Return (value [] holiday_run.1), holiday_run.2)) as Hrun
    by (vm_compute; reflexivity).
  split; [exact Hrun|]. split; [vm_compute; reflexivity|].
  exact (proj1 (fetch_date_range_entries_are_saved_days holiday fetcher0 "AAA"
                  "2024-01-02" (Some "2024-01-04") online _ _ Hrun)).
Defined.

Lemma fetch_date_range_unconnected_witness :
  connected offline = false
  ∧ ∃ w',
      fetch_date_range steady fetcher0 "AAA" "2024-01-03" None offline = (Return [], w')
      ∧ events w' = events offline ++ [Log ERROR "Not connected to IBKR"]
      ∧ fs w' = fs offline
      ∧ connected w' = false
      ∧ count is_file_io w' = count is_file_io offline
      ∧ count is_request w' = count is_request offline.
Proof.
  split; [reflexivity|].
  apply (fetch_date_range_unconnected steady fetcher0 "AAA" "2024-01-03" None offline).
  reflexivity.
Defined.

Lemma save_data_twice_last_write_wins_witness :
  first_save = (Return (Some raw_AAA), first_save.2)
  ∧ ∃ w2,
      _save_data fetcher0 (util_df one_bar) "AAA" "2024-01-03" first_save.2
      = (Return (Some raw_AAA), w2)
      ∧ fs_files (fs w2) !! raw_AAA = Some (csv_lines (util_df one_bar)).
Proof.
  assert (first_save = (Return (Some raw_AAA), first_save.2)) as H1
    by (vm_compute; reflexivity).
  split; [exact H1|].
  destruct (save_data_twice_last_write_wins fetcher0 (util_df two_bars) (util_df one_bar)
              "AAA" "2024-01-03" online raw_AAA first_save.2 H1)
    as (w2 & d & H2 & _ & _ & _ & Hc & _).
  exists w2. split; [exact H2 | exact Hc].
Defined.

Lemma connect_failure_leaves_fetcher_unconnected_witness :
  ∃ e w',
    gw_connect refusing (events offline) "127.0.0.1" 7496 1 = Some e
    ∧ is_Exception e = true
    ∧ connect refusing fetcher0 7496 1 offline = (Return false, w')
    ∧ connected w' = connected offline.
Proof.
  eexists _.
  destruct (connect_failure_leaves_fetcher_unconnected refusing fetcher0 7496 1 offline _
              eq_refl eq_refl) as (w' & Hrun & Hc & _).
  exists w'. split; [reflexivity|]. split; [reflexivity|]. split; [exact Hrun | exact Hc].
Defined.

Lemma retry_settings_are_never_read_witness :
  same_but_retry settings patient_settings
  ∧ default_retries (DATA_SETTINGS settings) ≠ default_retries (DATA_SETTINGS patient_settings)
  ∧ ∀ gw start_date end_date w,
      batch_session settings gw start_date end_date w
      = batch_session patient_settings gw start_date end_date w.
Proof.
  assert (same_but_retry settings patient_settings) as H by (repeat split).
  split; [exact H|]. split; [discriminate|].
  apply (retry_settings_are_never_read settings patient_settings H).
Defined.





(** C9 as stated fails: [--ticker] is the last argument, with no symbol
    after it, and the ticker is not the default one but the symbol of an
    earlier [--ticker]. *)
Lemma trailing_ticker_flag_after_earlier_flag :
  let argv := ["ibkr_fetcher.py"; "20240103"; "--ticker"; "AAPL"; "--ticker"] in
  last argv = Some "--ticker"
  ∧ select_ticker argv = "AAPL"
  ∧ select_ticker argv ≠ "NNE".
Proof. cbv zeta. split; [reflexivity|]. split; [reflexivity | discriminate]. Qed.

Lemma trailing_ticker_flag_falls_back_to_default_witness :
  let argv := ["ibkr_fetcher.py"; "20240103"; "--ticker"] in
  Py.index "--ticker" argv = Some (length argv - 1)%nat
  ∧ select_ticker argv = "NNE".
Proof.
  cbv zeta. split; [reflexivity|].
  apply (trailing_ticker_flag_falls_back_to_default settings steady
           ["ibkr_fetcher.py"; "20240103"; "--ticker"]).
  reflexivity.
Defined.

(** * More of the code *)

Import Attrs Logging Checks.

(** ** Directories *)

Lemma makedirs_Exception below : ∀ above fs0 e,
  makedirs above below fs0 = Raise e → is_Exception e = true.
Proof.
  induction below as [|c below IH]; intros above fs0 e; cbn; [done|].
  destruct (is_file fs0 (above ++ [c])).
  - destruct below; by intros [= <-].
  - apply IH.
Qed.

(** What a successful [mkdir(parents=True, exist_ok=True)] leaves. *)
Lemma makedirs_success below : ∀ above fs0 fs1,
  makedirs above below fs0 = Return fs1 →
  fs_files fs1 = fs_files fs0
  ∧ fs_dirs fs0 ⊆ fs_dirs fs1
  ∧ (is_dir fs0 above = true → is_dir fs1 (above ++ below) = true).
Proof.
  induction below as [|c below IH]; intros above fs0 fs1; cbn.
  { intros [= <-]. rewrite app_nil_r. done. }
  destruct (is_file fs0 (above ++ [c])) eqn:Hf; [by destruct below|].
  intros Hrun. apply IH in Hrun as (Hfiles & Hdirs & Hdir).
  rewrite <- app_assoc in Hdir. cbn in Hdir.
  destruct (is_dir fs0 (above ++ [c])) eqn:Hd.
  - split; [done|]. split; [done|]. intros _. by apply Hdir.
  - cbn in *. split; [done|]. split; [by apply union_subseteq in Hdirs as [_ ?]|]. intros _. apply Hdir.
    unfold is_dir. apply bool_decide_eq_true_2. right. cbn.
    apply elem_of_union_l. by apply elem_of_singleton.
Qed.

(** Once it succeeded, it succeeds again without a change, also after
    more directories were made. *)
Lemma makedirs_again below : ∀ above fs0 fs1 fs2,
  makedirs above below fs0 = Return fs1 →
  fs_files fs2 = fs_files fs1 →
  fs_dirs fs1 ⊆ fs_dirs fs2 →
  makedirs above below fs2 = Return fs2.
Proof.
  induction below as [|c below IH]; intros above fs0 fs1 fs2; cbn; [done|].
  destruct (is_file fs0 (above ++ [c])) eqn:Hf; [by destruct below|].
  intros Hrun Hfiles Hdirs.
  pose proof (makedirs_success _ _ _ _ Hrun) as (Hfiles1 & Hdirs1 & _).
  assert (is_file fs2 (above ++ [c]) = false) as ->.
  { unfold is_file in *. rewrite Hfiles, Hfiles1.
    by destruct (is_dir fs0 (above ++ [c])). }
  assert (above ++ [c] ∈ fs_dirs fs2) as Hin.
  { apply Hdirs, Hdirs1. destruct (is_dir fs0 (above ++ [c])) eqn:Hd.
    - unfold is_dir in Hd. apply bool_decide_eq_true_1 in Hd as [Hd|Hd]; [|done].
      by destruct above.
    - cbn. apply elem_of_union_l. by apply elem_of_singleton. }
  assert (is_dir fs2 (above ++ [c]) = true) as ->.
  { unfold is_dir. apply bool_decide_eq_true_2. by right. }
  by eapply IH.
Qed.

Lemma mkdir_parents_run p w :
  mkdir_parents p w =
    match makedirs [] p (fs w) with
    | Return fs' => (Return tt, mk_World (connected w) fs' (events w ++ [FsMkdir p]))
    | Raise x => (Raise x, emit (FsMkdir p) w)
    end.
Proof. reflexivity. Qed.

(** ** [Settings.__init__] *)

Lemma Settings_init_run root w :
  let s := default_settings root in
  Settings_init root w =
    match makedirs [] (RAW_DATA_DIR s) (fs w) with
    | Raise x => (Raise x, emit (FsMkdir (RAW_DATA_DIR s)) w)
    | Return fs1 =>
        let evs := events w ++ [FsMkdir (RAW_DATA_DIR s); FsMkdir (PROCESSED_DATA_DIR s)] in
        match makedirs [] (PROCESSED_DATA_DIR s) fs1 with
        | Raise x => (Raise x, mk_World (connected w) fs1 evs)
        | Return fs2 => (Return s, mk_World (connected w) fs2 evs)
        end
    end.
Proof.
  intros s. unfold Settings_init, _create_directories. fold s. run.
  rewrite mkdir_parents_run.
  destruct (makedirs [] (RAW_DATA_DIR s) (fs w)) as [fs1|x]; [|done].
  rewrite mkdir_parents_run. cbn [fs connected events]. unfold emit.
  cbn [fs connected events]. rewrite <- app_assoc.
  by destruct (makedirs [] (PROCESSED_DATA_DIR s) fs1).
Qed.

(** X3. When [Settings.__init__] returns, the raw and the processed data
    directories exist, no file was touched and no directory was lost;
    making the settings again changes nothing on the disk. *)
Theorem settings_init_makes_data_directories root w s w' :
  Settings_init root w = (Return s, w') →
  s = default_settings root
  ∧ is_dir (fs w') (RAW_DATA_DIR s) = true
  ∧ is_dir (fs w') (PROCESSED_DATA_DIR s) = true
  ∧ fs_files (fs w') = fs_files (fs w)
  ∧ fs_dirs (fs w) ⊆ fs_dirs (fs w')
  ∧ ∃ w'', Settings_init root w' = (Return s, w'') ∧ fs w'' = fs w'.
Proof.
  rewrite !Settings_init_run. cbv zeta.
  destruct (makedirs [] (RAW_DATA_DIR (default_settings root)) (fs w)) as [fs1|x] eqn:H1;
    [|done].
  destruct (makedirs [] (PROCESSED_DATA_DIR (default_settings root)) fs1) as [fs2|x] eqn:H2;
    [|done].
  intros [= <- <-]. cbn [fs connected events].
  pose proof (makedirs_success _ _ _ _ H1) as (Hf1 & Hd1 & Hdir1).
  pose proof (makedirs_success _ _ _ _ H2) as (Hf2 & Hd2 & Hdir2).
  split; [done|]. split.
  { specialize (Hdir1 eq_refl). cbn [app] in Hdir1. unfold is_dir in *.
    apply bool_decide_eq_true_2. apply bool_decide_eq_true_1 in Hdir1 as [?|?]; [by left|].
    right. by apply Hd2. }
  split; [by apply Hdir2|]. split; [congruence|]. split; [by etrans|].
  rewrite (makedirs_again _ _ _ _ fs2 H1) by (done || congruence).
  rewrite (makedirs_again _ _ _ _ fs2 H2) by done.
  eexists. split; reflexivity.
Qed.

(** ** [IBKRFetcher.__init__] *)

(** X4. However [IBKRFetcher.__init__] ends, the fetcher is not
    connected, no file was touched and no directory was lost; when it
    returns, the fetcher saves below the directory it was given, or below
    the raw data directory of the settings, and that directory exists. *)
Theorem fetcher_init_outcome settings dir w r w' :
  IBKRFetcher_init settings dir w = (r, w') →
  connected w' = false
  ∧ fs_files (fs w') = fs_files (fs w)
  ∧ fs_dirs (fs w) ⊆ fs_dirs (fs w')
  ∧ ∀ f, r = Return f →
      save_dir f = default (RAW_DATA_DIR settings) dir
      ∧ is_dir (fs w') (save_dir f) = true
      ∧ market_timezone f = mh_timezone (MARKET_HOURS settings).
Proof.
  unfold IBKRFetcher_init, set_connected, log, emit. run. rewrite mkdir_parents_run. cbn [fs connected events].
  set (p := match dir with Some p => p | None => RAW_DATA_DIR settings end).
  assert (p = default (RAW_DATA_DIR settings) dir) as Hp by (by destruct dir).
  destruct (makedirs [] p (fs w)) as [fs1|x] eqn:Hm; step.
  2: { intros [= <- <-]. cbn. split; [done|]. split; [done|]. split; [done|]. done. }
  pose proof (makedirs_success _ _ _ _ Hm) as (Hf1 & Hd1 & Hdir1).
  unfold lift.
  destruct (map_int (split ":" (mh_start (MARKET_HOURS settings)))) as [ms|x]; step.
  2: { intros [= <- <-]. cbn. done. }
  destruct (map_int (split ":" (mh_end (MARKET_HOURS settings)))) as [me|x]; step.
  2: { intros [= <- <-]. cbn. done. }
  intros [= <- <-]. cbn. split; [done|]. split; [done|]. split; [done|].
  intros f [= <-]. cbn. split; [done|]. split; [|done]. by apply Hdir1.
Qed.

(** X5. With the settings of [Settings.__init__] the fetcher reads the
    market hours as 9:30 and 16:00, so the close time it asks the
    gateway for is a time of day. *)
Theorem fetcher_init_default_hours root dir w f w' :
  IBKRFetcher_init (default_settings root) dir w = (Return f, w') →
  market_start f = [9; 30] ∧ market_end f = [16; 0] ∧ close_time_valid f.
Proof.
  unfold IBKRFetcher_init, set_connected, log, emit. run. rewrite mkdir_parents_run. cbn [fs connected events].
  destruct (makedirs [] _ (fs w)) as [fs1|x] eqn:Hm; step; [|done].
  intros [= <- _]. cbn. split; [done|]. split; [done|].
  exists 16, 0, []. split; [done|]. lia.
Qed.

(** ** Edge cases of a fetch *)

(** X6. [disconnect] always returns and leaves the fetcher unconnected
    with the disk as it was; it calls the gateway once if the fetcher was
    connected and not at all otherwise, and a second [disconnect] does
    nothing. *)
Theorem disconnect_idempotent self w :
  ∃ w1,
    disconnect self w = (Return tt, w1)
    ∧ connected w1 = false
    ∧ fs w1 = fs w
    ∧ count is_disconnect w1 = (count is_disconnect w + if connected w then 1 else 0)%nat
    ∧ disconnect self w1 = (Return tt, w1).
Proof.
  destruct (connected w) eqn:Hc.
  - rewrite (disconnect_on _ _ Hc). eexists. split; [reflexivity|].
    split; [done|]. split; [done|]. split.
    + unfold count. cbn. rewrite List.filter_app, length_app. cbn. lia.
    + by apply disconnect_off.
  - rewrite (disconnect_off _ _ Hc). exists w.
    split; [done|]. split; [done|]. split; [done|]. split; [lia|].
    by apply disconnect_off.
Qed.

Lemma fetch_date_range_unreadable gw self ticker start_date end_date w e :
  connected w = true →
  parse_window start_date end_date = Raise e →
  fetch_date_range gw self ticker start_date end_date w
  = (Return [],
     emit (Log ERROR ("Error in fetch_date_range for " +:+ ticker +:+ ": " +:+ exn_str e)) w).
Proof.
  intros Hc Hw. unfold fetch_date_range. run. rewrite Hc, Hw. step. cbn [negb].
  by rewrite (parse_window_Exception _ _ _ Hw).
Qed.


Lemma weekdays_between_none s e :
  (∀ d, s <= d <= e → 5 <= weekday d) → weekdays_between s e = [].
Proof.
  intros H. destruct (weekdays_between s e) as [|d l] eqn:E; [done|].
  assert (d ∈ weekdays_between s e) as Hd by (rewrite E; left).
  apply weekdays_between_elem in Hd as [Hr Hwd]. specialize (H d Hr). lia.
Qed.

(** X8. A window without a business day, a weekend or an end before the
    start, makes a connected [fetch_date_range] return the empty dict
    without any effect at all, not even a log line. *)
Theorem fetch_date_range_no_business_day gw self ticker start_date end_date s e w :
  connected w = true →
  parse_window start_date end_date = Return (s, e) →
  (∀ d, s <= d <= e → 5 <= weekday d) →
  fetch_date_range gw self ticker start_date end_date w = (Return [], w).
Proof.
  intros Hc Hw Hnone.
  rewrite (fetch_date_range_on _ _ _ _ _ _ _ _ Hc Hw), date_range_B_eq.
  by rewrite (weekdays_between_none _ _ Hnone).
Qed.

Lemma bind_run {A B} (m : M A) (k : A → M B) w :
  bind m k w = match m w with
               | (Return a, w') => k a w'
               | (Raise e, w') => (Raise e, w')
               end.
Proof. reflexivity. Qed.

(** ** One date on the command line *)

Lemma parse_window_same_day start_date :
  parse_window start_date (Some start_date) = parse_window start_date None
  ∧ parse_window start_date (Some "") = parse_window start_date None.
Proof.
  unfold parse_window. destruct (to_datetime start_date) as [d|x]; [|done].
  split; [|done]. by destruct (truthy (Some start_date)).
Qed.

(** X9. Without an end date, with the empty string as end date, and
    with the start date as end date, [fetch_date_range] does the same:
    the window is the start day. *)
Theorem fetch_date_range_default_end gw self ticker start_date w :
  fetch_date_range gw self ticker start_date (Some start_date) w
  = fetch_date_range gw self ticker start_date None w
  ∧ fetch_date_range gw self ticker start_date (Some "") w
  = fetch_date_range gw self ticker start_date None w.
Proof.
  destruct (parse_window_same_day start_date) as [H1 H2].
  unfold fetch_date_range. by rewrite H1, H2.
Qed.

Lemma fetch_date_range_same_day gw self ticker start_date :
  fetch_date_range gw self ticker start_date (Some start_date)
  = fetch_date_range gw self ticker start_date None.
Proof.
  unfold fetch_date_range. by destruct (parse_window_same_day start_date) as [-> _].
Qed.

Lemma run_fetch_same_day settings gw ticker start_date w :
  run_fetch settings gw ticker start_date (Some start_date) w
  = run_fetch settings gw ticker start_date None w.
Proof.
  unfold run_fetch. rewrite !(bind_run (IBKRFetcher_init settings None)).
  destruct (IBKRFetcher_init settings None w) as [[f|x] w1]; [|done].
  rewrite !(bind_run (connect gw f 7496 1)).
  destruct (connect gw f 7496 1 w1) as [[ok|x] w2]; [|done].
  by rewrite fetch_date_range_same_day.
Qed.

Lemma startswith_dashes_ticker d : startswith "--" d = false → d ≠ "--ticker".
Proof. by intros H ->. Qed.

(** X10. Both programs take a single date as a range of that one day:
    the run with [START] alone is the run with [START START]. *)
Theorem one_date_is_one_day settings gw prog d w :
  startswith "--" d = false →
  IBKR.main settings gw [prog; d] w = IBKR.main settings gw [prog; d; d] w
  ∧ Batch.main settings gw [prog; d] w = Batch.main settings gw [prog; d; d] w.
Proof.
  intros Hd. split.
  - unfold IBKR.main.
    assert (select_ticker [prog; d] = select_ticker [prog; d; d]) as ->.
    { pose proof (startswith_dashes_ticker d Hd) as Hne.
      unfold select_ticker, contains. cbn [existsb index].
      destruct (String.eqb "--ticker" d) eqn:E2.
      { apply String.eqb_eq in E2. congruence. }
      by destruct (String.eqb "--ticker" prog). }
    unfold parse_dates. cbn [length nth Nat.ltb Nat.leb andb]. rewrite Hd. cbn [negb andb].
    destruct (negb (String.length d =? 8)%nat); [done|].
    unfold try_except. rewrite !bind_run. unfold ret. cbn [fst snd].
    by rewrite run_fetch_same_day.
  - unfold Batch.main. cbn [length nth Nat.ltb Nat.leb].
    by destruct (negb (String.length d =? 8)%nat).
Qed.

(** ** The dict a fetch returns *)

Lemma dict_keys_set_new {V} k (v : V) d :
  k ∉ dict_keys d → dict_keys (dict_set k v d) = dict_keys d ++ [k].
Proof.
  unfold dict_keys. induction d as [|[k' v'] d IH]; cbn; [done|].
  intros Hk. apply not_elem_of_cons in Hk as [Hne Hk].
  destruct (String.eqb_spec k k'); [done|]. cbn. by rewrite IH.
Qed.

Lemma dict_keys_set_NoDup {V} k (v : V) d :
  NoDup (dict_keys d) → NoDup (dict_keys (dict_set k v d)).
Proof.
  unfold dict_keys. induction d as [|[k' v'] d IH]; cbn.
  - intros _. apply NoDup_singleton.
  - intros Hnd. apply NoDup_cons in Hnd as [Hk' Hnd].
    destruct (String.eqb_spec k k') as [->|Hne]; cbn.
    + by apply NoDup_cons.
    + apply NoDup_cons. split; [|by apply IH].
      intros Hin. apply (dict_keys_set k v d k') in Hin as [?|?]; [congruence|done].
Qed.

Lemma fetch_days_keys gw self ticker days : ∀ r0 w0 r w,
  fetch_days gw self ticker days r0 w0 = (Return r, w) →
  NoDup (strftime <$> days) →
  (∀ d, d ∈ days → strftime d ∉ dict_keys r0) →
  ∃ ks, dict_keys r = dict_keys r0 ++ ks ∧ ks `sublist_of` (strftime <$> days).
Proof.
  induction days as [|d days IH]; intros r0 w0 r w Hrun Hnd Hfresh.
  { cbn in Hrun. unfold ret in Hrun. injection Hrun as <- _.
    exists []. by rewrite app_nil_r. }
  rewrite fetch_days_split in Hrun.
  destruct (fetch_days gw self ticker [d] r0 w0) as [[r1|x] w1] eqn:Hone; [|done].
  rewrite fmap_cons in Hnd. apply NoDup_cons in Hnd as [Hd Hnd].
  apply fetch_days_one in Hone as [->|(bars & w2 & p & w3 & _ & _ & _ & ->)].
  - destruct (IH r0 w1 r w Hrun Hnd) as (ks & Hks & Hsub).
    { intros d' Hd'. apply Hfresh. by right. }
    exists ks. split; [done|]. rewrite fmap_cons. by apply sublist_cons.
  - destruct (IH _ w1 r w Hrun Hnd) as (ks & Hks & Hsub).
    { intros d' Hd'. rewrite dict_keys_set_new by (apply Hfresh; left).
      intros Hin. apply elem_of_app in Hin as [Hin|Hin].
      - revert Hin. apply Hfresh. by right.
      - apply list_elem_of_singleton in Hin. apply Hd. rewrite <- Hin.
        by apply list_elem_of_fmap_2. }
    rewrite dict_keys_set_new in Hks by (apply Hfresh; left).
    exists (strftime d :: ks). rewrite Hks, <- app_assoc. split; [done|].
    rewrite fmap_cons. by apply sublist_skip.
Qed.

Lemma date_range_B_keys_NoDup start_date end_date s e :
  parse_window start_date end_date = Return (s, e) →
  NoDup (strftime <$> date_range_B s e).
Proof.
  intros Hw. apply parse_window_bounds in Hw as [Hs He].
  apply NoDup_fmap_2_strong; [|apply date_range_B_NoDup].
  assert (∀ x, x ∈ date_range_B s e → Timestamp_min <= x <= Timestamp_max) as Hb.
  { intros x Hx. rewrite date_range_B_eq in Hx.
    apply weekdays_between_elem in Hx. lia. }
  intros x y Hx Hy. apply strftime_inj; by apply Hb.
Qed.

(** What [fetch_date_range] returns on a run that returned. *)
Lemma fetch_date_range_returned gw self ticker start_date end_date w results w' :
  fetch_date_range gw self ticker start_date end_date w = (Return results, w') →
  results = []
  ∨ ∃ s e w1,
      connected w = true
      ∧ parse_window start_date end_date = Return (s, e)
      ∧ fetch_days gw self ticker (date_range_B s e) [] w = (Return results, w1).
Proof.
  intros Hrun.
  destruct (connected w) eqn:Hc.
  2: { rewrite fetch_date_range_off in Hrun by done. injection Hrun as <- _. by left. }
  destruct (parse_window start_date end_date) as [[s e]|x] eqn:Hw.
  2: { unfold fetch_date_range in Hrun. run. rewrite Hc, Hw in Hrun.
       cbn in Hrun. rewrite (parse_window_Exception _ _ _ Hw) in Hrun.
       injection Hrun as <- _. by left. }
  rewrite (fetch_date_range_on _ _ _ _ _ _ _ _ Hc Hw) in Hrun.
  destruct (fetch_days gw self ticker (date_range_B s e) [] w) as [[r|x] w1] eqn:Hdays.
  2: { destruct (is_Exception x); [|done]. injection Hrun as <- _. by left. }
  injection Hrun as -> ->. right. by exists s, e, w'.
Qed.

(** X11. The keys of the dict [fetch_date_range] returns are days of the
    window in calendar order, each at most once: a sublist of the
    business days of the window, written [YYYY-MM-DD]. *)
Theorem fetch_date_range_keys_in_calendar_order
    gw self ticker start_date end_date s e w results w' :
  fetch_date_range gw self ticker start_date end_date w = (Return results, w') →
  parse_window start_date end_date = Return (s, e) →
  dict_keys results `sublist_of` (strftime <$> weekdays_between s e)
  ∧ NoDup (dict_keys results).
Proof.
  intros Hrun Hw.
  assert (dict_keys results `sublist_of` (strftime <$> weekdays_between s e)) as Hsub.
  { apply fetch_date_range_returned in Hrun as [->|(s' & e' & w1 & _ & Hw' & Hdays)].
    { apply sublist_nil_l. }
    rewrite Hw in Hw'. injection Hw' as <- <-.
    destruct (fetch_days_keys _ _ _ _ _ _ _ _ Hdays) as (ks & Hks & Hsub).
    - by eapply date_range_B_keys_NoDup.
    - intros d _. apply not_elem_of_nil.
    - rewrite <- date_range_B_eq. by rewrite Hks. }
  split; [done|].
  eapply sublist_NoDup; [|exact Hsub].
  rewrite <- date_range_B_eq. by eapply date_range_B_keys_NoDup.
Qed.

(** X12. No entry of the dict [fetch_date_range] returns is an empty
    table: each has a row at least, and the columns of a bar. *)
Theorem fetch_date_range_batches_have_rows
    gw self ticker start_date end_date w results w' :
  fetch_date_range gw self ticker start_date end_date w = (Return results, w') →
  ∀ k df, dict_get k results = Some df →
    (0 < df_len df)%nat
    ∧ df_columns df
      = ["date"; "open"; "high"; "low"; "close"; "volume"; "average"; "barCount"].
Proof.
  intros Hrun k df Hget.
  apply fetch_date_range_returned in Hrun as [->|(s & e & w1 & _ & _ & Hdays)]; [done|].
  destruct (fetch_days_origin _ _ _ _ _ _ _ _ _ _ Hdays Hget) as [?|(d & _ & Hsaved)]; [done|].
  destruct Hsaved as (? & ? & ? & ? & bars & ? & ? & ? & _ & _ & _ & Hne & -> & _).
  destruct bars as [|b bars]; [done|]. unfold df_len, util_df. cbn. split; [lia|done].
Qed.

(** ** The files of a fetch *)

Lemma save_data_files self data ticker date w :
  ∃ o w',
    _save_data self data ticker date w = (Return o, w')
    ∧ fs_files (fs w') = match o with
                         | Some p => <[p := csv_lines data]> (fs_files (fs w))
                         | None => fs_files (fs w)
                         end
    ∧ fs_dirs (fs w) ⊆ fs_dirs (fs w')
    ∧ fs_dirs (fs w') ⊆ {[save_dir self </> ticker]} ∪ fs_dirs (fs w)
    ∧ connected w' = connected w.
Proof.
  unfold _save_data, mkdir_exist_ok, to_csv, fs_call. run.
  destruct (to_datetime date) as [d|e] eqn:Hd; step.
  2: { rewrite (to_datetime_Exception _ _ Hd). eexists _, _. split; [reflexivity|].
       cbn. split; [done|]. split; [done|]. split; [apply union_subseteq_r | done]. }
  destruct (Fs.mkdir _ (fs w)) as [fs1|e] eqn:Hm; step.
  2: { rewrite (mkdir_Exception _ _ _ Hm). eexists _, _. split; [reflexivity|].
       cbn. split; [done|]. split; [done|]. split; [apply union_subseteq_r | done]. }
  assert (fs_files fs1 = fs_files (fs w)
          ∧ fs_dirs (fs w) ⊆ fs_dirs fs1
          ∧ fs_dirs fs1 ⊆ {[save_dir self </> ticker]} ∪ fs_dirs (fs w)) as (Hf1 & Hd1 & Hd2).
  { unfold Fs.mkdir in Hm.
    destruct (is_dir (fs w) _).
    { injection Hm as <-. split; [done|]. split; [done | apply union_subseteq_r]. }
    destruct (is_file (fs w) _); [done|].
    destruct (is_dir (fs w) _); [|done].
    injection Hm as <-. cbn. split; [done|]. split; [apply union_subseteq_r | done]. }
  destruct (Fs.write _ _ fs1) as [fs2|e] eqn:Hw; step.
  2: { rewrite (write_Exception _ _ _ _ Hw). eexists _, _. split; [reflexivity|].
       cbn. done. }
  apply write_success in Hw as (_ & _ & ->).
  eexists _, _. split; [reflexivity|]. cbn. by rewrite Hf1.
Qed.

(** X13. [_save_data] always returns. It writes at most the file whose
    path it returns, with the lines of the table; every other file is as
    it was, the only directory it may make is the one of the ticker, and
    the connection is as it was. *)
Theorem save_data_touches_one_file self data ticker date w :
  ∃ o w',
    _save_data self data ticker date w = (Return o, w')
    ∧ (∀ q, o ≠ Some q → fs_files (fs w') !! q = fs_files (fs w) !! q)
    ∧ (∀ p, o = Some p → fs_files (fs w') !! p = Some (csv_lines data))
    ∧ fs_dirs (fs w) ⊆ fs_dirs (fs w')
    ∧ fs_dirs (fs w') ⊆ {[save_dir self </> ticker]} ∪ fs_dirs (fs w)
    ∧ connected w' = connected w.
Proof.
  destruct (save_data_files self data ticker date w) as (o & w' & Hrun & Hf & Hd1 & Hd2 & Hc).
  exists o, w'. split; [done|]. rewrite Hf.
  split; [|split; [|done]].
  - intros q Hq. destruct o as [p|]; [|done].
    rewrite lookup_insert_ne; [done | congruence].
  - intros p ->. by rewrite lookup_insert_eq.
Qed.

Lemma list_ascii_of_string_app s1 s2 :
  list_ascii_of_string (s1 +:+ s2) = list_ascii_of_string s1 ++ list_ascii_of_string s2.
Proof.
  induction s1 as [|c s1 IH]; [done|].
  change (String c s1 +:+ s2) with (String c (s1 +:+ s2)).
  cbn [list_ascii_of_string]. by rewrite IH.
Qed.

Lemma digit_char_not_slash n : digit_char n ≠ "/"%char.
Proof.
  unfold digit_char. intros H.
  pose proof (Z.mod_pos_bound n 10 ltac:(lia)) as Hb.
  apply (f_equal N_of_ascii) in H.
  rewrite N_ascii_embedding in H by lia.
  cbn in H. lia.
Qed.

Lemma strftime_plain d : plain_name (strftime d).
Proof.
  unfold plain_name, strftime. destruct (ymd_of_ordinal d) as [[y m] dd].
  unfold fmt4, fmt2. rewrite !list_ascii_of_string_app.
  cbn [list_ascii_of_string]. rewrite !elem_of_app, !elem_of_cons, elem_of_nil.
  pose proof digit_char_not_slash as H. intros Hin.
  repeat (destruct Hin as [Hin|Hin]);
    try discriminate Hin; try done; symmetry in Hin; by eapply H.
Qed.

Lemma strftime_length d : String.length (strftime d) = 10%nat.
Proof. unfold strftime. by destruct (ymd_of_ordinal d) as [[y m] dd]. Qed.

Lemma append_inj_r s1 : ∀ s2 t,
  String.length s1 = String.length s2 → s1 +:+ t = s2 +:+ t → s1 = s2.
Proof.
  induction s1 as [|c s1 IH]; intros [|c2 s2] t Hlen H; cbn in *; try done.
  injection H as -> H. f_equal. by eapply IH; [lia|].
Qed.

Lemma split_plain s : plain_name s → split "/" s = [s].
Proof.
  unfold plain_name. induction s as [|c s IH]; cbn; [done|].
  intros Hin. apply not_elem_of_cons in Hin as [Hc Hin].
  destruct (Ascii.eqb_spec c "/"); [congruence|]. by rewrite IH.
Qed.

(** The canonical path of a plain ticker is the ticker's directory with
    the file name in it. *)
Lemma canonical_path_plain self ticker d :
  plain_name ticker →
  canonical_path self ticker d
  = (save_dir self </> ticker) ++ ["raw_" +:+ ticker +:+ "_" +:+ strftime d +:+ ".csv"].
Proof.
  intros Hp. unfold canonical_path, Pathlib.div at 1.
  cbn [startswith String.prefix]. unfold parts.
  rewrite split_plain.
  - rewrite filter_cons, filter_nil. by case_decide as Hc; [|destruct Hc; split].
  - pose proof (strftime_plain d) as Hs. unfold plain_name in *.
    rewrite !list_ascii_of_string_app. cbn [list_ascii_of_string].
    rewrite !elem_of_app, !elem_of_cons, elem_of_nil. intros Hin.
    decompose [or] Hin; try discriminate; try done.
Qed.

Lemma canonical_path_inj self ticker d1 d2 :
  plain_name ticker →
  Timestamp_min <= d1 <= Timestamp_max → Timestamp_min <= d2 <= Timestamp_max →
  canonical_path self ticker d1 = canonical_path self ticker d2 → d1 = d2.
Proof.
  intros Hp H1 H2. rewrite !canonical_path_plain by done.
  intros H. apply app_inv_head in H. injection H as H.
  do 3 apply String.app_inj in H.
  apply strftime_inj; [done..|].
  eapply append_inj_r; [|exact H]. by rewrite !strftime_length.
Qed.

(** X14. Two days have two files: for a ticker without a slash in its
    name, the canonical paths of different days differ. *)
Theorem distinct_days_have_distinct_files self ticker d1 d2 :
  plain_name ticker →
  Timestamp_min <= d1 <= Timestamp_max → Timestamp_min <= d2 <= Timestamp_max →
  d1 ≠ d2 →
  canonical_path self ticker d1 ≠ canonical_path self ticker d2.
Proof.
  intros Hp H1 H2 Hne Heq. apply Hne. by eapply canonical_path_inj.
Qed.

Lemma fetch_days_one_files gw self ticker d r w r' w' :
  fetch_days gw self ticker [d] r w = (Return r', w') →
  Timestamp_min <= d <= Timestamp_max →
  (∀ q, q ≠ canonical_path self ticker d → fs_files (fs w') !! q = fs_files (fs w) !! q)
  ∧ (r' = r
     ∨ ∃ df, r' = dict_set (strftime d) df r
             ∧ fs_files (fs w') !! (canonical_path self ticker d) = Some (csv_lines df)).
Proof.
  intros Hrun Hd. rewrite fetch_days_cons in Hrun. cbn [fetch_days] in Hrun. run.
  destruct (request_day gw self ticker d w) as [[[|b bars]|x] w1] eqn:Hreq;
    apply request_day_effect in Hreq as (Hfs & _); revert Hrun; step.
  - intros [= <- <-]. cbn. rewrite Hfs. split; [done | by left].
  - destruct (save_data_files self (util_df (b :: bars)) ticker (strftime d) w1)
      as (o & w2 & Hs & Hfiles & _).
    rewrite Hs. destruct o as [p|]; intros [= <- <-]; cbn; rewrite Hfiles, <- Hfs.
    + apply save_data_success in Hs as (d' & _ & _ & Hd' & -> & _).
      rewrite to_datetime_strftime in Hd' by done. injection Hd' as <-.
      split; [intros q Hq; by rewrite lookup_insert_ne|].
      right. eexists. split; [done|]. by rewrite lookup_insert_eq.
    + split; [done | by left].
  - destruct (is_Exception x); intros [= <- <-]. cbn. rewrite Hfs. split; [done | by left].
Qed.

Lemma fetch_days_on_disk gw self ticker days :
  plain_name ticker →
  ∀ r0 w0 r w,
    fetch_days gw self ticker days r0 w0 = (Return r, w) →
    NoDup days →
    (∀ d, d ∈ days → Timestamp_min <= d <= Timestamp_max) →
    (∀ k df, dict_get k r0 = Some df →
       ∃ d, k = strftime d ∧ Timestamp_min <= d <= Timestamp_max ∧ (d ∉ days)
            ∧ fs_files (fs w0) !! (canonical_path self ticker d) = Some (csv_lines df)) →
    ∀ k df, dict_get k r = Some df →
      ∃ d, k = strftime d
           ∧ fs_files (fs w) !! (canonical_path self ticker d) = Some (csv_lines df).
Proof.
  intros Hp. induction days as [|d days IH]; intros r0 w0 r w Hrun Hnd Hb Hinv k df Hget.
  { cbn in Hrun. unfold ret in Hrun. injection Hrun as <- <-.
    destruct (Hinv k df Hget) as (d & -> & _ & _ & Hf). eauto. }
  rewrite fetch_days_split in Hrun.
  destruct (fetch_days gw self ticker [d] r0 w0) as [[r1|x] w1] eqn:Hone; [|done].
  apply NoDup_cons in Hnd as [Hd Hnd].
  assert (Timestamp_min <= d <= Timestamp_max) as Hbd by (apply Hb; left).
  apply fetch_days_one_files in Hone as [Hother Hnew]; [|done].
  apply (IH r1 w1 r w Hrun Hnd); [intros d' Hd'; apply Hb; by right| |done].
  intros k' df' Hget'.
  assert (∀ d0, Timestamp_min <= d0 <= Timestamp_max → d0 ≠ d →
            fs_files (fs w1) !! (canonical_path self ticker d0)
            = fs_files (fs w0) !! (canonical_path self ticker d0)) as Hframe.
  { intros d0 Hb0 Hne. apply Hother. intros Heq.
    by apply canonical_path_inj in Heq. }
  assert (∀ df0, dict_get k' r0 = Some df0 →
            ∃ d0, k' = strftime d0 ∧ Timestamp_min <= d0 <= Timestamp_max ∧ (d0 ∉ days)
                  ∧ fs_files (fs w1) !! (canonical_path self ticker d0) = Some (csv_lines df0))
    as Hold.
  { intros df0 Hg. destruct (Hinv k' df0 Hg) as (d0 & -> & Hb0 & Hnin & Hf).
    apply not_elem_of_cons in Hnin as [Hne Hnin].
    exists d0. rewrite Hframe by done. done. }
  destruct Hnew as [->|(dfd & -> & Hfile)]; [by apply Hold|].
  destruct (decide (strftime d = k')) as [<-|Hk].
  - rewrite dict_get_set_eq in Hget'. injection Hget' as <-.
    exists d. done.
  - rewrite dict_get_set_ne in Hget' by done. by apply Hold.
Qed.

(** X15. When [fetch_date_range] returns, every entry of its dict is on
    the disk: the file at the canonical path of its day holds the lines
    of its table, also when a later day failed. *)
Theorem fetch_date_range_entries_on_disk
    gw self ticker start_date end_date w results w' :
  plain_name ticker →
  fetch_date_range gw self ticker start_date end_date w = (Return results, w') →
  ∀ k df, dict_get k results = Some df →
    ∃ d, k = strftime d
         ∧ fs_files (fs w') !! (canonical_path self ticker d) = Some (csv_lines df).
Proof.
  intros Hp Hrun k df Hget.
  destruct (connected w) eqn:Hc.
  2: { rewrite fetch_date_range_off in Hrun by done. injection Hrun as <- _. done. }
  destruct (parse_window start_date end_date) as [[s e]|x] eqn:Hw.
  2: { rewrite (fetch_date_range_unreadable _ _ _ _ _ _ _ Hc Hw) in Hrun. injection Hrun as <- _. done. }
  rewrite (fetch_date_range_on _ _ _ _ _ _ _ _ Hc Hw) in Hrun.
  destruct (fetch_days gw self ticker (date_range_B s e) [] w) as [[r|x] w1] eqn:Hdays.
  2: { destruct (is_Exception x); [|done]. injection Hrun as <- _. done. }
  injection Hrun as -> ->.
  apply parse_window_bounds in Hw as [Hs He].
  eapply (fetch_days_on_disk _ _ _ _ Hp _ _ _ _ Hdays); [apply date_range_B_NoDup| |done|done].
  intros d Hd. rewrite date_range_B_eq in Hd. apply weekdays_between_elem in Hd. lia.
Qed.

(** ** The manifest *)

Lemma load_tickers_missing self w :
  fs_files (fs w) !! tickers_file self = None →
  ∃ msg,
    load_tickers self w
    = (Return [],
       emit (Log ERROR ("Error loading tickers: " +:+ msg)) (emit (FsRead (tickers_file self)) w)).
Proof.
  intros Hnone. unfold load_tickers, read_csv, Fs.read. run. rewrite Hnone.
  destruct (is_dir (fs w) (tickers_file self)); eexists; reflexivity.
Qed.

(** X16. Without the file of tickers, [fetch_all] connects, fails to
    load, and returns the empty dict: it asks the gateway for nothing,
    writes nothing, and disconnects once. *)
Theorem fetch_all_without_manifest fetch gw self start_date end_date w w1 :
  connect gw (fetcher self) 7496 1 w = (Return true, w1) →
  fs_files (fs w) !! tickers_file self = None →
  ∃ w',
    fetch_all_with fetch gw self start_date end_date w = (Return [], w')
    ∧ fs w' = fs w
    ∧ connected w' = false
    ∧ count is_request w' = count is_request w
    ∧ count is_disconnect w' = S (count is_disconnect w).
Proof.
  intros Hc Hnone. unfold fetch_all_with. rewrite bind_run, Hc. cbn [negb].
  pose proof (connect_true _ _ _ _ _ _ Hc) as (Hon & Hev).
  assert (fs w1 = fs w) as Hfs.
  { pose proof (connect_flag gw (fetcher self) 7496 1 w) as _.
    revert Hc. unfold connect, ib_connect. run.
    destruct (gw_connect gw (events w) "127.0.0.1" 7496 1) as [x|].
    - cbn. by destruct (is_Exception x).
    - cbn. by intros [= <-]. }
  destruct (load_tickers_missing self w1) as (msg & Hl); [by rewrite Hfs|].
  unfold try_finally. rewrite bind_run, Hl. cbn [length process_tickers]. unfold ret.
  rewrite disconnect_on by done.
  eexists. split; [reflexivity|]. cbn [fs connected events emit].
  split; [done|]. split; [done|].
  unfold count. cbn [events]. rewrite Hev, !List.filter_app. cbn. rewrite !length_app. cbn.
  split; lia.
Qed.

(** ** The pauses of a fetch *)

Lemma fetch_days_pauses gw self ticker days :
  always_has_bars gw → close_time_valid self →
  ∀ r w,
    count (is_sleep 500) (fetch_days gw self ticker days r w).2
    = (count (is_sleep 500) w + length days)%nat.
Proof.
  intros Hgw (h & m & rest & Hend & Hh & Hm).
  induction days as [|d days IH]; intros r w; [cbn; lia|].
  rewrite fetch_days_cons.
  assert (∃ b bars, request_day gw self ticker d w
                    = (Return (b :: bars),
                       emit (IbReqHistoricalData
                               {| contract := Stock ticker "SMART" "USD";
                                  endDateTime := mk_Timestamp d h m (market_timezone self);
                                  durationStr := "1 D";
                                  barSizeSetting := "1 min";
                                  whatToShow := "TRADES";
                                  useRTH := true;
                                  formatDate := 1 |}) w)) as (b & bars & ->).
  { unfold request_day, tuple_item, replace_hour_minute, ib_reqHistoricalData. run.
    rewrite Hend. cbn [nth_error].
    assert ((0 <=? h) && (h <=? 23) = true) as -> by lia.
    assert ((0 <=? m) && (m <=? 59) = true) as -> by lia.
    cbn [negb].
    match goal with |- context [gw_reqHistoricalData gw ?hist ?req] =>
      destruct (Hgw hist req) as (b & bars & ->) end.
    by exists b, bars. }
  cbv zeta.
  match goal with |- context [_save_data self ?df ticker ?ds ?w0] =>
    destruct (save_data_returns self df ticker ds w0) as (o & w2 & Hs);
    pose proof (save_data_saves _ _ _ _ _ _ _ Hs) as Hext;
    rewrite Hs end.
  assert (count (is_sleep 500) w2 = count (is_sleep 500) w) as Hc.
  { rewrite (count_extends _ _ _ _ Hext); [|by intros []].
    rewrite count_emit. cbn. lia. }
  destruct o; rewrite IH, !count_emit; cbn; lia.
Qed.

(** X17. At a gateway that has bars for every request, a fetch pauses
    half a second once for each business day of the window, whether the
    day could be saved or not. *)
Theorem fetch_date_range_pauses_after_each_day
    gw self ticker start_date end_date s e w :
  connected w = true →
  parse_window start_date end_date = Return (s, e) →
  always_has_bars gw →
  close_time_valid self →
  ∃ results w',
    fetch_date_range gw self ticker start_date end_date w = (Return results, w')
    ∧ count (is_sleep 500) w'
      = (count (is_sleep 500) w + length (weekdays_between s e))%nat.
Proof.
  intros Hc Hw Hgw Hv.
  rewrite (fetch_date_range_on _ _ _ _ _ _ _ _ Hc Hw).
  assert (raises_only_Exception gw) as Hex.
  { intros hist req x Hx. destruct (Hgw hist req) as (? & ? & Hr). congruence. }
  destruct (fetch_days_returns gw self ticker (date_range_B s e) Hex [] w) as (r & w' & Hr).
  pose proof (fetch_days_pauses gw self ticker (date_range_B s e) Hgw Hv [] w) as Hp.
  rewrite Hr in *. cbn [snd] in Hp. exists r, w'. split; [done|].
  by rewrite Hp, date_range_B_eq.
Qed.

(** ** What escapes a fetch *)




(** ** The command lines *)

Lemma only_logged_2 e1 e2 w :
  is_log e1 → is_log e2 → only_logged w (emit e2 (emit e1 w)).
Proof.
  intros H1 H2. split; [done|]. split; [done|].
  exists [e1; e2]. cbn. rewrite <- app_assoc. split; [done|]. by repeat constructor.
Qed.

Lemma only_logged_1 e1 w : is_log e1 → only_logged w (emit e1 w).
Proof.
  intros H1. split; [done|]. split; [done|].
  exists [e1]. split; [done|]. by repeat constructor.
Qed.

(** X19. Without a start date, or with one that is not eight characters
    long, both programs exit with status 1 having done nothing but log:
    no fetcher is made, no directory, no connection. *)
Theorem mains_reject_bad_start_date settings gw argv w :
  no_start_date argv →
  (∃ w', IBKR.main settings gw argv w = (Raise (SystemExit 1), w') ∧ only_logged w w')
  ∧ (∃ w', Batch.main settings gw argv w = (Raise (SystemExit 1), w') ∧ only_logged w w').
Proof.
  intros Hbad. unfold IBKR.main, Batch.main, parse_dates, sys_exit, log. run.
  destruct (length argv <? 2)%nat eqn:Hlen; step.
  { split; eexists; (split; [reflexivity|]); by apply only_logged_2. }
  destruct Hbad as [Hlt|Hne]; [apply Nat.ltb_ge in Hlen; lia|].
  apply Nat.eqb_neq in Hne. rewrite Hne. step. cbn [negb is_Exception ValueError].
  split; eexists; (split; [reflexivity|]); by apply only_logged_1.
Qed.

(** ** The connection at the end of a run *)

Lemma try_finally_disconnect {A} (body : M A) self w :
  connected (try_finally body (disconnect self) w).2 = false.
Proof.
  unfold try_finally. destruct (body w) as [r w1].
  destruct (connected w1) eqn:Hc.
  - by rewrite (disconnect_on _ _ Hc).
  - by rewrite (disconnect_off _ _ Hc).
Qed.

Lemma init_unconnected settings dir w :
  connected (IBKRFetcher_init settings dir w).2 = false.
Proof.
  unfold IBKRFetcher_init, set_connected, log, emit. run. rewrite mkdir_parents_run.
  cbn [fs connected events].
  destruct (makedirs [] _ (fs w)); step; [|done]. unfold lift.
  destruct (map_int (split ":" (mh_start (MARKET_HOURS settings)))); step; [|done].
  by destruct (map_int (split ":" (mh_end (MARKET_HOURS settings)))).
Qed.

Lemma run_fetch_unconnected settings gw ticker start end_date w :
  connected (run_fetch settings gw ticker start end_date w).2 = false.
Proof.
  unfold run_fetch. unfold bind at 1.
  pose proof (init_unconnected settings None w) as Hi.
  destruct (IBKRFetcher_init settings None w) as [[f|x] w1]; [|done]. cbn [snd] in Hi.
  unfold bind at 1. pose proof (connect_flag gw f 7496 1 w1) as Hc.
  destruct (connect gw f 7496 1 w1) as [[ok|x] w2].
  - destruct ok; cbn [negb].
    + apply try_finally_disconnect.
    + destruct Hc as [[[=] _]|[_ Hc]]. cbn. congruence.
  - destruct Hc as [[[=] _]|[_ Hc]]. cbn. congruence.
Qed.

Lemma log_tickers_connected items : ∀ total w,
  connected (log_tickers items total w).2 = connected w.
Proof.
  induction items as [|[t data] items IH]; intros total w; [done|].
  cbn [log_tickers]. destruct (dict_truthy data); [|apply IH].
  unfold bind, log. by rewrite IH.
Qed.

Lemma fetch_all_with_unconnected fetch gw self start_date end_date w :
  connected w = false →
  connected (fetch_all_with fetch gw self start_date end_date w).2 = false.
Proof.
  intros Hw. unfold fetch_all_with. unfold bind at 1.
  pose proof (connect_flag gw (fetcher self) 7496 1 w) as Hc.
  destruct (connect gw (fetcher self) 7496 1 w) as [[ok|x] w2].
  - destruct ok; cbn [negb].
    + apply try_finally_disconnect.
    + destruct Hc as [[[=] _]|[_ Hc]]. cbn. congruence.
  - destruct Hc as [[[=] _]|[_ Hc]]. cbn. congruence.
Qed.

(** X20. However a run of either program ends, by return, by
    [sys.exit] or by an interrupt, the fetcher is not connected at the
    end. *)
Theorem mains_never_end_connected settings gw argv w :
  connected w = false →
  connected (IBKR.main settings gw argv w).2 = false
  ∧ connected (Batch.main settings gw argv w).2 = false.
Proof.
  intros Hw. split.
  - unfold IBKR.main, try_except. unfold bind at 1.
    assert (connected (parse_dates argv w).2 = false) as Hp.
    { unfold parse_dates, sys_exit, log, raise, ret. run.
      destruct (length argv <? 2)%nat; [done|].
      destruct (negb _); [done|]. destruct (_ && _); [|done]. by destruct (negb _). }
    destruct (parse_dates argv w) as [[dates|x] w1]; cbn [snd] in Hp.
    + pose proof (run_fetch_unconnected settings gw (select_ticker argv) dates.1 dates.2 w1)
        as Hr.
      destruct (run_fetch _ _ _ _ _ w1) as [[u|x] w2]; [done|].
      cbn [snd] in Hr. by destruct (is_Exception x).
    + by destruct (is_Exception x).
  - unfold Batch.main, try_except, sys_exit, raise, log. 
    destruct (length argv <? 2)%nat; [by run|].
    destruct (negb (String.length (nth 1 argv "") =? 8)%nat); [by run|].
    unfold bind at 1.
    set (m := if (2 <? length argv)%nat then _ else _).
    assert (connected (m w).2 = false) as Hm.
    { subst m. destruct (2 <? length argv)%nat; [|done]. by destruct (negb _). }
    destruct (m w) as [[end_date|x] w1]; cbn [snd] in Hm.
    2: { by destruct (is_Exception x). }
    unfold bind at 1. unfold bind at 1. unfold BatchFetcher_init. unfold bind at 1.
    pose proof (init_unconnected settings None
                  (emit (Log INFO ("Starting batch fetch from " +:+ nth 1 argv "" +:+ " to "
                                   +:+ end_date)) w1)) as Hi.
    destruct (IBKRFetcher_init settings None _) as [[f|x] w2]; cbn [snd] in Hi.
    2: { by destruct (is_Exception x). }
    unfold ret. unfold bind at 1.
    pose proof (fetch_all_with_unconnected (fetch_date_range gw) gw
                  (mk_BatchFetcher
                     (PROJECT_ROOT settings </> "data" </> "beta_stock" </> "stock_tickers.csv") f)
                  (nth 1 argv "") end_date w2 Hi) as Hf.
    unfold fetch_all.
    destruct (fetch_all_with _ _ _ _ _ w2) as [[results|x] w3]; cbn [snd] in Hf.
    2: { by destruct (is_Exception x). }
    run. unfold emit at 1 2 3. cbn [fs connected events].
    match goal with |- context [log_tickers results 0%nat ?w0] =>
      pose proof (log_tickers_connected results 0%nat w0) as Hl;
      destruct (log_tickers results 0%nat w0) as [[n|x] w4] end.
    + cbn in *. congruence.
    + cbn in *. destruct (is_Exception x); cbn; congruence.
Qed.

(** ** A refused connection *)

Lemma fetcher_init_default_run root w :
  let s := default_settings root in
  IBKRFetcher_init s None w =
    let evs := events w ++ [Log INFO ("Data will be saved to: " +:+ str (RAW_DATA_DIR s));
                            FsMkdir (RAW_DATA_DIR s)] in
    match makedirs [] (RAW_DATA_DIR s) (fs w) with
    | Return fs1 =>
        (Return (mk_IBKRFetcher (RAW_DATA_DIR s) [9; 30] [16; 0] "America/New_York"),
         mk_World false fs1 evs)
    | Raise x => (Raise x, mk_World false (fs w) evs)
    end.
Proof.
  intros s. unfold IBKRFetcher_init, set_connected, log, emit. run.
  rewrite mkdir_parents_run. cbn [fs connected events].
  destruct (makedirs [] (RAW_DATA_DIR s) (fs w));
    unfold emit; cbn [fs connected events]; rewrite <- ?app_assoc; reflexivity.
Qed.

Lemma connect_refused gw self port client_id w :
  always_refuses gw →
  ∃ e, connect gw self port client_id w
       = (Return false,
          emit (Log ERROR ("Failed to connect to IBKR: " +:+ exn_str e))
            (emit (IbConnect "127.0.0.1" port client_id) w)).
Proof.
  intros Hgw. destruct (Hgw (events w) "127.0.0.1" port client_id) as (e & He & Hx).
  exists e. by apply connect_raised.
Qed.

(** X21. When the gateway refuses the connection, [ibkr_fetcher] exits
    with status 1, while [batch_fetcher] returns normally after a summary
    of zero tickers and zero records; neither disconnects. *)
Theorem refused_connection_exit_codes root gw prog d w fs1 :
  always_refuses gw →
  String.length d = 8%nat →
  makedirs [] (RAW_DATA_DIR (default_settings root)) (fs w) = Return fs1 →
  (∃ w', IBKR.main (default_settings root) gw [prog; d] w = (Raise (SystemExit 1), w')
         ∧ fs w' = fs1 ∧ count is_disconnect w' = count is_disconnect w)
  ∧ (∃ w', Batch.main (default_settings root) gw [prog; d] w = (Return tt, w')
           ∧ fs w' = fs1 ∧ count is_disconnect w' = count is_disconnect w
           ∧ last (events w') = Some (Log INFO "Total records fetched: 0")).
Proof.
  intros Hgw Hlen Hm. split.
  - unfold IBKR.main, try_except. rewrite bind_run.
    unfold parse_dates. cbn [length nth Nat.ltb Nat.leb andb]. rewrite Hlen. cbn [Nat.eqb negb].
    unfold ret. cbn [fst snd]. unfold run_fetch. rewrite bind_run.
    rewrite fetcher_init_default_run. cbv zeta. rewrite Hm. rewrite bind_run.
    destruct (connect_refused gw
                (mk_IBKRFetcher (RAW_DATA_DIR (default_settings root)) [9; 30] [16; 0]
                   "America/New_York") 7496 1
                (mk_World false fs1
                   (events w ++ [Log INFO ("Data will be saved to: " +:+
                                           str (RAW_DATA_DIR (default_settings root)));
                                 FsMkdir (RAW_DATA_DIR (default_settings root))])) Hgw)
      as (e & ->).
    cbn [negb]. unfold sys_exit, raise. cbn [is_Exception SystemExit].
    eexists. split; [reflexivity|]. split; [done|].
    unfold count, emit. cbn [events]. rewrite !List.filter_app. cbn. rewrite !length_app. cbn. lia.
  - unfold Batch.main, try_except. cbn [length nth Nat.ltb Nat.leb]. rewrite Hlen.
    cbn [Nat.eqb negb]. rewrite bind_run. unfold ret at 1. rewrite bind_run. unfold log at 1.
    rewrite bind_run. unfold BatchFetcher_init. rewrite bind_run.
    rewrite fetcher_init_default_run. cbv zeta. cbn [fs events emit]. rewrite Hm.
    unfold ret at 1. unfold fetch_all, fetch_all_with. rewrite !bind_run. cbn [fetcher].
    match goal with |- context [connect gw ?f 7496 1 ?w0] =>
      destruct (connect_refused gw f 7496 1 w0 Hgw) as (e & ->) end.
    cbn [negb]. run. unfold emit. cbn [fs connected events log_tickers filter length dict_truthy].
    unfold ret. eexists. split; [reflexivity|]. cbn [fs events].
    split; [done|]. split.
    + unfold count. cbn [events]. rewrite !List.filter_app. cbn. rewrite !length_app. cbn. lia.
    + by rewrite !last_snoc.
Qed.

(** ** [Settings.get] *)

Lemma get_loop_default keys default :
  is_dict default = false → get_loop default keys default = default.
Proof. intros H. destruct keys; [done|]. cbn. by destruct default. Qed.

(** X22. With a default that is no dict, [Settings.get] returns the
    value at the end of the path of keys if every key of the path is
    there, and the default otherwise, also when the path leads through a
    value that is no dict. *)
Theorem settings_get_is_path_lookup self keys default :
  is_dict default = false →
  Attrs.get self keys default =
    match lookup_path (VDict (attributes self)) keys with
    | Some v => v
    | None => default
    end.
Proof.
  intros Hd. unfold Attrs.get. generalize (VDict (attributes self)).
  induction keys as [|key keys IH]; intros current; [done|].
  cbn. destruct current as [| | | | |items]; try done.
  destruct (dict_get key items) as [v|]; [by apply IH|].
  by apply get_loop_default.
Qed.

(** X23. After a first key that is no attribute, [Settings.get] goes on
    with the default: the remaining keys are looked up in the default
    itself. *)
Theorem settings_get_missing_key_indexes_default self key keys default :
  key ∉ dict_keys (attributes self) →
  Attrs.get self (key :: keys) default = get_loop default keys default.
Proof.
  intros Hk. unfold Attrs.get. cbn [get_loop].
  assert (dict_get key (attributes self) = None) as ->; [|done].
  revert Hk. generalize (attributes self). intros items.
  induction items as [|[k v] items IH]; cbn; [done|].
  intros Hk. apply not_elem_of_cons in Hk as [Hne Hk].
  destruct (String.eqb_spec key k); [done | by apply IH].
Qed.

(** ** Loggers *)

Lemma open_append_Exception file fs0 e :
  open_append file fs0 = Raise e → is_Exception e = true.
Proof.
  unfold open_append.
  destruct (is_dir fs0 file); [by intros [= <-]|].
  destruct (is_dir fs0 (parent file)).
  - by destruct (fs_files fs0 !! file).
  - intros [= <-]. apply no_parent_Exception.
Qed.

(** The three ways a call of [setup_logger] can go. *)
Lemma setup_logger_cases name log_file level log_format st r st' :
  setup_logger name log_file level log_format st = (r, st') →
  ∃ lg,
    loggers st' = <[name := lg]> (loggers st)
    ∧ lg_level lg = level
    ∧ ((lg_handlers (getLogger name st) ≠ []
        ∧ lg_handlers lg = lg_handlers (getLogger name st)
        ∧ log_fs st' = log_fs st ∧ r = Return lg)
       ∨ (lg_handlers (getLogger name st) = []
          ∧ lg_handlers lg = [StreamHandler "stdout" log_format]
          ∧ ((log_file = None ∧ r = Return lg ∧ log_fs st' = log_fs st)
             ∨ (∃ e, r = Raise e ∧ is_Exception e = true ∧ log_file ≠ None)))
       ∨ (lg_handlers (getLogger name st) = []
          ∧ ∃ file, log_file = Some file
                    ∧ lg_handlers lg = [StreamHandler "stdout" log_format;
                                        FileHandler file "utf-8" log_format]
                    ∧ r = Return lg)).
Proof.
  unfold setup_logger, store. cbn [lg_handlers log_fs loggers].
  destruct (lg_handlers (getLogger name st)) as [|h hs] eqn:Hh.
  - destruct log_file as [file|].
    + destruct (makedirs [] (parent file) (log_fs st)) as [fs1|e] eqn:Hm.
      * destruct (open_append file fs1) as [fs2|e] eqn:Ho; intros [= <- <-];
          cbn [loggers log_fs]; rewrite ?insert_insert_eq.
        -- eexists. split; [done|]. split; [done|]. right. right.
           split; [done|]. by exists file.
        -- eexists. split; [done|]. split; [done|]. right. left.
           split; [done|]. split; [done|]. right. exists e.
           split; [done|]. split; [by eapply open_append_Exception | done].
      * intros [= <- <-]. cbn [loggers log_fs]. rewrite insert_insert_eq.
        eexists. split; [done|]. split; [done|]. right. left.
        split; [done|]. split; [done|]. right. exists e.
        split; [done|]. split; [by eapply makedirs_Exception | done].
    + intros [= <- <-]. cbn [loggers log_fs]. rewrite insert_insert_eq.
      eexists. split; [done|]. split; [done|]. right. left.
      split; [done|]. split; [done|]. by left.
  - intros [= <- <-]. cbn [store loggers log_fs].
    eexists. split; [done|]. split; [done|]. left. done.
Qed.

(** A logger that has a handler is returned as it is, at the new level. *)
Lemma setup_logger_ready name log_file level log_format st lg :
  loggers st !! name = Some lg →
  lg_handlers lg ≠ [] →
  setup_logger name log_file level log_format st
  = (Return (mk_Logger level (lg_handlers lg)),
     mk_LogWorld (<[name := mk_Logger level (lg_handlers lg)]> (loggers st)) (log_fs st)).
Proof.
  intros Hlg Hne. unfold setup_logger, getLogger. rewrite Hlg. cbn [lg_handlers].
  by destruct (lg_handlers lg).
Qed.

(** X24. After a call of [setup_logger] for a name, however it ended,
    the logger of that name has a handler, and every further call
    returns it with the handlers it has: only the level is set, and the
    disk is not touched. *)
Theorem setup_logger_again_adds_no_handler
    name log_file level log_format st r st1 log_file' level' log_format' :
  setup_logger name log_file level log_format st = (r, st1) →
  ∃ lg,
    loggers st1 !! name = Some lg
    ∧ lg_handlers lg ≠ []
    ∧ setup_logger name log_file' level' log_format' st1
      = (Return (mk_Logger level' (lg_handlers lg)),
         mk_LogWorld (<[name := mk_Logger level' (lg_handlers lg)]> (loggers st1))
           (log_fs st1)).
Proof.
  intros Hrun.
  apply setup_logger_cases in Hrun as (lg & Hst & _ & Hcase).
  assert (loggers st1 !! name = Some lg) as Hlg by (rewrite Hst; apply lookup_insert_eq).
  assert (lg_handlers lg ≠ []) as Hne.
  { destruct Hcase as [(Hold & -> & _)|[(_ & -> & _)|(_ & file & _ & -> & _)]]; done. }
  exists lg. split; [done|]. split; [done|].
  by apply setup_logger_ready.
Qed.

(** X25. If the first [setup_logger] for a name raises, for its log file
    cannot be made, it is an [Exception], and the logger keeps the
    console handler: every later call, with whatever log file, returns a
    logger that logs to the console only. *)
Theorem setup_logger_failure_loses_file_handler
    name file level log_format st e st1 :
  loggers st !! name = None →
  setup_logger name (Some file) level log_format st = (Raise e, st1) →
  is_Exception e = true
  ∧ loggers st1 !! name = Some (mk_Logger level [StreamHandler "stdout" log_format])
  ∧ ∀ file' level' log_format',
      setup_logger name (Some file') level' log_format' st1
      = (Return (mk_Logger level' [StreamHandler "stdout" log_format]),
         mk_LogWorld
           (<[name := mk_Logger level' [StreamHandler "stdout" log_format]]> (loggers st1))
           (log_fs st1)).
Proof.
  intros Hnew Hrun.
  apply setup_logger_cases in Hrun as (lg & Hst & Hlevel & Hcase).
  assert (loggers st1 !! name = Some lg) as Hlg by (rewrite Hst; apply lookup_insert_eq).
  destruct Hcase as [(Hold & _)|[(_ & Hh & [(_ & [=] & _)|(x & [= <-] & Hx & _)])
                                |(_ & file0 & _ & _ & [=])]].
  { unfold getLogger in Hold. by rewrite Hnew in Hold. }
  destruct lg as [l hs]. cbn in Hlevel, Hh. subst l hs.
  split; [done|]. split; [done|].
  intros file' level' fmt'. by rewrite (setup_logger_ready _ _ _ _ _ _ Hlg).
Qed.

(** Whatever calls were made, every logger has no handler yet or is set
    up. *)
Lemma setup_all_set_up calls : ∀ st,
  (∀ name lg, loggers st !! name = Some lg → Logging.set_up lg) →
  ∀ name lg, loggers (setup_all calls st) !! name = Some lg → Logging.set_up lg.
Proof.
  induction calls as [|[[[n f] l] fmt] calls IH]; intros st Hinv; [done|].
  cbn [setup_all]. apply IH. intros name lg Hlg.
  destruct (setup_logger n f l fmt st) as [r st1] eqn:Hcall. cbn [snd] in Hlg.
  apply setup_logger_cases in Hcall as (lg1 & Hst & _ & Hcase).
  rewrite Hst in Hlg.
  destruct (decide (name = n)) as [->|Hne].
  2: { rewrite lookup_insert_ne in Hlg by done. by eapply Hinv. }
  rewrite lookup_insert_eq in Hlg. injection Hlg as <-.
  destruct Hcase as [(Hold & Hsame & _)|[(_ & Hh & _)|(_ & file & _ & Hh & _)]].
  - unfold getLogger in Hold, Hsame.
    destruct (loggers st !! n) as [lg0|] eqn:H0; [|done].
    destruct (Hinv n lg0 H0) as (fmt0 & Hs).
    exists fmt0. by rewrite Hsame.
  - exists fmt. by left.
  - exists fmt. right. by exists file.
Qed.

(** X26. From a process without loggers, after any calls of
    [setup_logger] every logger has one console handler and after it at
    most one file handler, both with the same format. *)
Theorem setup_logger_never_duplicates_handlers calls fs0 name lg :
  loggers (setup_all calls (mk_LogWorld ∅ fs0)) !! name = Some lg →
  Logging.set_up lg.
Proof.
  apply setup_all_set_up. intros n l. cbn. by rewrite lookup_empty.
Qed.

(** X27. [get_logger] without file logging returns the logger, at level
    [INFO], and leaves the disk as it is. *)
Theorem get_logger_without_file settings today name st r st' :
  get_logger settings today name false st = (r, st') →
  log_fs st' = log_fs st
  ∧ ∃ lg, r = Return lg ∧ loggers st' !! name = Some lg ∧ lg_level lg = INFO_level.
Proof.
  unfold get_logger. intros Hrun.
  apply setup_logger_cases in Hrun as (lg & Hst & Hlevel & Hcase).
  assert (loggers st' !! name = Some lg) as Hlg by (rewrite Hst; apply lookup_insert_eq).
  destruct Hcase as [(_ & _ & Hfs & ->)
                    |[(_ & _ & [(_ & -> & Hfs)|(x & _ & _ & Hne)])|(_ & file & [=] & _)]];
    [by eauto|by eauto|done].
Qed.

(** ** The properties at the small installation *)

Lemma wednesday_window : parse_window "2024-01-03" None = Return (wednesday, wednesday).
Proof. vm_compute. reflexivity. Qed.

Lemma fetcher0_close_time : close_time_valid fetcher0.
Proof. exists 16, 0, []. split; [reflexivity | lia]. Qed.

Lemma wednesday_run_returned :
  wednesday_run = (Return (Py.value [] wednesday_run.1), wednesday_run.2).
Proof. vm_compute. reflexivity. Qed.

Lemma steady_always_has_bars : always_has_bars steady.
Proof. intros history req. eexists _, _. reflexivity. Qed.

Lemma plain_AAA : plain_name "AAA".
Proof.
  unfold plain_name. cbn. rewrite !not_elem_of_cons.
  split; [discriminate|]. split; [discriminate|]. split; [discriminate|].
  apply not_elem_of_nil.
Qed.

Lemma steady_connects w :
  connect steady fetcher0 7496 1 w
  = (Return true, (connect steady fetcher0 7496 1 w).2).
Proof. reflexivity. Qed.

Lemma fetch_date_range_requests_every_business_day_witness :
  connected online = true
  ∧ parse_window "2024-01-03" None = Return (wednesday, wednesday)
  ∧ raises_only_Exception steady
  ∧ close_time_valid fetcher0
  ∧ requested_days (events (fetch_date_range steady fetcher0 "AAA" "2024-01-03" None online).2)
    = requested_days (events online) ++ weekdays_between wednesday wednesday.
Proof.
  split; [reflexivity|]. split; [exact wednesday_window|].
  split; [exact steady_raises_only_Exception|]. split; [exact fetcher0_close_time|].
  exact (fetch_date_range_requests_every_business_day steady fetcher0 "AAA" "2024-01-03" None
           wednesday wednesday online eq_refl wednesday_window
           steady_raises_only_Exception fetcher0_close_time).
Defined.

Lemma fetch_all_covers_manifest_witness :
  raises_only_Exception steady
  ∧ connect steady (fetcher batch0) 7496 1 offline
    = (Return true, (connect steady fetcher0 7496 1 offline).2)
  ∧ ∃ (tickers : list string) results w',
      fetch_all steady batch0 "20240103" "20240103" offline = (Return results, w')
      ∧ (∀ t, t ∈ dict_keys results ↔ t ∈ tickers)
      ∧ count is_disconnect w' = S (count is_disconnect offline).
Proof.
  split; [exact steady_raises_only_Exception|]. split; [exact (steady_connects offline)|].
  destruct (fetch_all_covers_manifest steady batch0 "20240103" "20240103" offline _
              steady_raises_only_Exception (steady_connects offline))
    as (tickers & w2 & results & w' & _ & Hrun & Hkeys & _ & Hd).
  exists tickers, results, w'. split; [exact Hrun|]. split; [exact Hkeys | exact Hd].
Defined.

Lemma settings_init_makes_data_directories_witness :
  Settings_init ["srv"; "tradelab"] fresh
  = (Return settings, (Settings_init ["srv"; "tradelab"] fresh).2)
  ∧ is_dir (fs (Settings_init ["srv"; "tradelab"] fresh).2) (RAW_DATA_DIR settings) = true
  ∧ is_dir (fs (Settings_init ["srv"; "tradelab"] fresh).2) (PROCESSED_DATA_DIR settings)
    = true.
Proof.
  assert (Settings_init ["srv"; "tradelab"] fresh
          = (Return settings, (Settings_init ["srv"; "tradelab"] fresh).2)) as H
    by (vm_compute; reflexivity).
  split; [exact H|].
  destruct (settings_init_makes_data_directories _ _ _ _ H) as (_ & Hraw & Hproc & _).
  split; [exact Hraw | exact Hproc].
Defined.

Lemma fetcher_init_outcome_witness :
  connected (IBKRFetcher_init settings None online).2 = false
  ∧ fs_files (fs (IBKRFetcher_init settings None online).2) = fs_files (fs online).
Proof.
  destruct (fetcher_init_outcome settings None online
              (IBKRFetcher_init settings None online).1
              (IBKRFetcher_init settings None online).2) as (Hc & Hf & _).
  - by destruct (IBKRFetcher_init settings None online).
  - split; [exact Hc | exact Hf].
Defined.

Lemma fetcher_init_default_hours_witness :
  IBKRFetcher_init (default_settings ["srv"; "tradelab"]) None fresh
  = (Return fetcher0, (IBKRFetcher_init (default_settings ["srv"; "tradelab"]) None fresh).2)
  ∧ market_end fetcher0 = [16; 0]
  ∧ close_time_valid fetcher0.
Proof.
  assert (IBKRFetcher_init (default_settings ["srv"; "tradelab"]) None fresh
          = (Return fetcher0,
             (IBKRFetcher_init (default_settings ["srv"; "tradelab"]) None fresh).2)) as H
    by (vm_compute; reflexivity).
  split; [exact H|].
  destruct (fetcher_init_default_hours _ _ _ _ _ H) as (_ & He & Hv).
  split; [exact He | exact Hv].
Defined.


Lemma fetch_date_range_no_business_day_witness :
  connected online = true
  ∧ parse_window "2024-01-06" (Some "2024-01-07") = Return (738891, 738892)
  ∧ (∀ d, 738891 <= d <= 738892 → 5 <= weekday d)
  ∧ fetch_date_range steady fetcher0 "AAA" "2024-01-06" (Some "2024-01-07") online
    = (Return [], online).
Proof.
  assert (parse_window "2024-01-06" (Some "2024-01-07") = Return (738891, 738892)) as H
    by (vm_compute; reflexivity).
  assert (∀ d, 738891 <= d <= 738892 → 5 <= weekday d) as Hweekend.
  { intros d Hd. assert (d = 738891 ∨ d = 738892) as [->| ->] by lia; by vm_compute. }
  split; [reflexivity|]. split; [exact H|]. split; [exact Hweekend|].
  exact (fetch_date_range_no_business_day steady fetcher0 "AAA" "2024-01-06"
           (Some "2024-01-07") 738891 738892 online eq_refl H Hweekend).
Defined.

Lemma one_date_is_one_day_witness :
  startswith "--" "20240103" = false
  ∧ IBKR.main settings steady ["ibkr_fetcher.py"; "20240103"] offline
    = IBKR.main settings steady ["ibkr_fetcher.py"; "20240103"; "20240103"] offline.
Proof.
  split; [reflexivity|].
  apply (one_date_is_one_day settings steady "ibkr_fetcher.py" "20240103" offline).
  reflexivity.
Defined.

Lemma fetch_date_range_keys_in_calendar_order_witness :
  fetch_date_range steady fetcher0 "AAA" "2024-01-03" None online
  = (Return (Py.value [] wednesday_run.1), wednesday_run.2)
  ∧ parse_window "2024-01-03" None = Return (wednesday, wednesday)
  ∧ dict_keys (Py.value [] wednesday_run.1)
      `sublist_of` (strftime <$> weekdays_between wednesday wednesday)
  ∧ NoDup (dict_keys (Py.value [] wednesday_run.1)).
Proof.
  split; [exact wednesday_run_returned|]. split; [exact wednesday_window|].
  exact (fetch_date_range_keys_in_calendar_order steady fetcher0 "AAA" "2024-01-03" None
           wednesday wednesday online _ _ wednesday_run_returned wednesday_window).
Defined.

Lemma fetch_date_range_batches_have_rows_witness :
  fetch_date_range steady fetcher0 "AAA" "2024-01-03" None online
  = (Return (Py.value [] wednesday_run.1), wednesday_run.2)
  ∧ ∀ k df, dict_get k (Py.value [] wednesday_run.1) = Some df → (0 < df_len df)%nat.
Proof.
  split; [exact wednesday_run_returned|]. intros k df Hget.
  apply (fetch_date_range_batches_have_rows steady fetcher0 "AAA" "2024-01-03" None online
           _ _ wednesday_run_returned k df Hget).
Defined.

Lemma distinct_days_have_distinct_files_witness :
  plain_name "AAA"
  ∧ wednesday ≠ wednesday + 1
  ∧ canonical_path fetcher0 "AAA" wednesday ≠ canonical_path fetcher0 "AAA" (wednesday + 1).
Proof.
  split; [exact plain_AAA|]. split; [discriminate|].
  apply (distinct_days_have_distinct_files fetcher0 "AAA" wednesday (wednesday + 1) plain_AAA).
  - by vm_compute.
  - by vm_compute.
  - discriminate.
Defined.

Lemma fetch_date_range_entries_on_disk_witness :
  plain_name "AAA"
  ∧ fetch_date_range steady fetcher0 "AAA" "2024-01-03" None online
    = (Return (Py.value [] wednesday_run.1), wednesday_run.2)
  ∧ ∀ k df, dict_get k (Py.value [] wednesday_run.1) = Some df →
      ∃ d, k = strftime d
           ∧ fs_files (fs wednesday_run.2) !! canonical_path fetcher0 "AAA" d
             = Some (csv_lines df).
Proof.
  split; [exact plain_AAA|]. split; [exact wednesday_run_returned|].
  exact (fetch_date_range_entries_on_disk steady fetcher0 "AAA" "2024-01-03" None online
           _ _ plain_AAA wednesday_run_returned).
Defined.

Lemma fetch_all_without_manifest_witness :
  connect steady (fetcher batch0) 7496 1 fresh
  = (Return true, (connect steady fetcher0 7496 1 fresh).2)
  ∧ fs_files (fs fresh) !! tickers_file batch0 = None
  ∧ ∃ w',
      fetch_all steady batch0 "20240103" "20240103" fresh = (Return [], w')
      ∧ count is_request w' = count is_request fresh
      ∧ count is_disconnect w' = S (count is_disconnect fresh).
Proof.
  split; [exact (steady_connects fresh)|]. split; [reflexivity|].
  destruct (fetch_all_without_manifest (fetch_date_range steady) steady batch0
              "20240103" "20240103" fresh _ (steady_connects fresh) eq_refl)
    as (w' & Hrun & _ & _ & Hreq & Hd).
  exists w'. split; [exact Hrun|]. split; [exact Hreq | exact Hd].
Defined.

Lemma fetch_date_range_pauses_after_each_day_witness :
  connected online = true
  ∧ parse_window "2024-01-03" None = Return (wednesday, wednesday)
  ∧ always_has_bars steady
  ∧ close_time_valid fetcher0
  ∧ ∃ results w',
      fetch_date_range steady fetcher0 "AAA" "2024-01-03" None online = (Return results, w')
      ∧ count (is_sleep 500) w'
        = (count (is_sleep 500) online + length (weekdays_between wednesday wednesday))%nat.
Proof.
  split; [reflexivity|]. split; [exact wednesday_window|].
  split; [exact steady_always_has_bars|]. split; [exact fetcher0_close_time|].
  exact (fetch_date_range_pauses_after_each_day steady fetcher0 "AAA" "2024-01-03" None
           wednesday wednesday online eq_refl wednesday_window steady_always_has_bars
           fetcher0_close_time).
Defined.


Lemma mains_reject_bad_start_date_witness :
  no_start_date ["ibkr_fetcher.py"]
  ∧ (∃ w', IBKR.main settings steady ["ibkr_fetcher.py"] offline = (Raise (SystemExit 1), w')
           ∧ only_logged offline w').
Proof.
  assert (no_start_date ["ibkr_fetcher.py"]) as H by (left; cbn; lia).
  split; [exact H|].
  exact (proj1 (mains_reject_bad_start_date settings steady ["ibkr_fetcher.py"] offline H)).
Defined.

Lemma mains_never_end_connected_witness :
  connected offline = false
  ∧ connected (IBKR.main settings interrupted ["ibkr_fetcher.py"; "20240103"] offline).2
    = false
  ∧ connected (Batch.main settings interrupted ["batch_fetcher.py"; "20240103"] offline).2
    = false.
Proof.
  split; [reflexivity|].
  split.
  - exact (proj1 (mains_never_end_connected settings interrupted
                    ["ibkr_fetcher.py"; "20240103"] offline eq_refl)).
  - exact (proj2 (mains_never_end_connected settings interrupted
                    ["batch_fetcher.py"; "20240103"] offline eq_refl)).
Defined.

Lemma refusing_always_refuses : always_refuses refusing.
Proof. intros history host port client_id. eexists. split; reflexivity. Qed.

Lemma refused_connection_exit_codes_witness :
  always_refuses refusing
  ∧ String.length "20240103" = 8%nat
  ∧ makedirs [] (RAW_DATA_DIR (default_settings ["srv"; "tradelab"])) (fs offline)
    = Return disk
  ∧ (IBKR.main (default_settings ["srv"; "tradelab"]) refusing
       ["ibkr_fetcher.py"; "20240103"] offline).1 = Raise (SystemExit 1)
  ∧ (Batch.main (default_settings ["srv"; "tradelab"]) refusing
       ["batch_fetcher.py"; "20240103"] offline).1 = Return tt.
Proof.
  assert (makedirs [] (RAW_DATA_DIR (default_settings ["srv"; "tradelab"])) (fs offline)
          = Return disk) as H by (vm_compute; reflexivity).
  split; [exact refusing_always_refuses|]. split; [reflexivity|]. split; [exact H|].
  split.
  - destruct (proj1 (refused_connection_exit_codes ["srv"; "tradelab"] refusing
                       "ibkr_fetcher.py" "20240103" offline disk refusing_always_refuses
                       eq_refl H)) as (w' & -> & _).
    reflexivity.
  - destruct (proj2 (refused_connection_exit_codes ["srv"; "tradelab"] refusing
                       "batch_fetcher.py" "20240103" offline disk refusing_always_refuses
                       eq_refl H)) as (w' & -> & _).
    reflexivity.
Defined.

Lemma settings_get_is_path_lookup_witness :
  is_dict VNone = false
  ∧ Attrs.get settings ["MARKET_HOURS"; "start"] VNone = VStr "09:30"
  ∧ Attrs.get settings ["MARKET_HOURS"; "start"; "hour"] VNone = VNone.
Proof.
  split; [reflexivity|]. split.
  - rewrite (settings_get_is_path_lookup settings ["MARKET_HOURS"; "start"] VNone eq_refl).
    reflexivity.
  - rewrite (settings_get_is_path_lookup settings ["MARKET_HOURS"; "start"; "hour"] VNone
               eq_refl).
    reflexivity.
Defined.

Lemma settings_get_missing_key_indexes_default_witness :
  ("LOG_DIR" ∉ dict_keys (attributes settings))
  ∧ Attrs.get settings ["LOG_DIR"; "path"] (VDict [("path", VStr "/tmp")]) = VStr "/tmp".
Proof.
  assert ("LOG_DIR" ∉ dict_keys (attributes settings)) as H.
  { cbn. rewrite !not_elem_of_cons. repeat (split; [discriminate|]). apply not_elem_of_nil. }
  split; [exact H|].
  rewrite (settings_get_missing_key_indexes_default settings "LOG_DIR" ["path"]
             (VDict [("path", VStr "/tmp")]) H).
  reflexivity.
Defined.

Lemma setup_logger_again_adds_no_handler_witness :
  ∃ lg,
    loggers (setup_logger "tradelab" None INFO_level default_format
               (mk_LogWorld ∅ (mk_FS ∅ ∅))).2 !! "tradelab" = Some lg
    ∧ lg_handlers lg ≠ [].
Proof.
  destruct (setup_logger_again_adds_no_handler "tradelab" None INFO_level default_format
              (mk_LogWorld ∅ (mk_FS ∅ ∅))
              (setup_logger "tradelab" None INFO_level default_format
                 (mk_LogWorld ∅ (mk_FS ∅ ∅))).1
              (setup_logger "tradelab" None INFO_level default_format
                 (mk_LogWorld ∅ (mk_FS ∅ ∅))).2
              None 10 default_format) as (lg & Hlg & Hne & _).
  - reflexivity.
  - exists lg. split; [exact Hlg | exact Hne].
Defined.

Lemma setup_logger_failure_loses_file_handler_witness :
  let file := ["srv"; "tradelab"; "logs"; "20240103_ibkr_fetcher.log"] in
  let st := mk_LogWorld ∅ blocked_disk in
  let e := OSError "FileExistsError" "[Errno 17] File exists: '/srv/tradelab/logs'" in
  loggers st !! "tradelab" = None
  ∧ (setup_logger "tradelab" (Some file) INFO_level default_format st).1 = Raise e
  ∧ loggers (setup_logger "tradelab" (Some file) INFO_level default_format st).2 !! "tradelab"
    = Some (mk_Logger INFO_level [StreamHandler "stdout" default_format]).
Proof.
  cbv zeta.
  assert (setup_logger "tradelab"
            (Some ["srv"; "tradelab"; "logs"; "20240103_ibkr_fetcher.log"]) INFO_level
            default_format (mk_LogWorld ∅ blocked_disk)
          = (Raise (OSError "FileExistsError" "[Errno 17] File exists: '/srv/tradelab/logs'"),
             (setup_logger "tradelab"
                (Some ["srv"; "tradelab"; "logs"; "20240103_ibkr_fetcher.log"]) INFO_level
                default_format (mk_LogWorld ∅ blocked_disk)).2)) as H
    by (vm_compute; reflexivity).
  split; [reflexivity|]. split; [by rewrite H|].
  destruct (setup_logger_failure_loses_file_handler "tradelab" _ INFO_level default_format
              (mk_LogWorld ∅ blocked_disk) _ _ (lookup_empty _) H) as (_ & Hlg & _).
  exact Hlg.
Defined.

Lemma setup_logger_never_duplicates_handlers_witness :
  let calls := [("tradelab", Some ["logs"; "a.log"], INFO_level, default_format);
                ("tradelab", Some ["logs"; "b.log"], 10, "%(message)s")] in
  ∃ lg,
    loggers (setup_all calls (mk_LogWorld ∅ (mk_FS ∅ ∅))) !! "tradelab" = Some lg
    ∧ Logging.set_up lg.
Proof.
  cbv zeta. eexists. split; [vm_compute; reflexivity|].
  eapply (setup_logger_never_duplicates_handlers
            [("tradelab", Some ["logs"; "a.log"], INFO_level, default_format);
             ("tradelab", Some ["logs"; "b.log"], 10, "%(message)s")]
            (mk_FS ∅ ∅) "tradelab").
  vm_compute. reflexivity.
Defined.

Lemma get_logger_without_file_witness :
  log_fs (get_logger settings wednesday "tradelab.data.ibkr_fetcher" false
            (mk_LogWorld ∅ disk)).2 = disk.
Proof.
  destruct (get_logger_without_file settings wednesday "tradelab.data.ibkr_fetcher"
              (mk_LogWorld ∅ disk)
              (get_logger settings wednesday "tradelab.data.ibkr_fetcher" false
                 (mk_LogWorld ∅ disk)).1
              (get_logger settings wednesday "tradelab.data.ibkr_fetcher" false
                 (mk_LogWorld ∅ disk)).2) as (Hfs & _).
  - reflexivity.
  - exact Hfs.
Defined.
